(** * Smart-contract deployer: the deployment session orchestrator

    A shallow embedding of [src/app/app.py] (the FastAPI handlers around
    Brownie) together with the properties its specification states.

    - Strings are [string]; [+:+] is concatenation.
    - [str.replace] is the Python built-in, written out as a left-to-right
      scan for non-overlapping occurrences.
    - The file system is a finite map from paths to contents.
    - Brownie, pathvalidate and the chain are collaborators: a [Toolkit]
      record of oracles.  Every call to a collaborator that touches the
      file system, the project, the network or the chain is appended to a
      trace, so that call counts and call order can be stated.
    - Python exceptions are values of [exn]; a handler is a computation in
      a state-and-exception monad over the [World].  A handler that ends
      in [inl exc] let the exception [exc] escape.
    - Template parameters are the items of a dict, in iteration order.
      The handlers are first given on a well-formed request in a working
      folder: parameter values are strings, a file holds the text it is
      read as, and the files open.  [Full.deploy_template_contract] and
      [Full.read_item] then take the request as it arrives: any JSON
      object, files decoded as UTF-8 text, and a host that may refuse to
      open a file or to load the project again.
    - The network module is modelled by the list of connections it holds
      open, so that holding at most one is a property of the calls made
      and not of the type. *)

From Stdlib Require Import Ascii String.
From stdpp Require Import gmap strings list fin_maps.

Local Open Scope string_scope.
Local Open Scope list_scope.

(** ** Strings *)

Module Str.

(** [s.endswith(suffix)] *)
Definition endswith (s suffix : string) : bool :=
  String.prefix (String.rev suffix) (String.rev s).

(** [s.startswith(p)] *)
Definition startswith (s p : string) : bool := String.prefix p s.

(** The text put between and around the characters of [s] by
    [s.replace("", new)]. *)
Fixpoint between (new s : string) : string :=
  match s with
  | "" => ""
  | String c s' => String c (new +:+ between new s')
  end.

(** The scan of [s.replace(old, new)] for a non-empty [old]: [skip]
    counts the characters of the occurrence just replaced that are still
    to be passed over. *)
Fixpoint replace_from (old new : string) (skip : nat) (s : string) : string :=
  match s with
  | "" => ""
  | String c s' =>
      match skip with
      | S n => replace_from old new n s'
      | O =>
          if String.prefix old (String c s')
          then new +:+ replace_from old new (String.length old - 1) s'
          else String c (replace_from old new 0 s')
      end
  end.

(** Python's [s.replace(old, new)]: every non-overlapping occurrence of
    [old], found from left to right, becomes [new]. *)
Definition replace (old new s : string) : string :=
  match old with
  | "" => new +:+ between new s
  | _ => replace_from old new 0 s
  end.

(** [old] occurs in [s] as a substring. *)
Definition occurs (old s : string) : Prop :=
  ∃ a b, s = a +:+ old +:+ b.

(** No character of [s] satisfies [p]. *)
Fixpoint free_of (p : ascii → bool) (s : string) : bool :=
  match s with
  | "" => true
  | String c s' => negb (p c) && free_of p s'
  end.

Definition is_lt (c : ascii) : bool := Ascii.eqb c "<".
Definition is_gt (c : ascii) : bool := Ascii.eqb c ">".
Definition is_bracket (c : ascii) : bool := is_lt c || is_gt c.

(** A name without angle brackets. *)
Definition bracket_free (s : string) : bool := free_of is_bracket s.

(** Some character of [s] is [c]. *)
Definition has_char (c : ascii) (s : string) : bool := negb (free_of (Ascii.eqb c) s).

Definition single_quote : ascii := "'".
Definition double_quote : ascii := "034".
Definition backslash : ascii := "092".

(** The lower-case hexadecimal digit of [n < 16]. *)
Definition hex_digit (n : nat) : ascii :=
  match String.get n "0123456789abcdef" with
  | Some c => c
  | None => "0"
  end.

(** The two hexadecimal digits of a byte. *)
Definition hex2 (c : ascii) : string :=
  String (hex_digit (nat_of_ascii c / 16)) (String (hex_digit (nat_of_ascii c mod 16)) "").

(** The quote [repr] wraps a string in: the double quote when the string
    holds a single quote and no double quote, the single quote otherwise. *)
Definition repr_quote (s : string) : ascii :=
  if has_char single_quote s && negb (has_char double_quote s)
  then double_quote else single_quote.

(** One character inside [repr]: the backslash and the wrapping quote are
    escaped, tab, newline and carriage return take their letter, every
    other control character its hexadecimal code. *)
Definition repr_char (quote c : ascii) : string :=
  if Ascii.eqb c backslash then String backslash (String backslash "")
  else if Ascii.eqb c quote then String backslash (String quote "")
  else if Ascii.eqb c "009" then String backslash "t"
  else if Ascii.eqb c "010" then String backslash "n"
  else if Ascii.eqb c "013" then String backslash "r"
  else if Nat.ltb (nat_of_ascii c) 32 || Nat.eqb (nat_of_ascii c) 127
  then String backslash (String "x" (hex2 c))
  else String c "".

Fixpoint repr_body (quote : ascii) (s : string) : string :=
  match s with
  | "" => ""
  | String c s' => repr_char quote c +:+ repr_body quote s'
  end.

(** Python's [repr(s)] of a [str].  Characters outside ASCII are copied,
    as [repr] copies every printable one. *)
Definition repr (s : string) : string :=
  String (repr_quote s) (repr_body (repr_quote s) s +:+ String (repr_quote s) "").

(** Every character is ASCII. *)
Definition ascii_text (s : string) : bool :=
  free_of (λ c, negb (Nat.ltb (nat_of_ascii c) 128)) s.

(** Printable ASCII without quote, double quote or backslash: the text
    that [repr] only wraps in single quotes. *)
Definition plain_name (s : string) : bool :=
  free_of (λ c, negb (Nat.leb 32 (nat_of_ascii c) && Nat.ltb (nat_of_ascii c) 127)
                || Ascii.eqb c single_quote || Ascii.eqb c double_quote
                || Ascii.eqb c backslash) s.

End Str.

(** ** Template renderer ([deploy_template_contract], the substitution loop) *)

(** The placeholder ["<" + key + ">"]. *)
Definition token (key : string) : string := "<" +:+ key +:+ ">".

(** [for key, value in template_params.items():
       template_code = template_code.replace("<" + key + ">", value)]

    [template_params] is the dict's item list in iteration order, every
    value a string; [render_items] below is the loop on any JSON object. *)
Definition render (template_code : string) (template_params : list (string * string)) : string :=
  fold_left (λ code kv, Str.replace (token kv.1) kv.2 code) template_params template_code.

(** ** Python exceptions *)

(** The exception classes the handlers tell apart, and [Exception] for
    every other subclass of Python's [Exception]. *)
Inductive exn :=
  | KeyError (key : string)
  | ValidationError (msg : string)
  | AttributeError (msg : string)
  | FileNotFoundError (path : string)
  | Exception (msg : string).

(** [str(exc)]; a [KeyError] prints the [repr] of its key, a
    [FileNotFoundError] that of its path. *)
Definition str (exc : exn) : string :=
  match exc with
  | KeyError key => Str.repr key
  | ValidationError msg => msg
  | AttributeError msg => msg
  | FileNotFoundError path => "[Errno 2] No such file or directory: " +:+ Str.repr path
  | Exception msg => msg
  end.

(** ** Data *)

(** A loaded [brownie.network.account]. *)
Record Account := { address : string }.

(** [class ActiveAccount]: both attributes start as [None]. *)
Record ActiveAccount := {
  account : option Account;
  account_name : option string
}.

(** [ActiveAccount.set_account] *)
Definition set_account (self : ActiveAccount) (acc : Account) (name : string) : ActiveAccount :=
  {| account := Some acc; account_name := Some name |}.

(** A contract container of a loaded project. *)
Record ContractContainer := {
  container_name : string;
  abi : string
}.

(** A contract instance on the chain. *)
Record DeployedContract := {
  contract_address : string;
  bytecode : string;
  signatures : gmap string string
}.

Record TransactionReceipt := {
  txid : string;
  tx_status : Z
}.

(** What the collaborators were asked to do, in call order. *)
Inductive Event :=
  | EPathExists (path : string)
  | EReadFile (path : string)
  | EWriteFile (path content : string)
  | EAccountsLoad (name : string)
  | ENetDisconnect
  | ENetConnect (name : string) (connected : bool)
  | EProjectLoad
  | EProjectClose
  | EDeploy (container : string) (sender : option Account) (publish_source : bool)
  | ETransact (address selector : string) (args : list string) (sender : option Account).

Global Instance Account_eq_dec : EqDecision Account.
Proof. solve_decision. Defined.

Global Instance Event_eq_dec : EqDecision Event.
Proof. solve_decision. Defined.

(** The process-wide state the handlers share, and the outside world they
    act on. *)
Record World := {
  files : gmap string string;
  ACTIVEACCOUNT : ActiveAccount;
  (** connections the network module holds open, the active one first *)
  connections : list string;
  (** project handles loaded and not yet closed *)
  open_projects : nat;
  trace : list Event
}.

(** The collaborators: pathvalidate, the keystore, the network module and
    the compiler/chain toolkit.  A result [inl exc] is the call raising
    [exc]. *)
Record Toolkit := {
  (** [validate_filename(name)]: [Some msg] when it raises
      [ValidationError(msg)] *)
  validate_filename : string → option string;
  (** [accounts.load(name, password)] *)
  accounts_load : string → string → exn + Account;
  (** [network.connect(name)]: [Some exc] when it raises and leaves the
      network disconnected *)
  network_connect : string → option exn;
  (** [project.load("../")], which compiles what the project folder holds *)
  project_load : gmap string string → exn + gmap string ContractContainer;
  (** [container.deploy({"from": sender}, publish_source=...)] *)
  container_deploy : ContractContainer → option Account → bool → exn + DeployedContract;
  (** [container.get_verification_info()] *)
  get_verification_info : ContractContainer → exn + string;
  (** [container.at(address)] *)
  container_at : ContractContainer → string → exn + DeployedContract;
  (** [deployed.get_method_object(selector).transact] on the unpacked
      arguments followed by [{"from": sender}] *)
  method_transact : DeployedContract → string → list string → option Account → exn + TransactionReceipt
}.

(** ** Responses *)

(** The ["data"] object of a successful deployment. *)
Record ContractJson := {
  data_abi : string;
  data_contract : string;
  data_network : option string;
  data_verification_info : string;
  data_deployed_bytecode : string;
  data_contract_name : string;
  data_contract_params : list (string * string);
  data_contract_code : string;
  data_contract_address : string;
  data_deployer_address : string
}.

(** The JSON bodies the handlers return. *)
Inductive Response :=
  | AccountActive (name : option string) (addr : string)
  | AccountInactive
  | NetworkActive (network : option string)
  | DeploySuccess (data : ContractJson)
  | InteractSuccess (tx_hash : string) (status : Z)
  | Error (message : string).

(** The ["status"] field of a body. *)
Definition status (r : Response) : string :=
  match r with
  | AccountActive _ _ | AccountInactive | NetworkActive _ => "ok"
  | DeploySuccess _ | InteractSuccess _ _ => "success"
  | Error _ => "error"
  end.

(** ** The handler monad: shared state and Python exceptions *)

(** A computation runs on a world and either returns a value or raises;
    the world it leaves behind is kept in both cases. *)
Definition M (A : Type) : Type := World → (exn + A) * World.

Global Instance M_ret : MRet M := λ A a w, (inr a, w).

Global Instance M_bind : MBind M := λ A B k m w,
  match m w with
  | (inr a, w') => k a w'
  | (inl exc, w') => (inl exc, w')
  end.

(** [raise exc] *)
Definition raise {A} (exc : exn) : M A := λ w, (inl exc, w).

(** [try: body  except ... as exc: handler exc] *)
Definition try_except {A} (body : M A) (handler : exn → M A) : M A := λ w,
  match body w with
  | (inl exc, w') => handler exc w'
  | (inr a, w') => (inr a, w')
  end.

(** The result of a collaborator call. *)
Definition lift_result {A} (r : exn + A) : M A :=
  match r with
  | inl exc => raise exc
  | inr a => mret a
  end.

Definition get_world : M World := λ w, (inr w, w).

Definition log (ev : Event) : M unit := λ w,
  (inr (),
   {| files := files w; ACTIVEACCOUNT := ACTIVEACCOUNT w; connections := connections w;
      open_projects := open_projects w; trace := trace w ++ [ev] |}).

Definition set_files (fs : gmap string string) : M unit := λ w,
  (inr (),
   {| files := fs; ACTIVEACCOUNT := ACTIVEACCOUNT w; connections := connections w;
      open_projects := open_projects w; trace := trace w |}).

Definition set_ACTIVEACCOUNT (a : ActiveAccount) : M unit := λ w,
  (inr (),
   {| files := files w; ACTIVEACCOUNT := a; connections := connections w;
      open_projects := open_projects w; trace := trace w |}).

Definition set_connections (cs : list string) : M unit := λ w,
  (inr (),
   {| files := files w; ACTIVEACCOUNT := ACTIVEACCOUNT w; connections := cs;
      open_projects := open_projects w; trace := trace w |}).

Definition set_open_projects (n : nat) : M unit := λ w,
  (inr (),
   {| files := files w; ACTIVEACCOUNT := ACTIVEACCOUNT w; connections := connections w;
      open_projects := n; trace := trace w |}).

(** ** Collaborator calls *)

(** [validate_filename(name)] *)
Definition validate (tk : Toolkit) (name : string) : M unit :=
  match validate_filename tk name with
  | Some msg => raise (ValidationError msg)
  | None => mret ()
  end.

(** [os.path.join(a, b)] for a relative or absolute [b] *)
Definition path_join (a b : string) : string :=
  if Str.startswith b "/" then b
  else if Str.endswith a "/" || bool_decide (a = "") then a +:+ b
  else a +:+ "/" +:+ b.

(** [os.path.exists(path)] *)
Definition path_exists (path : string) : M bool :=
  log (EPathExists path) ;;
  w ← get_world;
  mret (bool_decide (is_Some (files w !! path))).

(** [open(path, "r").read()] on a file that holds the text it is read
    as; [read_text] below decodes the content. *)
Definition read_file (path : string) : M string :=
  log (EReadFile path) ;;
  w ← get_world;
  match files w !! path with
  | Some content => mret content
  | None => raise (FileNotFoundError path)
  end.

(** [open(path, "w+").write(content)] on a path that opens: the file is
    created or truncated.  [write_text] below asks the host first. *)
Definition write_file (path content : string) : M unit :=
  log (EWriteFile path content) ;;
  w ← get_world;
  set_files (<[path := content]> (files w)).

(** [accounts.load(name, password)] *)
Definition load_account (tk : Toolkit) (name password : string) : M Account :=
  log (EAccountsLoad name) ;;
  lift_result (accounts_load tk name password).

(** [ACTIVEACCOUNT.account] *)
Definition active_account : M (option Account) :=
  w ← get_world; mret (account (ACTIVEACCOUNT w)).

(** [acc.address], on an account that may be [None] *)
Definition address_of (acc : option Account) : M string :=
  match acc with
  | Some a => mret (address a)
  | None => raise (AttributeError "'NoneType' object has no attribute 'address'")
  end.

(** [network.is_connected()] *)
Definition is_connected : M bool :=
  w ← get_world; mret (bool_decide (connections w ≠ [])).

(** [network.show_active()]: the active network, [None] when there is none *)
Definition show_active : M (option string) :=
  w ← get_world; mret (head (connections w)).

(** [network.disconnect()]: the active connection is closed *)
Definition disconnect : M unit :=
  log ENetDisconnect ;;
  w ← get_world;
  set_connections (tail (connections w)).

(** [network.connect(name)] *)
Definition connect (tk : Toolkit) (name : string) : M unit :=
  match network_connect tk name with
  | Some exc => log (ENetConnect name false) ;; raise exc
  | None =>
      log (ENetConnect name true) ;;
      w ← get_world;
      set_connections (name :: connections w)
  end.

(** [project.load("../")]: a handle is held once the call has returned.
    [load_project_on] below lets the host refuse a second load. *)
Definition load_project (tk : Toolkit) : M (gmap string ContractContainer) :=
  log EProjectLoad ;;
  w ← get_world;
  proj ← lift_result (project_load tk (files w));
  set_open_projects (S (open_projects w)) ;;
  mret proj.

(** [contract_proj.close()] *)
Definition close_project : M unit :=
  log EProjectClose ;;
  w ← get_world;
  set_open_projects (pred (open_projects w)).

(** [d[key]] on a dict *)
Definition getitem {V} (d : gmap string V) (key : string) : M V :=
  match d !! key with
  | Some v => mret v
  | None => raise (KeyError key)
  end.

(** [contract_container.deploy({"from": sender}, publish_source=publish_source)] *)
Definition deploy (tk : Toolkit) (c : ContractContainer) (sender : option Account)
    (publish_source : bool) : M DeployedContract :=
  log (EDeploy (container_name c) sender publish_source) ;;
  lift_result (container_deploy tk c sender publish_source).

(** [func.transact] on the arguments and [{"from": sender}] *)
Definition transact (tk : Toolkit) (d : DeployedContract) (selector : string)
    (args : list string) (sender : option Account) : M TransactionReceipt :=
  log (ETransact (contract_address d) selector args sender) ;;
  lift_result (method_transact tk d selector args sender).

(** ** Handlers *)

(** [if not template_name.endswith(".sol"): template_name += ".sol"] *)
Definition with_sol (template_name : string) : string :=
  if Str.endswith template_name ".sol" then template_name else template_name +:+ ".sol".

Definition template_path_of (template_name : string) : string :=
  path_join "../templates/" (with_sol template_name).

Definition contract_path_of (contract_name : string) : string :=
  path_join "../contracts/" (contract_name +:+ ".sol").

Definition name_mismatch_message (exc : exn) : string :=
  "Please make sure that the contract name and token name are same! KeyError: " +:+ str exc.

(** [get_account_active] *)
Definition get_account_active : M Response :=
  w ← get_world;
  match account (ACTIVEACCOUNT w) with
  | Some acc => mret (AccountActive (account_name (ACTIVEACCOUNT w)) (address acc))
  | None => mret AccountInactive
  end.

(** [set_account_active] *)
Definition set_account_active (tk : Toolkit) (account_name account_pass : string) : M Response :=
  try_except
    (acc ← load_account tk account_name account_pass;
     w ← get_world;
     set_ACTIVEACCOUNT (set_account (ACTIVEACCOUNT w) acc account_name) ;;
     mret (AccountActive (Some account_name) (address acc)))
    (λ exc, mret (Error (str exc))).

(** [get_network_active] *)
Definition get_network_active : M Response :=
  c ← is_connected;
  if (c : bool) then n ← show_active; mret (NetworkActive n)
  else mret (Error "Not connected to any network").

(** [set_network_active] *)
Definition set_network_active (tk : Toolkit) (network_name : string) : M Response :=
  c ← is_connected;
  (if (c : bool) then disconnect else mret ()) ;;
  connect tk network_name ;;
  n ← show_active;
  mret (NetworkActive n).

(** [deploy_template_contract], on string-valued parameters *)
Definition deploy_template_contract (tk : Toolkit) (template_name : string)
    (template_params : list (string * string)) (contract_name : string)
    (publish_source : bool) : M Response :=
  try_except
    (let template_name := with_sol template_name in
     let contract_path := contract_name +:+ ".sol" in
     validate tk template_name ;;
     validate tk contract_path ;;
     let template_path := path_join "../templates/" template_name in
     let contract_path := path_join "../contracts/" contract_path in
     present ← path_exists template_path;
     if negb present
     then mret (Error (template_name +:+ " template is not available!"))
     else
       template_code ← read_file template_path;
       let template_code := render template_code template_params in
       write_file contract_path template_code ;;
       contract_proj ← load_project tk;
       contract_container ← getitem contract_proj contract_name;
       try_except
         (sender ← active_account;
          deployed_contract ← deploy tk contract_container sender publish_source;
          net ← show_active;
          info ← lift_result (get_verification_info tk contract_container);
          deployer ← active_account;
          deployer_address ← address_of deployer;
          let contract_json :=
            DeploySuccess
              {| data_abi := abi contract_container;
                 data_contract := template_code;
                 data_network := net;
                 data_verification_info := info;
                 data_deployed_bytecode := bytecode deployed_contract;
                 data_contract_name := contract_name;
                 data_contract_params := template_params;
                 data_contract_code := template_code;
                 data_contract_address := contract_address deployed_contract;
                 data_deployer_address := deployer_address |} in
          close_project ;;
          mret contract_json)
         (λ exc, close_project ;; mret (Error (str exc))))
    (λ exc,
       match exc with
       | KeyError _ => mret (Error (name_mismatch_message exc))
       | ValidationError _ => mret (Error (str exc))
       | _ => mret (Error (str exc))
       end).

(** [interact_contract] *)
Definition interact_contract (tk : Toolkit) (contract_name contract_address contract_method : string)
    (method_args : list string) : M Response :=
  try_except
    (contract_proj ← load_project tk;
     contract_container ← getitem contract_proj contract_name;
     deployed_contract ← lift_result (container_at tk contract_container contract_address);
     selector ← getitem (signatures deployed_contract) contract_method;
     sender ← active_account;
     func_tx ← transact tk deployed_contract selector method_args sender;
     close_project ;;
     mret (InteractSuccess (txid func_tx) (tx_status func_tx)))
    (λ exc, mret (Error (str exc))).

(** ** A concrete toolkit

    A small stand-in for the collaborators, used to run the handlers on
    concrete requests: a validator that refuses empty names and path
    separators, a keystore with one account, two known networks, and a
    project loader that compiles every source of the contracts folder and
    registers each container under the name its source declares. *)

Module Demo.

Definition is_slash (c : ascii) : bool := Ascii.eqb c "/".

Definition demo_validate_filename (name : string) : option string :=
  if bool_decide (name = "") then Some "the value must not be an empty"
  else if Str.free_of is_slash name then None
  else Some "invalid char found: invalids=('/')".

Definition deployer : Account := {| address := "0xA11CE" |}.

Definition demo_accounts_load (name password : string) : exn + Account :=
  if bool_decide (name = "deployer") && bool_decide (password = "secret")
  then inr deployer
  else inl (Exception "password or name is incorrect").

Definition demo_network_connect (name : string) : option exn :=
  if bool_decide (name = "development") || bool_decide (name = "goerli")
  then None
  else Some (Exception ("Network '" +:+ name +:+ "' is not defined")).

(** The characters of [s] up to the first space or opening brace. *)
Fixpoint take_name (s : string) : string :=
  match s with
  | "" => ""
  | String c s' =>
      if Ascii.eqb c " " || Ascii.eqb c "{" then "" else String c (take_name s')
  end.

(** The contract a source declares: the name after a leading
    [contract ] keyword. *)
Definition declared_name (source : string) : option string :=
  if Str.startswith source "contract "
  then Some (take_name (String.substring 9 (String.length source - 9) source))
  else None.

Definition container (name : string) : ContractContainer :=
  {| container_name := name; abi := "abi(" +:+ name +:+ ")" |}.

(** Every source under [../contracts/] contributes the container of the
    contract it declares. *)
Definition compile (fs : gmap string string) : gmap string ContractContainer :=
  list_to_map
    (omap (λ '(path, source),
             if Str.startswith path "../contracts/"
             then name ← declared_name source; Some (name, container name)
             else None)
          (map_to_list fs)).

Definition demo_project_load (fs : gmap string string) : exn + gmap string ContractContainer :=
  inr (compile fs).

Definition instance (name addr : string) : DeployedContract :=
  {| contract_address := addr;
     bytecode := "0x6080" +:+ name;
     signatures := {[ "mint" := "0x1249c58b" ]} |}.

(** Brownie refuses a transaction dict whose sender is missing. *)
Definition demo_container_deploy (c : ContractContainer) (sender : option Account)
    (publish_source : bool) : exn + DeployedContract :=
  match sender with
  | None => inl (AttributeError "Final argument must be a dict of transaction parameters that includes a `from` field specifying the address to deploy from")
  | Some _ => inr (instance (container_name c) "0xC0DE")
  end.

Definition demo_get_verification_info (c : ContractContainer) : exn + string :=
  inr ("flattened(" +:+ container_name c +:+ ")").

Definition demo_container_at (c : ContractContainer) (addr : string) : exn + DeployedContract :=
  inr (instance (container_name c) addr).

Definition demo_method_transact (d : DeployedContract) (selector : string) (args : list string)
    (sender : option Account) : exn + TransactionReceipt :=
  match sender with
  | None => inl (AttributeError "Final argument must be a dict of transaction parameters that includes a `from` field specifying the sender of the transaction")
  | Some _ => inr {| txid := "0xFEED"; tx_status := 1 |}
  end.

Definition toolkit : Toolkit :=
  {| validate_filename := demo_validate_filename;
     accounts_load := demo_accounts_load;
     network_connect := demo_network_connect;
     project_load := demo_project_load;
     container_deploy := demo_container_deploy;
     get_verification_info := demo_get_verification_info;
     container_at := demo_container_at;
     method_transact := demo_method_transact |}.

Definition template : string := "contract <NAME> { uint x = <VAL>; }".

(** A fresh server: one template on disk, nobody signed in, no network. *)
Definition fresh : World :=
  {| files := {[ "../templates/Simple.sol" := template ]};
     ACTIVEACCOUNT := {| account := None; account_name := None |};
     connections := [];
     open_projects := 0;
     trace := [] |}.

(** The same server once [deployer] is the active account. *)
Definition signed_in : World :=
  {| files := {[ "../templates/Simple.sol" := template ]};
     ACTIVEACCOUNT := {| account := Some deployer; account_name := Some "deployer" |};
     connections := ["development"];
     open_projects := 0;
     trace := [] |}.


(** A server on which [Foo] was deployed, with [deployer] signed in. *)
Definition deployed : World :=
  {| files := {[ "../templates/Simple.sol" := template;
                 "../contracts/Foo.sol" := "contract Foo { uint x = 5; }" ]};
     ACTIVEACCOUNT := {| account := Some deployer; account_name := Some "deployer" |};
     connections := ["development"];
     open_projects := 0;
     trace := [] |}.

(** The same server after a restart: nobody is signed in. *)
Definition restarted : World :=
  {| files := {[ "../templates/Simple.sol" := template;
                 "../contracts/Foo.sol" := "contract Foo { uint x = 5; }" ]};
     ACTIVEACCOUNT := {| account := None; account_name := None |};
     connections := ["development"];
     open_projects := 0;
     trace := [] |}.

End Demo.

(** ** Observations on runs, traces and templates *)

(** The world [w] once the files are [fs], [opened] project handles are
    held and the events [evs] have been appended to its trace; the active
    account and the connections are those of [w]. *)
Definition advance (w : World) (fs : gmap string string) (opened : nat) (evs : list Event) : World :=
  {| files := fs; ACTIVEACCOUNT := ACTIVEACCOUNT w; connections := connections w;
     open_projects := opened; trace := trace w ++ evs |}.


Definition is_submission (ev : Event) : bool :=
  match ev with EDeploy _ _ _ | ETransact _ _ _ _ => true | _ => false end.

(** The collaborator calls of [deploy_template_contract] up to and
    including the project load. *)
Definition prepared_events (template_name contract_name rendered : string) : list Event :=
  [EPathExists (template_path_of template_name);
   EReadFile (template_path_of template_name);
   EWriteFile (contract_path_of contract_name) rendered;
   EProjectLoad].

(** The message the outermost [except] clauses of
    [deploy_template_contract] give to [exc]. *)
Definition outer_message (exc : exn) : string :=
  match exc with
  | KeyError _ => name_mismatch_message exc
  | _ => str exc
  end.

(** The body [deploy_template_contract] returns once the container [c] is
    resolved: the inner [try] and its [except Exception]. *)
Definition deploy_response (tk : Toolkit) (w : World) (c : ContractContainer)
    (contract_name template_code : string) (template_params : list (string * string))
    (publish_source : bool) : Response :=
  match container_deploy tk c (account (ACTIVEACCOUNT w)) publish_source with
  | inl exc => Error (str exc)
  | inr d =>
      match get_verification_info tk c with
      | inl exc => Error (str exc)
      | inr info =>
          match account (ACTIVEACCOUNT w) with
          | None => Error "'NoneType' object has no attribute 'address'"
          | Some a =>
              DeploySuccess
                {| data_abi := abi c;
                   data_contract := template_code;
                   data_network := head (connections w);
                   data_verification_info := info;
                   data_deployed_bytecode := bytecode d;
                   data_contract_name := contract_name;
                   data_contract_params := template_params;
                   data_contract_code := template_code;
                   data_contract_address := contract_address d;
                   data_deployer_address := address a |}
          end
      end
  end.

(** Number of events of [evs] that satisfy [p]: a collaborator's call count. *)
Fixpoint count_events (p : Event → bool) (evs : list Event) : nat :=
  match evs with
  | [] => 0
  | ev :: evs' => (if p ev then 1 else 0) + count_events p evs'
  end.

(** The status of the body a handler returned; [None] when an exception
    left the handler instead. *)
Definition returned_status (out : exn + Response) : option string :=
  match out with
  | inr body => Some (status body)
  | inl _ => None
  end.

Definition is_project_load (ev : Event) : bool :=
  match ev with EProjectLoad => true | _ => false end.

Definition is_project_close (ev : Event) : bool :=
  match ev with EProjectClose => true | _ => false end.

(** The connections held after the network collaborator has served [ev]. *)
Definition net_step (held : list string) (ev : Event) : list string :=
  match ev with
  | ENetDisconnect => tail held
  | ENetConnect name true => name :: held
  | _ => held
  end.

(** The connections held after each event of [evs] in turn, starting from
    [held]. *)
Fixpoint net_history (held : list string) (evs : list Event) : list (list string) :=
  match evs with
  | [] => []
  | ev :: evs' => net_step held ev :: net_history (net_step held ev) evs'
  end.

(** At no point of the history are two connections held. *)
Definition never_two (history : list (list string)) : bool :=
  forallb (λ held, Nat.leb (length held) 1) history.

(** The scan behind [flat]: [opened] tells whether a ['<'] has been read
    that no ['>'] has closed yet. *)
Fixpoint unnested (opened : bool) (s : string) : bool :=
  match s with
  | "" => true
  | String c s' =>
      if Str.is_lt c then negb opened && unnested true s'
      else if Str.is_gt c then unnested false s'
      else unnested opened s'
  end.

(** No ['<'] of [s] is followed by another ['<'] before the next ['>']. *)
Definition flat (s : string) : bool := unnested false s.

(** Keys and values without angle brackets. *)
Definition plain_params (template_params : list (string * string)) : bool :=
  forallb (λ kv, Str.bracket_free kv.1 && Str.bracket_free kv.2) template_params.

(** The shape of a flat string: text without ['<'], then either nothing,
    or a last unclosed ['<'], or a bracketed name followed by a flat rest. *)
Inductive Flat : string → Prop :=
  | Flat_text x : Str.free_of Str.is_lt x = true → Flat x
  | Flat_open x n :
      Str.free_of Str.is_lt x = true → Str.bracket_free n = true →
      Flat (x +:+ String "<" n)
  | Flat_token x n r :
      Str.free_of Str.is_lt x = true → Str.bracket_free n = true → Flat r →
      Flat (x +:+ token n +:+ r).

(** Whether a ['<'] is still unclosed once [s] has been read. *)
Fixpoint opened_after (opened : bool) (s : string) : bool :=
  match s with
  | "" => opened
  | String c s' =>
      if Str.is_lt c then opened_after true s'
      else if Str.is_gt c then opened_after false s'
      else opened_after opened s'
  end.

(** The shape of a flat string that leaves no ['<'] unclosed. *)
Inductive Closed : string → Prop :=
  | Closed_text x : Str.free_of Str.is_lt x = true → Closed x
  | Closed_token x n r :
      Str.free_of Str.is_lt x = true → Str.bracket_free n = true → Closed r →
      Closed (x +:+ token n +:+ r).

(** The keys of the mapping are names without angle brackets. *)
Definition plain_keys (template_params : list (string * string)) : bool :=
  forallb (λ kv, Str.bracket_free kv.1) template_params.

(** * The rest of the server

    The handlers the sections above leave aside: the template store, the
    contract listing, the keystore and package-manager passthroughs of
    [src/app/app.py], and the single endpoint of [src/api/app.py]. *)

(** ** More strings *)

(** The double-quote character, for messages that quote a name. *)
Definition dquote : string := String "034"%char "".

(** [s.split(old)[0]] for a non-empty [old]: what stands before the first
    occurrence of [old], all of [s] when there is none. *)
Fixpoint split_head (old s : string) : string :=
  match s with
  | "" => ""
  | String c s' => if String.prefix old (String c s') then "" else String c (split_head old s')
  end.

(** [old in s] *)
Fixpoint contains (old s : string) : bool :=
  match s with
  | "" => String.prefix old ""
  | String c s' => String.prefix old (String c s') || contains old s'
  end.

(** [s[n:]] *)
Fixpoint drop_chars (n : nat) (s : string) : string :=
  match n, s with
  | O, _ => s
  | S n', String _ s' => drop_chars n' s'
  | S _, "" => ""
  end.

Definition is_sep (c : ascii) : bool := Ascii.eqb c "/".

(** The first component of a relative path. *)
Fixpoint until_sep (s : string) : string :=
  match s with
  | "" => ""
  | String c s' => if is_sep c then "" else String c (until_sep s')
  end.

(** Python's truth value of a [str]. *)
Definition truthy (s : string) : bool := negb (bool_decide (s = "")).

(** Text that reads back from a file as it was written: ASCII, and no
    carriage return for the text mode to translate. *)
Definition plain_text (s : string) : bool :=
  Str.free_of (λ c, negb (Nat.ltb (nat_of_ascii c) 128) || Ascii.eqb c "013") s.

(** ** More of the file system *)

(** [CONTRACT_TEMPLATE_FOLDER] and [CONTRACT_FOLDER] *)
Definition CONTRACT_TEMPLATE_FOLDER : string := "../templates".
Definition CONTRACT_FOLDER : string := "../contracts".

(** The entry of [folder] that the file at [path] lies in or is. *)
Definition entry_of (folder path : string) : option string :=
  if Str.startswith path (folder +:+ "/")
  then
    let name := until_sep (drop_chars (String.length folder + 1) path) in
    if bool_decide (name = "") then None else Some name
  else None.

(** [os.listdir(folder)]: the entries of [folder], each once, in no
    particular order.  The folder itself is taken to be there, as the two
    folders of the repository are. *)
Definition listdir (folder : string) : M (list string) :=
  w ← get_world;
  mret (remove_dups (omap (λ kv, entry_of folder kv.1) (map_to_list (files w)))).

(** [os.remove(path)] *)
Definition remove_file (path : string) : M unit :=
  w ← get_world;
  match files w !! path with
  | Some _ => set_files (delete path (files w))
  | None => raise (FileNotFoundError path)
  end.

(** ** The template store *)

(** The JSON bodies of the template handlers. *)
Inductive StoreResponse :=
  | TemplateList (templates : list string)
  | TemplateCode (template_name template_code : string)
  | TemplateNamed (template_name : string)
  | StoreError (message : string).

Definition store_status (r : StoreResponse) : string :=
  match r with
  | StoreError _ => "error"
  | _ => "ok"
  end.

Definition not_found_message (template_name : string) : string :=
  "template " +:+ dquote +:+ template_name +:+ dquote +:+ " not found".

Definition already_exists_message (template_name : string) : string :=
  "template " +:+ dquote +:+ template_name +:+ dquote +:+ " already exists".

(** [except ValidationError as exc: return {"status": "error", ...}]: any
    other exception goes on. *)
Definition except_ValidationError (exc : exn) : M StoreResponse :=
  match exc with
  | ValidationError _ => mret (StoreError (str exc))
  | _ => raise exc
  end.

(** [get_templates_list] *)
Definition get_templates_list : M StoreResponse :=
  names ← listdir CONTRACT_TEMPLATE_FOLDER;
  mret (TemplateList
          (split_head ".sol" <$>
           List.filter (λ template_name, Str.endswith template_name ".sol") names)).

(** [get_template_code] *)
Definition get_template_code (tk : Toolkit) (template_name : string) : M StoreResponse :=
  let template_name := with_sol template_name in
  try_except
    (validate tk template_name ;;
     let template_path := path_join CONTRACT_TEMPLATE_FOLDER template_name in
     present ← path_exists template_path;
     if (present : bool)
     then
       template_code ← read_file template_path;
       mret (TemplateCode template_name template_code)
     else mret (StoreError (not_found_message template_name)))
    except_ValidationError.

(** [add_template] *)
Definition add_template (tk : Toolkit) (template_name template_bytes : string) : M StoreResponse :=
  let template_name := with_sol template_name in
  try_except
    (validate tk template_name ;;
     let template_path := path_join CONTRACT_TEMPLATE_FOLDER template_name in
     present ← path_exists template_path;
     if (present : bool)
     then mret (StoreError (already_exists_message template_name))
     else
       write_file template_path template_bytes ;;
       mret (TemplateNamed template_name))
    except_ValidationError.

(** [delete_template] *)
Definition delete_template (tk : Toolkit) (template_name : string) : M StoreResponse :=
  let template_name := with_sol template_name in
  try_except
    (validate tk template_name ;;
     let template_path := path_join CONTRACT_TEMPLATE_FOLDER template_name in
     present ← path_exists template_path;
     if negb present
     then mret (StoreError (not_found_message template_name))
     else
       try_except
         (remove_file template_path ;;
          mret (TemplateNamed template_name))
         (λ exc, mret (StoreError (str exc))))
    except_ValidationError.

(** The names [get_templates_list] returns. *)
Definition listed_templates (w : World) : list string :=
  match (get_templates_list w).1 with
  | inr (TemplateList templates) => templates
  | _ => []
  end.

(** ** The contract listing *)

(** [get_contracts]: the body is [{"status": "ok", "contracts": [...]}];
    the names come in the project's own order. *)
Definition get_contracts (tk : Toolkit) : M (list string) :=
  contract_proj ← load_project tk;
  mret ((map_to_list contract_proj).*1).

(** ** Keystore, package manager and compiler *)

(** A freshly added account, which still shows its private key. *)
Record LocalAccount := {
  local_account : Account;
  local_private_key : string
}.

(** What [brownie.compile_source] yields for one contract. *)
Record CompiledContract := {
  compiled_abi : string;
  compiled_bytecode : string
}.

(** The collaborators of the remaining handlers.  [Some exc] and [inl exc]
    are the call raising [exc]. *)
Record Services := {
  (** [accounts.load()] without arguments *)
  accounts_names : list string;
  (** [accounts.add(private_key=...)] *)
  accounts_add : option string → exn + LocalAccount;
  (** [account.save(filename=..., password=...)] *)
  account_save : LocalAccount → string → string → option exn;
  (** [accounts.remove(account)] *)
  accounts_remove : Account → option exn;
  (** [package_manager._delete(name)] *)
  pm_delete_package : string → option exn;
  (** [package_manager._install(name)] *)
  pm_install_package : string → option exn;
  (** [brownie.compile_source(source).dict()] *)
  compile_source : string → exn + gmap string CompiledContract
}.

(** A call that returns nothing or raises. *)
Definition lift_call (r : option exn) : M unit :=
  match r with
  | Some exc => raise exc
  | None => mret ()
  end.

(** The bodies of the account handlers that the session handlers do not
    share. *)
Inductive KeystoreResponse :=
  | AccountsList (names : list string)
  | Generated (account_address account_private_key : string)
  | HTTPException (status_code : nat) (message : string)
  | NoBody.

(** [get_accounts_list] *)
Definition get_accounts_list (sv : Services) : M KeystoreResponse :=
  mret (AccountsList (accounts_names sv)).

(** [generate_new_account] *)
Definition generate_new_account (sv : Services) (account_name account_pass : string)
    (private_key : option string) : M KeystoreResponse :=
  acc ← lift_result (accounts_add sv private_key);
  (if truthy account_pass
   then lift_call (account_save sv acc account_name account_pass)
   else mret ()) ;;
  mret (Generated (address (local_account acc)) (local_private_key acc)).

(** [delete_account]: the exception object is returned, not raised, and a
    successful call returns nothing. *)
Definition delete_account (tk : Toolkit) (sv : Services) (account_name account_pass : string)
    : M KeystoreResponse :=
  loaded ← try_except
              (acc ← load_account tk account_name account_pass; mret (inr acc))
              (λ exc,
                 mret (inl (HTTPException 404
                              ("No account found locally with name " +:+ dquote +:+ account_name
                               +:+ dquote +:+ ". " +:+ str exc))));
  match loaded with
  | inl response => mret response
  | inr acc =>
      lift_call (accounts_remove sv acc) ;;
      mret NoBody
  end.

(** The bodies of the package-manager handlers. *)
Inductive PackageResponse :=
  | PackageSuccess (message : string)
  | PackageError (message : string).

(** [pm_delete] *)
Definition pm_delete (sv : Services) (package_name : string) : M PackageResponse :=
  try_except
    (lift_call (pm_delete_package sv package_name) ;;
     mret (PackageSuccess (package_name +:+ " deleted successfully")))
    (λ exc, mret (PackageError (str exc))).

(** [pm_install] *)
Definition pm_install (sv : Services) (package_name : string) : M PackageResponse :=
  try_except
    (lift_call (pm_install_package sv package_name) ;;
     mret (PackageSuccess (package_name +:+ " installed successfully")))
    (λ exc, mret (PackageError (str exc))).

(** ** [src/api/app.py] *)

(** The bodies of [read_item]. *)
Inductive CompileResponse :=
  | Compiled (abi bytecode contract : string)
  | CompileError (message : string).

(** The six placeholders of [SimpleNFT.sol], in the order of the
    [replace] chain. *)
Definition simple_nft_params
    (nft_name nft_symbol mint_cost max_supply max_mint_amount_per_tx base_uri : string)
    : list (string * string) :=
  [("TOKEN_NAME", nft_name);
   ("TOKEN_SYMBOL", nft_symbol);
   ("MINT_COST", mint_cost);
   ("MAX_SUPPLY", max_supply);
   ("MAX_MINT_AMOUNT_PER_TX", max_mint_amount_per_tx);
   ("BASE_URI", base_uri)].

(** [read_item] *)
Definition read_item (sv : Services)
    (nft_name nft_symbol mint_cost max_supply max_mint_amount_per_tx base_uri : string)
    : M CompileResponse :=
  try_except
    (template_code ← read_file "../templates/SimpleNFT.sol";
     let template_code :=
       Str.replace "<BASE_URI>" base_uri
         (Str.replace "<MAX_MINT_AMOUNT_PER_TX>" max_mint_amount_per_tx
            (Str.replace "<MAX_SUPPLY>" max_supply
               (Str.replace "<MINT_COST>" mint_cost
                  (Str.replace "<TOKEN_SYMBOL>" nft_symbol
                     (Str.replace "<TOKEN_NAME>" nft_name template_code))))) in
     write_file ("../contracts/" +:+ nft_name +:+ ".sol") template_code ;;
     a ← lift_result (compile_source sv template_code);
     contract_abi ← getitem a nft_name;
     contract_bytecode ← getitem a nft_name;
     mret (Compiled (compiled_abi contract_abi) (compiled_bytecode contract_bytecode)
             template_code))
    (λ e, mret (CompileError (str e))).

(** ** The application: requests and their routes *)

(** The requests [src/app/app.py] serves. *)
Inductive Request :=
  | GetAccountsList
  | GetAccountActive
  | SetAccountActive (account_name account_pass : string)
  | GenerateNewAccount (account_name account_pass : string) (private_key : option string)
  | DeleteAccount (account_name account_pass : string)
  | GetNetworkActive
  | SetNetworkActive (network_name : string)
  | GetTemplatesList
  | GetTemplateCode (template_name : string)
  | AddTemplate (template_name template_bytes : string)
  | DeleteTemplate (template_name : string)
  | DeployTemplateContract (template_name : string) (template_params : list (string * string))
      (contract_name : string) (publish_source : bool)
  | GetContracts
  | InteractContract (contract_name contract_address contract_method : string)
      (method_args : list string)
  | PmDelete (package_name : string)
  | PmInstall (package_name : string).

(** The world a computation leaves behind. *)
Definition world_after {A} (m : M A) (w : World) : World := (m w).2.

(** One request served: the routers of [app]. *)
Definition serve (tk : Toolkit) (sv : Services) (req : Request) (w : World) : World :=
  match req with
  | GetAccountsList => world_after (get_accounts_list sv) w
  | GetAccountActive => world_after get_account_active w
  | SetAccountActive name pass => world_after (set_account_active tk name pass) w
  | GenerateNewAccount name pass key => world_after (generate_new_account sv name pass key) w
  | DeleteAccount name pass => world_after (delete_account tk sv name pass) w
  | GetNetworkActive => world_after get_network_active w
  | SetNetworkActive name => world_after (set_network_active tk name) w
  | GetTemplatesList => world_after get_templates_list w
  | GetTemplateCode name => world_after (get_template_code tk name) w
  | AddTemplate name bytes => world_after (add_template tk name bytes) w
  | DeleteTemplate name => world_after (delete_template tk name) w
  | DeployTemplateContract tn params cn ps =>
      world_after (deploy_template_contract tk tn params cn ps) w
  | GetContracts => world_after (get_contracts tk) w
  | InteractContract cn addr method args => world_after (interact_contract tk cn addr method args) w
  | PmDelete name => world_after (pm_delete sv name) w
  | PmInstall name => world_after (pm_install sv name) w
  end.

(** A sequence of requests served one after the other. *)
Definition serve_all (tk : Toolkit) (sv : Services) (reqs : list Request) (w : World) : World :=
  fold_left (λ w req, serve tk sv req w) reqs w.

Definition is_set_account (req : Request) : bool :=
  match req with SetAccountActive _ _ => true | _ => false end.

Definition is_set_network (req : Request) : bool :=
  match req with SetNetworkActive _ => true | _ => false end.

(** What every request leaves alone, when it is not the one that sets
    it: [w'] has the connections and the active account of [w], at least
    as many open project handles, and a trace that extends that of [w]. *)
Definition frames (w w' : World) : Prop :=
  connections w' = connections w ∧
  ACTIVEACCOUNT w' = ACTIVEACCOUNT w ∧
  (open_projects w ≤ open_projects w')%nat ∧
  ∃ evs, trace w' = trace w ++ evs.

(** ** Concrete services *)

Module Fixture.

Definition newcomer : LocalAccount :=
  {| local_account := {| address := "0xB0B" |}; local_private_key := "0x5ec2e7" |}.

Definition services : Services :=
  {| accounts_names := ["deployer"];
     accounts_add := λ _, inr newcomer;
     account_save := λ _ name _,
       if bool_decide (name = "deployer") then Some (Exception "Account with this id already exists")
       else None;
     accounts_remove := λ _, None;
     pm_delete_package := λ _, None;
     pm_install_package := λ _, None;
     compile_source := λ source,
       match Demo.declared_name source with
       | Some name =>
           inr {[ name := {| compiled_abi := "abi(" +:+ name +:+ ")";
                             compiled_bytecode := "0x6080" +:+ name |} ]}
       | None => inl (Exception "CompilerError: no contract found")
       end |}.

(** The same services without a working compiler. *)
Definition offline : Services :=
  {| accounts_names := accounts_names services;
     accounts_add := accounts_add services;
     account_save := account_save services;
     accounts_remove := accounts_remove services;
     pm_delete_package := pm_delete_package services;
     pm_install_package := pm_install_package services;
     compile_source := λ _, inl (Exception "solc is not installed") |}.

(** A server with two templates, one of them the NFT template of
    [src/api/app.py]. *)
Definition store : World :=
  {| files := {[ "../templates/Simple.sol" := Demo.template;
                 "../templates/SimpleNFT.sol" := "contract <TOKEN_NAME> { string s = <TOKEN_SYMBOL>; }" ]};
     ACTIVEACCOUNT := {| account := Some Demo.deployer; account_name := Some "deployer" |};
     connections := ["development"];
     open_projects := 0;
     trace := [] |}.

(** A toolkit whose project load trips over a missing key. *)
Definition broken_loader : Toolkit :=
  {| validate_filename := validate_filename Demo.toolkit;
     accounts_load := accounts_load Demo.toolkit;
     network_connect := network_connect Demo.toolkit;
     project_load := λ _, inl (KeyError "compiler");
     container_deploy := container_deploy Demo.toolkit;
     get_verification_info := get_verification_info Demo.toolkit;
     container_at := container_at Demo.toolkit;
     method_transact := method_transact Demo.toolkit |}.

(** The data of the success body for [Foo] deployed by [deployer]. *)
Definition success_data : ContractJson :=
  {| data_abi := "abi(Foo)";
     data_contract := "contract Foo { uint x = 5; }";
     data_network := Some "development";
     data_verification_info := "flattened(Foo)";
     data_deployed_bytecode := "0x6080Foo";
     data_contract_name := "Foo";
     data_contract_params := [("NAME", "Foo"); ("VAL", "5")];
     data_contract_code := "contract Foo { uint x = 5; }";
     data_contract_address := "0xC0DE";
     data_deployer_address := "0xA11CE" |}.

End Fixture.

(** * The deployment handler on a request as it arrives

    [deploy_template_contract] above is the handler on a well-formed
    request in a working folder: the values of [template_params] are
    strings, the template is read as the text it holds, and the files
    open.  This part adds what such a request cannot show:

    - [template_params: dict] is any JSON object, and [str.replace]
      raises [TypeError] on a value that is not a [str];
    - the template is opened in text mode with [encoding="utf-8"]: bytes
      that are not UTF-8 raise [UnicodeDecodeError] and every line ending
      is read as a line feed;
    - [open(contract_path, "w+")] raises when the host cannot open the
      path, as for a missing folder;
    - Brownie refuses [project.load] while a project of the same name is
      still loaded.

    Text is kept as its UTF-8 encoding, so that writing a text stores it
    as it is; the host writes line feeds as they are, as POSIX does. *)

(** ** JSON values *)

Local Unset Elimination Schemes.

Inductive json :=
  | JString (s : string)
  | JInt (n : Z)
  | JFloat (digits : string)
  | JBool (b : bool)
  | JNull
  | JArray (items : list json)
  | JObject (items : list (string * json)).

Local Set Elimination Schemes.

(** How [str.replace] names the Python value a JSON value is parsed to
    when it refuses it: by the name of its type, and [None] by itself. *)
Definition type_name (value : json) : string :=
  match value with
  | JString _ => "str"
  | JInt _ => "int"
  | JFloat _ => "float"
  | JBool _ => "bool"
  | JNull => "None"
  | JArray _ => "list"
  | JObject _ => "dict"
  end.

(** [TypeError] is one of the exceptions the handlers do not tell apart. *)
Definition TypeError (msg : string) : exn := Exception msg.

(** The [TypeError] of [template_code.replace(old, value)] on a [value]
    that is not a [str]. *)
Definition replace_type_error (value : json) : exn :=
  TypeError ("replace() argument 2 must be str, not " +:+ type_name value).

(** [for key, value in template_params.items():
       template_code = template_code.replace("<" + key + ">", value)]
    on the items of any JSON object: the loop stops at the first value
    that is not a string, with the [TypeError] of [str.replace]. *)
Fixpoint render_items (template_code : string) (template_params : list (string * json))
    : exn + string :=
  match template_params with
  | [] => inr template_code
  | (key, JString value) :: rest =>
      render_items (Str.replace (token key) value template_code) rest
  | (key, value) :: _ => inl (replace_type_error value)
  end.

(** A mapping from strings to strings, as a JSON object. *)
Definition text_params (template_params : list (string * string)) : list (string * json) :=
  (λ kv, (kv.1, JString kv.2)) <$> template_params.

(** The items of a JSON object whose values are strings. *)
Definition texts_of (template_params : list (string * json)) : list (string * string) :=
  omap (λ kv, match kv.2 with JString value => Some (kv.1, value) | _ => None end)
       template_params.

(** The first value of the object that is not a string. *)
Fixpoint first_non_string (template_params : list (string * json)) : option json :=
  match template_params with
  | [] => None
  | (_, JString _) :: rest => first_non_string rest
  | (_, value) :: _ => Some value
  end.

(** ** Text files *)

(** The decimal digits of [n]. *)
Fixpoint decimal_digits (fuel n : nat) (acc : string) : string :=
  match fuel with
  | O => acc
  | S fuel' =>
      let acc' := String (Str.hex_digit (n mod 10)) acc in
      if Nat.ltb n 10 then acc' else decimal_digits fuel' (n / 10) acc'
  end.

Definition decimal (n : nat) : string := decimal_digits (S n) n "".

(** Where the UTF-8 decoder stands: between two characters, or inside a
    character whose lead byte [lead] stood at [start], with [seen] bytes
    of it read, [remaining] more to come and the next one between [lo]
    and [hi]. *)
Inductive utf8_state :=
  | Utf8Start
  | Utf8Inside (remaining lo hi start : nat) (lead : ascii) (seen : nat).

(** [UnicodeDecodeError] for the bytes from [start] on, [seen] of them. *)
Definition UnicodeDecodeError (lead : ascii) (start seen : nat) (reason : string) : exn :=
  Exception
    ("'utf-8' codec can't decode " +:+
     (if Nat.eqb seen 1
      then "byte 0x" +:+ Str.hex2 lead +:+ " in position " +:+ decimal start
      else "bytes in position " +:+ decimal start +:+ "-" +:+ decimal (start + seen - 1))
     +:+ ": " +:+ reason).

(** The strict UTF-8 decoder on the bytes [s], the first of which stands
    at [pos]: the error it raises, if any.  Overlong forms, surrogates
    and code points above U+10FFFF are refused with the lead byte's
    range for the byte that follows it. *)
Fixpoint utf8_error (st : utf8_state) (pos : nat) (s : string) : option exn :=
  match s with
  | "" =>
      match st with
      | Utf8Start => None
      | Utf8Inside _ _ _ start lead seen =>
          Some (UnicodeDecodeError lead start seen "unexpected end of data")
      end
  | String c s' =>
      let b := nat_of_ascii c in
      match st with
      | Utf8Start =>
          if Nat.ltb b 128 then utf8_error Utf8Start (S pos) s'
          else if Nat.leb 194 b && Nat.leb b 223
          then utf8_error (Utf8Inside 1 128 191 pos c 1) (S pos) s'
          else if Nat.eqb b 224 then utf8_error (Utf8Inside 2 160 191 pos c 1) (S pos) s'
          else if Nat.eqb b 237 then utf8_error (Utf8Inside 2 128 159 pos c 1) (S pos) s'
          else if Nat.leb 225 b && Nat.leb b 239
          then utf8_error (Utf8Inside 2 128 191 pos c 1) (S pos) s'
          else if Nat.eqb b 240 then utf8_error (Utf8Inside 3 144 191 pos c 1) (S pos) s'
          else if Nat.eqb b 244 then utf8_error (Utf8Inside 3 128 143 pos c 1) (S pos) s'
          else if Nat.leb 241 b && Nat.leb b 243
          then utf8_error (Utf8Inside 3 128 191 pos c 1) (S pos) s'
          else Some (UnicodeDecodeError c pos 1 "invalid start byte")
      | Utf8Inside remaining lo hi start lead seen =>
          if Nat.leb lo b && Nat.leb b hi
          then
            match remaining with
            | S (S r) => utf8_error (Utf8Inside (S r) 128 191 start lead (S seen)) (S pos) s'
            | _ => utf8_error Utf8Start (S pos) s'
            end
          else Some (UnicodeDecodeError lead start seen "invalid continuation byte")
      end
  end.

(** Universal newlines: a carriage return, with the line feed that
    follows it if there is one, is read as one line feed. *)
Fixpoint universal_newlines (after_cr : bool) (s : string) : string :=
  match s with
  | "" => ""
  | String c s' =>
      if Ascii.eqb c "013" then String "010" (universal_newlines true s')
      else if after_cr && Ascii.eqb c "010" then universal_newlines false s'
      else String c (universal_newlines false s')
  end.

(** What [open(path, "r", encoding="utf-8").read()] makes of the bytes of
    a file. *)
Definition decode_text (content : string) : exn + string :=
  match utf8_error Utf8Start 0 content with
  | Some exc => inl exc
  | None => inr (universal_newlines false content)
  end.

(** [open(path, "r", encoding="utf-8").read()] *)
Definition read_text (path : string) : M string :=
  content ← read_file path;
  lift_result (decode_text content).

(** ** The host *)

(** What the machine and the Brownie process decide.  [Some exc] is the
    call raising [exc]. *)
Record Host := {
  (** [open(path, "w+")]: the folder of [path] may be missing, [path] may
      be a folder, the name may be too long *)
  open_for_writing : string → option exn;
  (** [project.load("../")] while [n] handles are held: Brownie raises
      [ProjectAlreadyLoaded] when a project of the same name is loaded *)
  load_refused : nat → option exn
}.

(** [with open(path, "w+", encoding="utf-8") as f: f.write(content)] *)
Definition write_text (os : Host) (path content : string) : M unit :=
  match open_for_writing os path with
  | Some exc => raise exc
  | None => write_file path content
  end.

(** [project.load("../")] *)
Definition load_project_on (tk : Toolkit) (os : Host) : M (gmap string ContractContainer) :=
  w ← get_world;
  match load_refused os (open_projects w) with
  | Some exc => log EProjectLoad ;; raise exc
  | None => load_project tk
  end.

Module Full.

(** [deploy_template_contract], on any JSON object as [template_params].
    The ["contract_params"] of a success body are the parameters as they
    came, all of them strings by then. *)
Definition deploy_template_contract (tk : Toolkit) (os : Host) (template_name : string)
    (template_params : list (string * json)) (contract_name : string)
    (publish_source : bool) : M Response :=
  try_except
    (let template_name := with_sol template_name in
     let contract_path := contract_name +:+ ".sol" in
     validate tk template_name ;;
     validate tk contract_path ;;
     let template_path := path_join "../templates/" template_name in
     let contract_path := path_join "../contracts/" contract_path in
     present ← path_exists template_path;
     if negb present
     then mret (Error (template_name +:+ " template is not available!"))
     else
       template_code ← read_text template_path;
       template_code ← lift_result (render_items template_code template_params);
       write_text os contract_path template_code ;;
       contract_proj ← load_project_on tk os;
       contract_container ← getitem contract_proj contract_name;
       try_except
         (sender ← active_account;
          deployed_contract ← deploy tk contract_container sender publish_source;
          net ← show_active;
          info ← lift_result (get_verification_info tk contract_container);
          deployer ← active_account;
          deployer_address ← address_of deployer;
          let contract_json :=
            DeploySuccess
              {| data_abi := abi contract_container;
                 data_contract := template_code;
                 data_network := net;
                 data_verification_info := info;
                 data_deployed_bytecode := bytecode deployed_contract;
                 data_contract_name := contract_name;
                 data_contract_params := texts_of template_params;
                 data_contract_code := template_code;
                 data_contract_address := contract_address deployed_contract;
                 data_deployer_address := deployer_address |} in
          close_project ;;
          mret contract_json)
         (λ exc, close_project ;; mret (Error (str exc))))
    (λ exc,
       match exc with
       | KeyError _ => mret (Error (name_mismatch_message exc))
       | ValidationError _ => mret (Error (str exc))
       | _ => mret (Error (str exc))
       end).

(** [read_item] of [src/api/app.py].  The template is opened in text
    mode with the locale's encoding, taken to be UTF-8. *)
Definition read_item (sv : Services) (os : Host)
    (nft_name nft_symbol mint_cost max_supply max_mint_amount_per_tx base_uri : string)
    : M CompileResponse :=
  try_except
    (template_code ← read_text "../templates/SimpleNFT.sol";
     let template_code :=
       Str.replace "<BASE_URI>" base_uri
         (Str.replace "<MAX_MINT_AMOUNT_PER_TX>" max_mint_amount_per_tx
            (Str.replace "<MAX_SUPPLY>" max_supply
               (Str.replace "<MINT_COST>" mint_cost
                  (Str.replace "<TOKEN_SYMBOL>" nft_symbol
                     (Str.replace "<TOKEN_NAME>" nft_name template_code))))) in
     write_text os ("../contracts/" +:+ nft_name +:+ ".sol") template_code ;;
     a ← lift_result (compile_source sv template_code);
     contract_abi ← getitem a nft_name;
     contract_bytecode ← getitem a nft_name;
     mret (Compiled (compiled_abi contract_abi) (compiled_bytecode contract_bytecode)
             template_code))
    (λ e, mret (CompileError (str e))).

End Full.

(** The text [deploy_template_contract] holds once the substitution loop
    has run on the file content [content], or the exception that the read
    or the loop raised. *)
Definition rendering (content : string) (template_params : list (string * json)) : exn + string :=
  match decode_text content with
  | inl exc => inl exc
  | inr template_code => render_items template_code template_params
  end.

(** A name that is one component of a path on the host: no separator, no
    NUL, and short enough for a file name with its extension. *)
Definition plain_component (name : string) : bool :=
  Str.free_of (λ c, is_sep c || Ascii.eqb c "000") name
  && Nat.leb (String.length name) 200.

(** ** A concrete host *)

Module Posix.

(** Brownie's [ProjectAlreadyLoaded]. *)
Definition ProjectAlreadyLoaded : exn :=
  Exception "There is already a project loaded with this name".

(** [path] lies directly in [folder]. *)
Definition directly_in (folder path : string) : bool :=
  Str.startswith path (folder +:+ "/")
  && plain_component (drop_chars (String.length folder + 1) path).

(** A host with the two folders of the repository and no other, and a
    Brownie that keeps one project per name. *)
Definition host : Host :=
  {| open_for_writing := λ path,
       if directly_in CONTRACT_TEMPLATE_FOLDER path || directly_in CONTRACT_FOLDER path
       then None else Some (FileNotFoundError path);
     load_refused := λ n, if Nat.ltb 0 n then Some ProjectAlreadyLoaded else None |}.



End Posix.

(** * Properties *)

(** ** Running the handlers *)

Ltac unfold_monad :=
  unfold try_except, mbind, M_bind, mret, M_ret, raise, lift_result, get_world,
    log, set_files, set_ACTIVEACCOUNT, set_connections, set_open_projects in *.

Ltac unfold_calls :=
  unfold validate, path_exists, read_file, write_file, load_account, active_account,
    address_of, is_connected, show_active, disconnect, connect, load_project,
    close_project, getitem, deploy, transact in *.

Ltac run := unfold_calls; unfold_monad; simpl in *.

Ltac finish := rewrite <- ?app_assoc; simpl; done.

(** ** Validation comes first (C9) *)

(** The run of [deploy_template_contract] on a name the validator refuses. *)
Lemma deploy_run_invalid_name
    (tk : Toolkit) (template_name contract_name : string)
    (template_params : list (string * string)) (publish_source : bool)
    (w : World) (msg : string) :
  validate_filename tk (with_sol template_name) = Some msg ∨
  (validate_filename tk (with_sol template_name) = None ∧
   validate_filename tk (contract_name +:+ ".sol") = Some msg) →
  deploy_template_contract tk template_name template_params contract_name publish_source w
  = (inr (Error msg), w).
Proof.
  intros [Ht | [Ht Hc]]; unfold deploy_template_contract; run.
  - by rewrite Ht.
  - by rewrite Ht, Hc.
Qed.

(** C9. When [validate_filename] refuses the template file name or the
    contract file name, [deploy_template_contract] answers with an error
    body that carries the validator's message, and the world is exactly
    what it was: the trace has not grown, so no existence check, no read,
    no write, no project load and no chain submission was made, and the
    files are the same. *)
Theorem deploy_invalid_name_touches_nothing
    (tk : Toolkit) (template_name contract_name : string)
    (template_params : list (string * string)) (publish_source : bool)
    (w : World) (msg : string) :
  validate_filename tk (with_sol template_name) = Some msg ∨
  (validate_filename tk (with_sol template_name) = None ∧
   validate_filename tk (contract_name +:+ ".sol") = Some msg) →
  ∃ w',
    deploy_template_contract tk template_name template_params contract_name publish_source w
    = (inr (Error msg), w') ∧
    w' = w ∧ trace w' = trace w ∧ files w' = files w.
Proof.
  intros H. exists w. by rewrite (deploy_run_invalid_name _ _ _ _ _ _ _ H).
Qed.

Lemma deploy_invalid_name_touches_nothing_witness :
  ∃ w',
    deploy_template_contract Demo.toolkit "Simple" [("NAME", "Foo")] "../Foo" true Demo.signed_in
    = (inr (Error "invalid char found: invalids=('/')"), w') ∧
    w' = Demo.signed_in ∧ trace w' = trace Demo.signed_in ∧ files w' = files Demo.signed_in.
Proof.
  apply deploy_invalid_name_touches_nothing. right. split; reflexivity.
Defined.

(** The run of [deploy_template_contract] on a request that passes
    validation and names a template that is on disk. *)
Lemma deploy_run
    (tk : Toolkit) (template_name contract_name : string)
    (template_params : list (string * string)) (publish_source : bool)
    (w : World) (code : string) :
  validate_filename tk (with_sol template_name) = None →
  validate_filename tk (contract_name +:+ ".sol") = None →
  files w !! template_path_of template_name = Some code →
  deploy_template_contract tk template_name template_params contract_name publish_source w
  = let rendered := render code template_params in
    let written := <[contract_path_of contract_name := rendered]> (files w) in
    let prepared := prepared_events template_name contract_name rendered in
    match project_load tk written with
    | inl exc => (inr (Error (outer_message exc)), advance w written (open_projects w) prepared)
    | inr proj =>
        match proj !! contract_name with
        | None =>
            (inr (Error (name_mismatch_message (KeyError contract_name))),
             advance w written (S (open_projects w)) prepared)
        | Some c =>
            (inr (deploy_response tk w c contract_name rendered template_params publish_source),
             advance w written (open_projects w)
               (prepared ++
                [EDeploy (container_name c) (account (ACTIVEACCOUNT w)) publish_source;
                 EProjectClose]))
        end
    end.
Proof.
  intros template_ok contract_ok template_there. cbv zeta.
  unfold deploy_template_contract, deploy_response, advance, prepared_events,
    template_path_of, contract_path_of in *; run.
  rewrite template_ok, contract_ok. simpl.
  rewrite template_there. simpl. rewrite template_there. simpl.
  destruct (project_load tk _) as [exc|proj]; simpl.
  { rewrite <- !app_assoc. by destruct exc. }
  destruct (proj !! contract_name) as [c|]; simpl.
  2: { by rewrite <- !app_assoc. }
  rewrite <- !app_assoc. simpl.
  destruct (container_deploy tk c _ _) as [exc|d]; simpl; [finish|].
  destruct (get_verification_info tk c) as [exc|info]; simpl; [finish|].
  destruct (account (ACTIVEACCOUNT w)); simpl; finish.
Qed.

(** The run of [interact_contract], on any request. *)
Lemma interact_run (tk : Toolkit) (contract_name at_address contract_method : string)
    (method_args : list string) (w : World) :
  interact_contract tk contract_name at_address contract_method method_args w
  = let leaked := advance w (files w) (S (open_projects w)) [EProjectLoad] in
    match project_load tk (files w) with
    | inl exc => (inr (Error (str exc)), advance w (files w) (open_projects w) [EProjectLoad])
    | inr proj =>
        match proj !! contract_name with
        | None => (inr (Error (str (KeyError contract_name))), leaked)
        | Some c =>
            match container_at tk c at_address with
            | inl exc => (inr (Error (str exc)), leaked)
            | inr d =>
                match signatures d !! contract_method with
                | None => (inr (Error (str (KeyError contract_method))), leaked)
                | Some selector =>
                    let sender := account (ACTIVEACCOUNT w) in
                    let call := ETransact (contract_address d) selector method_args sender in
                    match method_transact tk d selector method_args sender with
                    | inl exc =>
                        (inr (Error (str exc)),
                         advance w (files w) (S (open_projects w)) [EProjectLoad; call])
                    | inr func_tx =>
                        (inr (InteractSuccess (txid func_tx) (tx_status func_tx)),
                         advance w (files w) (open_projects w) [EProjectLoad; call; EProjectClose])
                    end
                end
            end
        end
    end.
Proof.
  unfold interact_contract, advance; run.
  destruct (project_load tk _) as [exc|proj]; simpl; [finish|].
  destruct (proj !! contract_name) as [c|]; simpl; [|finish].
  destruct (container_at tk c _) as [exc|d]; simpl; [finish|].
  destruct (signatures d !! contract_method) as [selector|]; simpl; [|finish].
  destruct (method_transact tk d _ _ _) as [exc|func_tx]; simpl; finish.
Qed.

(** The run of [deploy_template_contract] when the template is not on disk. *)
Lemma deploy_run_missing_template (tk : Toolkit) (template_name contract_name : string)
    (template_params : list (string * string)) (publish_source : bool) (w : World) :
  validate_filename tk (with_sol template_name) = None →
  validate_filename tk (contract_name +:+ ".sol") = None →
  files w !! template_path_of template_name = None →
  deploy_template_contract tk template_name template_params contract_name publish_source w
  = (inr (Error (with_sol template_name +:+ " template is not available!")),
     advance w (files w) (open_projects w) [EPathExists (template_path_of template_name)]).
Proof.
  intros Ht Hc Hf.
  unfold deploy_template_contract, advance, template_path_of in *; run.
  rewrite Ht, Hc. simpl. by rewrite Hf.
Qed.

(** No exception leaves [deploy_template_contract]. *)
Lemma deploy_always_returns (tk : Toolkit) (template_name contract_name : string)
    (template_params : list (string * string)) (publish_source : bool) (w : World) :
  ∃ out w',
    deploy_template_contract tk template_name template_params contract_name publish_source w
    = (inr out, w').
Proof.
  destruct (validate_filename tk (with_sol template_name)) as [msg|] eqn:Ht.
  { eexists _, _. apply deploy_run_invalid_name. by left. }
  destruct (validate_filename tk (contract_name +:+ ".sol")) as [msg|] eqn:Hc.
  { eexists _, _. apply deploy_run_invalid_name. by right. }
  destruct (files w !! template_path_of template_name) as [code|] eqn:Hf.
  - rewrite (deploy_run _ _ _ _ _ _ code Ht Hc Hf); cbv zeta.
    destruct (project_load tk _) as [exc|proj]; [by eexists _, _|].
    destruct (proj !! contract_name); by eexists _, _.
  - rewrite deploy_run_missing_template by done. by eexists _, _.
Qed.

(** No exception leaves [interact_contract]. *)
Lemma interact_always_returns (tk : Toolkit) (contract_name at_address contract_method : string)
    (method_args : list string) (w : World) :
  ∃ out w',
    interact_contract tk contract_name at_address contract_method method_args w = (inr out, w').
Proof.
  rewrite interact_run. cbv zeta.
  repeat case_match; by eexists _, _.
Qed.

(** The run of [set_account_active]. *)
Lemma set_account_active_run (tk : Toolkit) (name password : string) (w : World) :
  set_account_active tk name password w
  = match accounts_load tk name password with
    | inl exc =>
        (inr (Error (str exc)), advance w (files w) (open_projects w) [EAccountsLoad name])
    | inr acc =>
        (inr (AccountActive (Some name) (address acc)),
         {| files := files w;
            ACTIVEACCOUNT := {| account := Some acc; account_name := Some name |};
            connections := connections w;
            open_projects := open_projects w;
            trace := trace w ++ [EAccountsLoad name] |})
    end.
Proof.
  unfold set_account_active, advance, set_account; run.
  by destruct (accounts_load tk name password).
Qed.

(** ** Requests as they arrive: [repr], decoding, untyped parameters *)

Lemma repr_char_plain (c : ascii) :
  negb (Nat.leb 32 (nat_of_ascii c) && Nat.ltb (nat_of_ascii c) 127)
  || Ascii.eqb c Str.single_quote || Ascii.eqb c Str.double_quote
  || Ascii.eqb c Str.backslash = false →
  Str.repr_char Str.single_quote c = String c "" ∧ Ascii.eqb Str.single_quote c = false.
Proof.
  destruct c as [[] [] [] [] [] [] [] []]; vm_compute; intros H;
    first [discriminate H | by split].
Qed.

Lemma repr_body_plain (s : string) :
  Str.plain_name s = true →
  Str.repr_body Str.single_quote s = s ∧ Str.free_of (Ascii.eqb Str.single_quote) s = true.
Proof.
  induction s as [|c s IH]; [done|].
  unfold Str.plain_name. cbn [Str.free_of]. intros [Hc Hs]%andb_true_iff.
  apply negb_true_iff, repr_char_plain in Hc as [Hc Hq].
  destruct (IH Hs) as [IHb IHq].
  cbn [Str.repr_body]. rewrite Hc, IHb, Hq, IHq. by split.
Qed.

(** On printable ASCII without quotes or backslash, [repr] only adds the
    single quotes. *)
Lemma repr_plain_name (s : string) :
  Str.plain_name s = true → Str.repr s = "'" +:+ s +:+ "'".
Proof.
  intros [Hb Hq]%repr_body_plain.
  unfold Str.repr, Str.repr_quote, Str.has_char. rewrite Hq. cbn [negb andb].
  by rewrite Hb.
Qed.

Lemma utf8_error_plain (s : string) (pos : nat) :
  plain_text s = true → utf8_error Utf8Start pos s = None.
Proof.
  revert pos. induction s as [|c s IH]; intros pos; [done|].
  unfold plain_text. cbn [Str.free_of]. intros [Hc Hs]%andb_true_iff.
  apply negb_true_iff, orb_false_iff in Hc as [Hc _]. apply negb_false_iff in Hc.
  cbn [utf8_error]. cbv zeta. rewrite Hc. by apply IH.
Qed.

Lemma universal_newlines_plain (s : string) :
  plain_text s = true → universal_newlines false s = s.
Proof.
  induction s as [|c s IH]; [done|].
  unfold plain_text. cbn [Str.free_of]. intros [Hc Hs]%andb_true_iff.
  apply negb_true_iff, orb_false_iff in Hc as [_ Hc].
  cbn [universal_newlines]. rewrite Hc. cbn [andb]. by rewrite IH.
Qed.

(** ASCII text without carriage returns is read as it is stored. *)
Lemma decode_text_plain (s : string) : plain_text s = true → decode_text s = inr s.
Proof.
  intros Hs. unfold decode_text.
  by rewrite utf8_error_plain, universal_newlines_plain.
Qed.

(** On string values the loop is [render], and it does not raise. *)
Lemma render_items_text (t : string) (p : list (string * string)) :
  render_items t (text_params p) = inr (render t p).
Proof.
  revert t. induction p as [|[k v] p IH]; intros t; [done|]. apply IH.
Qed.

(** The loop raises at the first value that is not a string, and is
    [render] on the items when there is none. *)
Lemma render_items_spec (t : string) (p : list (string * json)) :
  render_items t p
  = match first_non_string p with
    | Some value => inl (replace_type_error value)
    | None => inr (render t (texts_of p))
    end.
Proof.
  revert t. induction p as [|[k value] p IH]; intros t; [done|].
  destruct value; try done. apply IH.
Qed.

Lemma texts_of_text_params (p : list (string * string)) : texts_of (text_params p) = p.
Proof.
  induction p as [|[k v] p IH]; [done|].
  change (texts_of (text_params ((k, v) :: p))) with ((k, v) :: texts_of (text_params p)).
  by rewrite IH.
Qed.

Lemma rendering_text (content : string) (p : list (string * string)) :
  plain_text content = true → rendering content (text_params p) = inr (render content p).
Proof.
  intros Hc. unfold rendering. by rewrite decode_text_plain, render_items_text.
Qed.

(** The run of [Full.deploy_template_contract] on a request that passes
    validation and names a template that is on disk. *)
Lemma full_deploy_run
    (tk : Toolkit) (os : Host) (template_name contract_name : string)
    (template_params : list (string * json)) (publish_source : bool)
    (w : World) (content : string) :
  validate_filename tk (with_sol template_name) = None →
  validate_filename tk (contract_name +:+ ".sol") = None →
  files w !! template_path_of template_name = Some content →
  Full.deploy_template_contract tk os template_name template_params contract_name
    publish_source w
  = let looked := [EPathExists (template_path_of template_name);
                   EReadFile (template_path_of template_name)] in
    match rendering content template_params with
    | inl exc => (inr (Error (outer_message exc)), advance w (files w) (open_projects w) looked)
    | inr rendered =>
        match open_for_writing os (contract_path_of contract_name) with
        | Some exc =>
            (inr (Error (outer_message exc)), advance w (files w) (open_projects w) looked)
        | None =>
            let written := <[contract_path_of contract_name := rendered]> (files w) in
            let prepared := prepared_events template_name contract_name rendered in
            match load_refused os (open_projects w) with
            | Some exc =>
                (inr (Error (outer_message exc)), advance w written (open_projects w) prepared)
            | None =>
                match project_load tk written with
                | inl exc =>
                    (inr (Error (outer_message exc)),
                     advance w written (open_projects w) prepared)
                | inr proj =>
                    match proj !! contract_name with
                    | None =>
                        (inr (Error (name_mismatch_message (KeyError contract_name))),
                         advance w written (S (open_projects w)) prepared)
                    | Some c =>
                        (inr (deploy_response tk w c contract_name rendered
                                (texts_of template_params) publish_source),
                         advance w written (open_projects w)
                           (prepared ++
                            [EDeploy (container_name c) (account (ACTIVEACCOUNT w))
                               publish_source;
                             EProjectClose]))
                    end
                end
            end
        end
    end.
Proof.
  intros template_ok contract_ok template_there. cbv zeta.
  unfold Full.deploy_template_contract, read_text, write_text, load_project_on, rendering,
    deploy_response, advance, prepared_events, template_path_of, contract_path_of in *; run.
  rewrite template_ok, contract_ok. simpl.
  rewrite template_there. simpl. rewrite template_there. simpl.
  destruct (decode_text content) as [exc|template_code]; simpl.
  { rewrite <- !app_assoc. by destruct exc. }
  destruct (render_items template_code template_params) as [exc|rendered]; simpl.
  { rewrite <- !app_assoc. by destruct exc. }
  destruct (open_for_writing os _) as [exc|]; simpl.
  { rewrite <- !app_assoc. by destruct exc. }
  destruct (load_refused os _) as [exc|]; simpl.
  { rewrite <- !app_assoc. by destruct exc. }
  destruct (project_load tk _) as [exc|proj]; simpl.
  { rewrite <- !app_assoc. by destruct exc. }
  destruct (proj !! contract_name) as [c|]; simpl.
  2: { by rewrite <- !app_assoc. }
  rewrite <- !app_assoc. simpl.
  destruct (container_deploy tk c _ _) as [exc|d]; simpl; [finish|].
  destruct (get_verification_info tk c) as [exc|info]; simpl; [finish|].
  destruct (account (ACTIVEACCOUNT w)); simpl; finish.
Qed.

(** On string values, ASCII text without carriage returns and a host that
    opens the file and allows the load, the handler on any JSON object is
    the handler on string values. *)
Lemma full_deploy_on_text
    (tk : Toolkit) (os : Host) (template_name contract_name : string)
    (template_params : list (string * string)) (publish_source : bool) (w : World) :
  (∀ content, files w !! template_path_of template_name = Some content →
              plain_text content = true) →
  open_for_writing os (contract_path_of contract_name) = None →
  load_refused os (open_projects w) = None →
  Full.deploy_template_contract tk os template_name (text_params template_params)
    contract_name publish_source w
  = deploy_template_contract tk template_name template_params contract_name publish_source w.
Proof.
  intros Hplain Hopen Hload.
  destruct (validate_filename tk (with_sol template_name)) as [msg|] eqn:Ht.
  { rewrite (deploy_run_invalid_name _ _ _ _ _ _ msg) by by left.
    unfold Full.deploy_template_contract; run. by rewrite Ht. }
  destruct (validate_filename tk (contract_name +:+ ".sol")) as [msg|] eqn:Hc.
  { rewrite (deploy_run_invalid_name _ _ _ _ _ _ msg) by by right.
    unfold Full.deploy_template_contract; run. by rewrite Ht, Hc. }
  destruct (files w !! template_path_of template_name) as [content|] eqn:Hf.
  - rewrite (full_deploy_run _ _ _ _ _ _ _ content Ht Hc Hf).
    rewrite (deploy_run _ _ _ _ _ _ content Ht Hc Hf). cbv zeta.
    rewrite rendering_text by by apply Hplain.
    by rewrite Hopen, Hload, texts_of_text_params.
  - rewrite deploy_run_missing_template by done.
    unfold Full.deploy_template_contract, advance, template_path_of in *; run.
    rewrite Ht, Hc. simpl. by rewrite Hf.
Qed.

(** ** The rendered source is written first and stays (C8) *)

(** A contract name that the validator can accept is relative, and its
    source lands in the contracts folder. *)
Lemma contract_path_of_relative (contract_name : string) :
  Str.startswith (contract_name +:+ ".sol") "/" = false →
  contract_path_of contract_name = "../contracts/" +:+ contract_name +:+ ".sol".
Proof. intros H. unfold contract_path_of, path_join. by rewrite H. Qed.




(** ** The name-match guard is the project lookup (C4) *)




(** ** Releasing the project handle (C2) *)

(** Once the container is resolved, [deploy_template_contract] closes the
    project whether the deployment succeeds or fails. *)
Lemma deploy_closes_after_lookup
    (tk : Toolkit) (template_name contract_name : string)
    (template_params : list (string * string)) (publish_source : bool)
    (w : World) (code : string) (proj : gmap string ContractContainer) (c : ContractContainer) :
  validate_filename tk (with_sol template_name) = None →
  validate_filename tk (contract_name +:+ ".sol") = None →
  files w !! template_path_of template_name = Some code →
  project_load tk (<[contract_path_of contract_name := render code template_params]> (files w))
  = inr proj →
  proj !! contract_name = Some c →
  ∃ out w' evs,
    deploy_template_contract tk template_name template_params contract_name publish_source w
    = (inr out, w') ∧
    open_projects w' = open_projects w ∧
    trace w' = trace w ++ evs ++ [EProjectClose] ∧
    count_events is_project_load evs = 1.
Proof.
  intros Ht Hc Hf Hp Hk. rewrite (deploy_run _ _ _ _ _ _ code Ht Hc Hf); cbv zeta; rewrite Hp, Hk.
  eexists _, _, [_; _; _; _; _]. by repeat split.
Qed.

(** The lookup failure leaves the handle open, on every such request. *)
Lemma deploy_leaks_on_name_mismatch
    (tk : Toolkit) (template_name contract_name : string)
    (template_params : list (string * string)) (publish_source : bool)
    (w : World) (code : string) (proj : gmap string ContractContainer) :
  validate_filename tk (with_sol template_name) = None →
  validate_filename tk (contract_name +:+ ".sol") = None →
  files w !! template_path_of template_name = Some code →
  project_load tk (<[contract_path_of contract_name := render code template_params]> (files w))
  = inr proj →
  proj !! contract_name = None →
  ∃ out w',
    deploy_template_contract tk template_name template_params contract_name publish_source w
    = (inr out, w') ∧
    open_projects w' = S (open_projects w).
Proof.
  intros Ht Hc Hf Hp Hk. rewrite (deploy_run _ _ _ _ _ _ code Ht Hc Hf); cbv zeta; rewrite Hp, Hk.
  by eexists _, _.
Qed.

(** [interact_contract] closes the project only when the transaction went
    through; every failure after the load leaves the handle open. *)
Lemma interact_closes_only_on_success
    (tk : Toolkit) (contract_name at_address contract_method : string)
    (method_args : list string) (w : World) (proj : gmap string ContractContainer) :
  project_load tk (files w) = inr proj →
  ∃ out w',
    interact_contract tk contract_name at_address contract_method method_args w = (inr out, w') ∧
    open_projects w' = (if bool_decide (status out = "success")
                        then open_projects w else S (open_projects w)).
Proof.
  intros Hp. rewrite interact_run, Hp. cbv zeta.
  repeat case_match; by eexists _, _.
Qed.

(** C2, where the code falls short.  The handle acquired by
    [project.load] is not closed when the lookup of the contract name
    raises [KeyError] in [deploy_template_contract], nor when anything
    raises after the load in [interact_contract]: in both runs below the
    project was loaded once, never closed, and one handle is still held
    when the error body is returned. *)
Theorem project_handle_left_open :
  let run1 := deploy_template_contract Demo.toolkit "Simple" [("NAME", "Foo"); ("VAL", "5")]
                "Bar" true Demo.signed_in in
  let run2 := interact_contract Demo.toolkit "Foo" "0xC0DE" "burn" [] Demo.deployed in
  (returned_status run1.1 = Some "error" ∧
   count_events is_project_load (trace run1.2) = 1 ∧
   count_events is_project_close (trace run1.2) = 0 ∧
   open_projects run1.2 = 1) ∧
  (returned_status run2.1 = Some "error" ∧
   count_events is_project_load (trace run2.2) = 1 ∧
   count_events is_project_close (trace run2.2) = 0 ∧
   open_projects run2.2 = 1).
Proof. by vm_compute. Qed.

(** ** Failures and the uniform error body (C3) *)

(** The run of [set_network_active]. *)
Lemma set_network_active_run (tk : Toolkit) (network_name : string) (w : World) :
  set_network_active tk network_name w
  = let teardown := if bool_decide (connections w ≠ []) then [ENetDisconnect] else [] in
    match network_connect tk network_name with
    | Some exc =>
        (inl exc,
         {| files := files w; ACTIVEACCOUNT := ACTIVEACCOUNT w;
            connections := tail (connections w);
            open_projects := open_projects w;
            trace := trace w ++ teardown ++ [ENetConnect network_name false] |})
    | None =>
        (inr (NetworkActive (Some network_name)),
         {| files := files w; ACTIVEACCOUNT := ACTIVEACCOUNT w;
            connections := network_name :: tail (connections w);
            open_projects := open_projects w;
            trace := trace w ++ teardown ++ [ENetConnect network_name true] |})
    end.
Proof.
  unfold set_network_active; run.
  destruct (connections w) as [|active others] eqn:Hcs; simpl;
    destruct (network_connect tk network_name); simpl; rewrite ?Hcs; finish.
Qed.

(** [set_account_active], [deploy_template_contract] and
    [interact_contract] turn every failure into a body. *)
Lemma guarded_handlers_always_return (tk : Toolkit) (w : World) :
  (∀ name password, ∃ out w', set_account_active tk name password w = (inr out, w')) ∧
  (∀ template_name template_params contract_name publish_source, ∃ out w',
     deploy_template_contract tk template_name template_params contract_name publish_source w
     = (inr out, w')) ∧
  (∀ contract_name at_address contract_method method_args, ∃ out w',
     interact_contract tk contract_name at_address contract_method method_args w
     = (inr out, w')).
Proof.
  split; [|split]; intros.
  - rewrite set_account_active_run. case_match; by eexists _, _.
  - apply deploy_always_returns.
  - apply interact_always_returns.
Qed.

(** [set_network_active] has no [try]: what [network.connect] raises
    leaves the handler. *)
Lemma set_network_active_propagates (tk : Toolkit) (network_name : string) (w : World)
    (exc : exn) :
  network_connect tk network_name = Some exc →
  ∃ w', set_network_active tk network_name w = (inl exc, w').
Proof. intros H. rewrite set_network_active_run, H. by eexists. Qed.

(** C3, where the code falls short.  Asking for a network the toolkit
    does not know makes [network.connect] raise; [set_network_active]
    returns no body at all, the exception leaves the handler uncaught. *)
Theorem set_network_active_failure_escapes :
  let run := set_network_active Demo.toolkit "nowhere" Demo.fresh in
  run.1 = inl (Exception "Network 'nowhere' is not defined") ∧
  returned_status run.1 = None.
Proof. by vm_compute. Qed.

(** ** A failed sign-in keeps the session (C10) *)

(** C10. When [accounts.load] raises, [set_account_active] returns the
    error body carrying the exception's text, and the active account and
    its name are what they were before the call; so are the files, the
    connections and the open handles, and [get_account_active] answers as
    it did before. *)
Theorem set_account_active_failure_keeps_identity
    (tk : Toolkit) (name password : string) (w : World) (exc : exn) :
  accounts_load tk name password = inl exc →
  ∃ w',
    set_account_active tk name password w = (inr (Error (str exc)), w') ∧
    ACTIVEACCOUNT w' = ACTIVEACCOUNT w ∧
    files w' = files w ∧ connections w' = connections w ∧
    open_projects w' = open_projects w ∧
    trace w' = trace w ++ [EAccountsLoad name] ∧
    (get_account_active w').1 = (get_account_active w).1.
Proof.
  intros H. rewrite set_account_active_run, H. eexists.
  split; [reflexivity|]. repeat split.
  unfold get_account_active, advance; run.
  by destruct (account (ACTIVEACCOUNT w)).
Qed.

Lemma set_account_active_failure_keeps_identity_witness :
  ∃ w',
    set_account_active Demo.toolkit "deployer" "guess" Demo.signed_in
    = (inr (Error "password or name is incorrect"), w') ∧
    ACTIVEACCOUNT w' = ACTIVEACCOUNT Demo.signed_in ∧
    files w' = files Demo.signed_in ∧ connections w' = connections Demo.signed_in ∧
    open_projects w' = open_projects Demo.signed_in ∧
    trace w' = trace Demo.signed_in ++ [EAccountsLoad "deployer"] ∧
    (get_account_active w').1 = (get_account_active Demo.signed_in).1.
Proof.
  apply (set_account_active_failure_keeps_identity Demo.toolkit "deployer" "guess"
           Demo.signed_in (Exception "password or name is incorrect")).
  reflexivity.
Defined.

(** ** Requests without a signing identity (C1) *)

(** C1, as the code has it.  Neither handler looks at the active account
    before it submits.  With no identity set:
    - a deploy request always ends in an error body;
    - when its container is resolved, the toolkit's [deploy] is called
      once, with the sender [None], and the project is closed afterwards;
    - when an interact request resolves its method, the toolkit's
      [transact] is called once, with the sender [None], and the body is
      whatever that call yields: the error text if it raises, the
      transaction otherwise. *)
Theorem no_identity_is_not_checked (tk : Toolkit) (w : World) :
  account (ACTIVEACCOUNT w) = None →
  (∀ template_name template_params contract_name publish_source,
     ∃ msg w',
       deploy_template_contract tk template_name template_params contract_name publish_source w
       = (inr (Error msg), w')) ∧
  (∀ template_name template_params contract_name publish_source code proj c,
     validate_filename tk (with_sol template_name) = None →
     validate_filename tk (contract_name +:+ ".sol") = None →
     files w !! template_path_of template_name = Some code →
     project_load tk (<[contract_path_of contract_name := render code template_params]> (files w))
     = inr proj →
     proj !! contract_name = Some c →
     ∃ msg w',
       deploy_template_contract tk template_name template_params contract_name publish_source w
       = (inr (Error msg), w') ∧
       trace w' = trace w ++
         [EPathExists (template_path_of template_name);
          EReadFile (template_path_of template_name);
          EWriteFile (contract_path_of contract_name) (render code template_params);
          EProjectLoad;
          EDeploy (container_name c) None publish_source;
          EProjectClose]) ∧
  (∀ contract_name at_address contract_method method_args proj c d selector,
     project_load tk (files w) = inr proj →
     proj !! contract_name = Some c →
     container_at tk c at_address = inr d →
     signatures d !! contract_method = Some selector →
     ∃ w' rest,
       interact_contract tk contract_name at_address contract_method method_args w
       = (inr match method_transact tk d selector method_args None with
              | inl exc => Error (str exc)
              | inr func_tx => InteractSuccess (txid func_tx) (tx_status func_tx)
              end, w') ∧
       trace w' = trace w ++
         [EProjectLoad; ETransact (contract_address d) selector method_args None] ++ rest ∧
       count_events is_submission rest = 0).
Proof.
  intros Hnone.
  assert (Hresp : ∀ c contract_name code template_params publish_source,
            ∃ msg, deploy_response tk w c contract_name code template_params publish_source
                   = Error msg).
  { intros. unfold deploy_response. rewrite Hnone. repeat case_match; by eexists. }
  split; [|split].
  - intros template_name template_params contract_name publish_source.
    destruct (validate_filename tk (with_sol template_name)) as [msg|] eqn:Ht.
    { eexists _, _. apply deploy_run_invalid_name. by left. }
    destruct (validate_filename tk (contract_name +:+ ".sol")) as [msg|] eqn:Hc.
    { eexists _, _. apply deploy_run_invalid_name. by right. }
    destruct (files w !! template_path_of template_name) as [code|] eqn:Hf.
    + rewrite (deploy_run _ _ _ _ _ _ code Ht Hc Hf); cbv zeta.
      destruct (project_load tk _) as [exc|proj]; [by eexists _, _|].
      destruct (proj !! contract_name) as [c|]; [|by eexists _, _].
      destruct (Hresp c contract_name (render code template_params) template_params
                  publish_source) as [msg ->].
      by eexists _, _.
    + rewrite deploy_run_missing_template by done. by eexists _, _.
  - intros template_name template_params contract_name publish_source code proj c
      Ht Hc Hf Hp Hk.
    rewrite (deploy_run _ _ _ _ _ _ code Ht Hc Hf); cbv zeta; rewrite Hp, Hk, Hnone.
    destruct (Hresp c contract_name (render code template_params) template_params
                publish_source) as [msg ->].
    by eexists _, _.
  - intros contract_name at_address contract_method method_args proj c d selector
      Hp Hk Hat Hsig.
    rewrite interact_run, Hp, Hk, Hat, Hsig, Hnone. cbv zeta.
    destruct (method_transact tk d selector method_args None).
    + by eexists _, [].
    + by eexists _, [EProjectClose].
Qed.

Lemma no_identity_is_not_checked_witness :
  ∃ msg w',
    deploy_template_contract Demo.toolkit "Simple" [("NAME", "Foo"); ("VAL", "5")] "Foo" true
      Demo.fresh = (inr (Error msg), w').
Proof.
  apply (proj1 (no_identity_is_not_checked Demo.toolkit Demo.fresh eq_refl)).
Defined.

(** C1, as stated, fails.  Nobody is signed in; the deploy request and
    the interact request below each reach the toolkit, which is asked
    once to submit with the sender [None].  The error in the body is the
    toolkit's own complaint about the missing sender. *)
Lemma no_identity_reaches_the_toolkit :
  let run1 := deploy_template_contract Demo.toolkit "Simple" [("NAME", "Foo"); ("VAL", "5")]
                "Foo" true Demo.fresh in
  let run2 := interact_contract Demo.toolkit "Foo" "0xC0DE" "mint" [] Demo.restarted in
  account (ACTIVEACCOUNT Demo.fresh) = None ∧
  account (ACTIVEACCOUNT Demo.restarted) = None ∧
  count_events is_submission (trace run1.2) = 1 ∧
  trace run1.2 !! 4 = Some (EDeploy "Foo" None true) ∧
  count_events is_submission (trace run2.2) = 1 ∧
  trace run2.2 !! 1 = Some (ETransact "0xC0DE" "0x1249c58b" [] None).
Proof. by vm_compute. Qed.

(** ** One connection at a time (C7) *)

(** C7. Take two [set_network_active] calls in succession, the first of
    which connected.  The second call makes exactly two calls to the
    network collaborator: one [disconnect], then one [connect] to the new
    name.  The first call leaves exactly its own connection, the second
    leaves the new one (or none, if the new network cannot be reached),
    and, starting from at most one open connection, at no point during
    the two calls are two connections held. *)
Theorem set_connection_twice_tears_down_first
    (tk : Toolkit) (w w1 w2 : World) (name1 name2 : string) (body1 : Response)
    (out2 : exn + Response) :
  (length (connections w) ≤ 1)%nat →
  set_network_active tk name1 w = (inr body1, w1) →
  set_network_active tk name2 w1 = (out2, w2) →
  ∃ evs1 connected,
    trace w1 = trace w ++ evs1 ∧
    trace w2 = trace w1 ++ [ENetDisconnect; ENetConnect name2 connected] ∧
    connected = bool_decide (network_connect tk name2 = None) ∧
    connections w1 = [name1] ∧
    connections w2 = (if connected then [name2] else []) ∧
    never_two
      (net_history (connections w) (evs1 ++ [ENetDisconnect; ENetConnect name2 connected]))
    = true.
Proof.
  intros Hlen. rewrite !set_network_active_run. cbv zeta.
  destruct (network_connect tk name1) eqn:H1; [done|].
  intros [= <- <-]. simpl.
  assert (Htail : tail (connections w) = []).
  { destruct (connections w) as [|? [|? ?]]; simpl in *; [done..|lia]. }
  rewrite Htail.
  destruct (network_connect tk name2) eqn:H2; intros [= <- <-]; simpl.
  - eexists _, false. split; [reflexivity|]. repeat (split; [reflexivity|]).
    by destruct (connections w) as [|? [|? ?]]; simplify_eq/=.
  - eexists _, true. split; [reflexivity|]. repeat (split; [reflexivity|]).
    by destruct (connections w) as [|? [|? ?]]; simplify_eq/=.
Qed.

Lemma set_connection_twice_tears_down_first_witness :
  ∃ evs1 connected,
    trace (set_network_active Demo.toolkit "development" Demo.fresh).2
    = trace Demo.fresh ++ evs1 ∧
    trace (set_network_active Demo.toolkit "goerli"
             (set_network_active Demo.toolkit "development" Demo.fresh).2).2
    = trace (set_network_active Demo.toolkit "development" Demo.fresh).2
      ++ [ENetDisconnect; ENetConnect "goerli" connected] ∧
    connected = bool_decide (network_connect Demo.toolkit "goerli" = None) ∧
    connections (set_network_active Demo.toolkit "development" Demo.fresh).2 = ["development"] ∧
    connections (set_network_active Demo.toolkit "goerli"
                   (set_network_active Demo.toolkit "development" Demo.fresh).2).2
    = (if connected then ["goerli"] else []) ∧
    never_two
      (net_history (connections Demo.fresh)
         (evs1 ++ [ENetDisconnect; ENetConnect "goerli" connected]))
    = true.
Proof.
  apply (set_connection_twice_tears_down_first Demo.toolkit Demo.fresh _ _
           "development" "goerli" (NetworkActive (Some "development"))
           (inr (NetworkActive (Some "goerli")))).
  - simpl. lia.
  - reflexivity.
  - reflexivity.
Defined.

(** ** Facts about strings *)

Section string_facts.
Implicit Types (a b s x y : string) (c : ascii).

Lemma str_app_cons c a b : String c a +:+ b = String c (a +:+ b).
Proof. reflexivity. Qed.

Lemma str_app_nil_r a : a +:+ "" = a.
Proof. induction a as [|c a IH]; [reflexivity|]. by rewrite str_app_cons, IH. Qed.

Lemma str_app_assoc a b s : (a +:+ b) +:+ s = a +:+ b +:+ s.
Proof. induction a as [|c a IH]; [reflexivity|]. by rewrite !str_app_cons, IH. Qed.

Lemma str_app_length a b : String.length (a +:+ b) = String.length a + String.length b.
Proof. induction a as [|c a IH]; [reflexivity|]. rewrite str_app_cons. simpl. by rewrite IH. Qed.

Lemma str_app_cancel_l a s1 s2 : a +:+ s1 = a +:+ s2 → s1 = s2.
Proof. induction a as [|c a IH]; [done|]. rewrite !str_app_cons. intros [= ?]. auto. Qed.

(** Two ways of cutting one string: one cut lies left of the other. *)
Lemma str_app_eq_split a b x y :
  a +:+ b = x +:+ y →
  (∃ m, a = x +:+ m ∧ y = m +:+ b) ∨
  (∃ c m, x = a +:+ String c m ∧ b = String c m +:+ y).
Proof.
  revert x. induction a as [|c a IH]; intros x H.
  - destruct x as [|d x].
    + left. exists "". by split.
    + right. exists d, x. by split.
  - destruct x as [|d x].
    + left. exists (String c a). by split.
    + rewrite !str_app_cons in H. injection H as -> H.
      destruct (IH _ H) as [(m & -> & ->)|(e & m & -> & ->)].
      * left. by exists m.
      * right. by exists e, m.
Qed.

Lemma str_prefix_spec x s : String.prefix x s = true ↔ ∃ r, s = x +:+ r.
Proof.
  revert s. induction x as [|c x IH]; intros s.
  - destruct s; simpl; split; eauto.
  - destruct s as [|d s]; simpl.
    + split; [done|]. by intros [r ?].
    + destruct (Ascii.ascii_dec c d) as [->|Hne].
      * rewrite IH. split; intros [r Hr]; exists r.
        -- by rewrite str_app_cons, Hr.
        -- rewrite str_app_cons in Hr. by injection Hr.
      * split; [done|]. intros [r Hr]. rewrite str_app_cons in Hr. congruence.
Qed.

Lemma str_prefix_app x r : String.prefix x (x +:+ r) = true.
Proof. apply str_prefix_spec. by exists r. Qed.

Lemma free_of_app p a b : Str.free_of p (a +:+ b) = Str.free_of p a && Str.free_of p b.
Proof.
  induction a as [|c a IH]; [reflexivity|].
  rewrite str_app_cons. simpl. rewrite IH. by rewrite andb_assoc.
Qed.

Lemma bracket_free_no_lt s : Str.bracket_free s = true → Str.free_of Str.is_lt s = true.
Proof.
  unfold Str.bracket_free, Str.is_bracket.
  induction s as [|c s IH]; simpl; [done|].
  intros [H1 H2]%andb_true_iff. rewrite IH by done.
  destruct (Str.is_lt c); simpl in *; done.
Qed.

Lemma bracket_free_no_gt s : Str.bracket_free s = true → Str.free_of Str.is_gt s = true.
Proof.
  unfold Str.bracket_free, Str.is_bracket.
  induction s as [|c s IH]; simpl; [done|].
  intros [H1 H2]%andb_true_iff. rewrite IH by done.
  destruct (Str.is_lt c), (Str.is_gt c); simpl in *; done.
Qed.

(** A string without ['<'] is not cut by one. *)
Lemma no_lt_inside a m : Str.free_of Str.is_lt (a +:+ String "<" m) = false.
Proof. rewrite free_of_app. simpl. by rewrite andb_false_r. Qed.

Lemma no_gt_inside a m : Str.free_of Str.is_gt (a +:+ String ">" m) = false.
Proof. rewrite free_of_app. simpl. by rewrite andb_false_r. Qed.

End string_facts.

(** ** Facts about [str.replace] on placeholders *)

Section replace_facts.
Implicit Types (a b s x y k n v : string) (c : ascii).

Lemma token_cons k : token k = String "<" (k +:+ ">").
Proof. reflexivity. Qed.

(** Passing over the characters of an occurrence just replaced. *)
Lemma replace_from_skip old new a s :
  Str.replace_from old new (String.length a) (a +:+ s) = Str.replace_from old new 0 s.
Proof.
  induction a as [|c a IH]; [by destruct s|].
  rewrite str_app_cons. simpl. apply IH.
Qed.

Lemma replace_from_head c o new s :
  Str.replace_from (String c o) new 0 (String c o +:+ s)
  = new +:+ Str.replace_from (String c o) new 0 s.
Proof.
  rewrite str_app_cons. cbn [Str.replace_from].
  rewrite <- str_app_cons, str_prefix_app. f_equal.
  cbn [String.length]. rewrite Nat.sub_1_r. simpl Nat.pred.
  apply replace_from_skip.
Qed.

Lemma replace_from_miss old new c s :
  String.prefix old (String c s) = false →
  Str.replace_from old new 0 (String c s) = String c (Str.replace_from old new 0 s).
Proof. intros H. cbn [Str.replace_from]. by rewrite H. Qed.

Lemma replace_nil k v : Str.replace (token k) v "" = "".
Proof. reflexivity. Qed.

(** An occurrence at the head is replaced, and the scan goes on behind it. *)
Lemma replace_token_head k v s :
  Str.replace (token k) v (token k +:+ s) = v +:+ Str.replace (token k) v s.
Proof.
  change (token k) with (String "<" (k +:+ ">")).
  apply replace_from_head.
Qed.

(** A character that does not start an occurrence is kept. *)
Lemma replace_token_miss k v c s :
  String.prefix (token k) (String c s) = false →
  Str.replace (token k) v (String c s) = String c (Str.replace (token k) v s).
Proof.
  change (token k) with (String "<" (k +:+ ">")).
  apply replace_from_miss.
Qed.

Lemma token_prefix_head k c s :
  String.prefix (token k) (String c s) = true → c = "<"%char.
Proof.
  change (token k) with (String "<" (k +:+ ">")).
  intros [r Hr]%str_prefix_spec. rewrite str_app_cons in Hr. by injection Hr.
Qed.

(** Text without ['<'] holds no occurrence and is copied. *)
Lemma replace_text k v x s :
  Str.free_of Str.is_lt x = true →
  Str.replace (token k) v (x +:+ s) = x +:+ Str.replace (token k) v s.
Proof.
  induction x as [|c x IH]; [done|]. cbn [Str.free_of].
  intros [Hc Hx]%andb_true_iff. rewrite str_app_cons.
  rewrite replace_token_miss.
  - by rewrite IH.
  - destruct (String.prefix _ _) eqn:Hp; [|done].
    apply token_prefix_head in Hp as ->. done.
Qed.

Lemma replace_text_only k v x :
  Str.free_of Str.is_lt x = true → Str.replace (token k) v x = x.
Proof.
  intros Hx. rewrite <- (str_app_nil_r x) at 1.
  rewrite replace_text by done. by rewrite replace_nil, str_app_nil_r.
Qed.

(** Among names without angle brackets, a placeholder at the head of a
    string is the only placeholder that starts there. *)
Lemma token_prefix_inj k n s :
  Str.bracket_free k = true → Str.bracket_free n = true →
  String.prefix (token k) (token n +:+ s) = true → k = n.
Proof.
  intros Hk Hn [r Hr]%str_prefix_spec.
  change (token k) with (String "<" (k +:+ ">")) in Hr.
  change (token n) with (String "<" (n +:+ ">")) in Hr.
  rewrite !str_app_cons in Hr. injection Hr as Hr.
  rewrite !str_app_assoc in Hr.
  apply str_app_eq_split in Hr as [(m & -> & Hm)|(c & m & -> & Hm)].
  - destruct m as [|c m]; [by rewrite str_app_nil_r|].
    rewrite str_app_cons in Hm. injection Hm as <- _.
    apply bracket_free_no_gt in Hn. by rewrite no_gt_inside in Hn.
  - rewrite str_app_cons in Hm. injection Hm as <- _.
    apply bracket_free_no_gt in Hk. by rewrite no_gt_inside in Hk.
Qed.

(** Another placeholder at the head is kept. *)
Lemma replace_token_other k n v s :
  Str.bracket_free k = true → Str.bracket_free n = true → k ≠ n →
  Str.replace (token k) v (token n +:+ s) = token n +:+ Str.replace (token k) v s.
Proof.
  intros Hk Hn Hne.
  assert (Hp : String.prefix (token k) (token n +:+ s) = false).
  { destruct (String.prefix _ _) eqn:Hp; [|done].
    by apply token_prefix_inj in Hp. }
  change (token n) with (String "<" (n +:+ ">")) in *.
  rewrite str_app_cons in *. rewrite replace_token_miss by done.
  rewrite replace_text; [done|].
  rewrite free_of_app, bracket_free_no_lt by done. done.
Qed.

Lemma prefix_app_mono x a y :
  String.prefix x a = true → String.prefix x (a +:+ y) = true.
Proof.
  intros [r ->]%str_prefix_spec. rewrite str_app_assoc. apply str_prefix_app.
Qed.

(** An occurrence that starts before a placeholder ends before it. *)
Lemma token_prefix_within k n c a b :
  Str.bracket_free k = true →
  String.prefix (token k) (String c a +:+ token n +:+ b) = true →
  String.prefix (token k) (String c a) = true.
Proof.
  intros Hk [r Hr]%str_prefix_spec.
  apply str_app_eq_split in Hr as [(m & -> & _)|(e & m & Hm & He)].
  { apply str_prefix_app. }
  change (token n) with (String "<" (n +:+ ">")) in He.
  rewrite !str_app_cons in He. injection He as <- _.
  change (token k) with (String "<" (k +:+ ">")) in Hm.
  rewrite str_app_cons in Hm. injection Hm as _ Hm.
  apply bracket_free_no_lt in Hk.
  assert (Str.free_of Str.is_lt (k +:+ ">") = true) as Hfree.
  { by rewrite free_of_app, Hk. }
  by rewrite Hm, no_lt_inside in Hfree.
Qed.

Lemma token_length k : String.length (token k) = S (S (String.length k)).
Proof.
  change (token k) with (String "<" (k +:+ ">")). simpl.
  rewrite str_app_length. simpl. lia.
Qed.

(** The scan treats what stands left and right of a placeholder
    separately: the placeholder of the key itself becomes the value,
    the placeholder of another name stays. *)
Lemma replace_around_token k n v a b :
  Str.bracket_free k = true → Str.bracket_free n = true →
  Str.replace (token k) v (a +:+ token n +:+ b)
  = Str.replace (token k) v a +:+ (if decide (k = n) then v else token n)
    +:+ Str.replace (token k) v b.
Proof.
  intros Hk Hn. remember (String.length a) as len eqn:Hlen.
  revert a Hlen. induction len as [len IH] using lt_wf_ind. intros a ->.
  destruct a as [|c a].
  - rewrite replace_nil. change ("" +:+ ?x) with x.
    case_decide as Hkn; [subst n; apply replace_token_head|].
    by apply replace_token_other.
  - destruct (String.prefix (token k) (String c a +:+ token n +:+ b)) eqn:Hp.
    + pose proof (token_prefix_within _ _ _ _ _ Hk Hp) as [m Hm]%str_prefix_spec.
      rewrite Hm, str_app_assoc, !replace_token_head, str_app_assoc.
      f_equal. eapply IH; [|reflexivity].
      rewrite Hm, str_app_length, token_length. lia.
    + assert (String.prefix (token k) (String c a) = false) as Hq.
      { destruct (String.prefix (token k) (String c a)) eqn:Hq; [|done].
        by rewrite (prefix_app_mono _ _ _ Hq) in Hp. }
      rewrite str_app_cons in *. rewrite !replace_token_miss by done.
      rewrite str_app_cons. f_equal. eapply IH; [|reflexivity]. simpl. lia.
Qed.

(** *** Occurrences of placeholders *)

Lemma occurs_app_r t y s : Str.occurs t s → Str.occurs t (y +:+ s).
Proof.
  intros (a & b & ->). exists (y +:+ a), b. by rewrite str_app_assoc.
Qed.

Lemma occurs_app_l t y s : Str.occurs t s → Str.occurs t (s +:+ y).
Proof.
  intros (a & b & ->). exists a, (b +:+ y). by rewrite !str_app_assoc.
Qed.

Lemma occurs_here t b : Str.occurs t (t +:+ b).
Proof. by exists "", b. Qed.

(** A placeholder does not start inside text without ['<']. *)
Lemma occurs_after_text k x s :
  Str.free_of Str.is_lt x = true →
  Str.occurs (token k) (x +:+ s) → Str.occurs (token k) s.
Proof.
  intros Hx (a & b & H). symmetry in H.
  apply str_app_eq_split in H as [(m & -> & ->)|(c & m & -> & Hm)].
  - by exists m, b.
  - change (token k) with (String "<" (k +:+ ">")) in Hm.
    rewrite !str_app_cons in Hm. injection Hm as <- _.
    by rewrite no_lt_inside in Hx.
Qed.

Lemma occurs_in_text k x :
  Str.free_of Str.is_lt x = true → ¬ Str.occurs (token k) x.
Proof.
  intros Hx (a & b & ->).
  change (token k) with (String "<" (k +:+ ">")) in Hx.
  rewrite str_app_cons in Hx. by rewrite no_lt_inside in Hx.
Qed.

(** Behind a placeholder at the head, an occurrence of a placeholder is
    that one or lies behind it. *)
Lemma occurs_token_head k n s :
  Str.bracket_free k = true → Str.bracket_free n = true →
  Str.occurs (token k) (token n +:+ s) → k = n ∨ Str.occurs (token k) s.
Proof.
  intros Hk Hn (a & b & H). symmetry in H.
  apply str_app_eq_split in H as [(m & -> & ->)|(c & m & Hm & Hc)].
  { right. by exists m, b. }
  destruct a as [|d a].
  - left. apply (token_prefix_inj k n s Hk Hn).
    apply str_prefix_spec. exists b.
    change ("" +:+ ?x) with x in Hm. by rewrite Hm, Hc.
  - change (token k) with (String "<" (k +:+ ">")) in Hc.
    rewrite !str_app_cons in Hc. injection Hc as <- _.
    change (token n) with (String "<" (n +:+ ">")) in Hm.
    rewrite str_app_cons in Hm. injection Hm as _ Hm.
    apply bracket_free_no_lt in Hn.
    assert (Str.free_of Str.is_lt (n +:+ ">") = true) as Hfree.
    { by rewrite free_of_app, Hn. }
    by rewrite Hm, no_lt_inside in Hfree.
Qed.

(** Where the placeholder of a key does not occur, replacing it changes
    nothing. *)
Lemma replace_no_occurrence k v s :
  ¬ Str.occurs (token k) s → Str.replace (token k) v s = s.
Proof.
  induction s as [|c s IH]; intros Hno; [done|].
  rewrite replace_token_miss.
  - rewrite IH; [done|]. intros Hocc. apply Hno.
    by apply (occurs_app_r _ (String c "")) in Hocc.
  - destruct (String.prefix _ _) eqn:Hp; [|done].
    apply str_prefix_spec in Hp as [r Hr]. destruct Hno. rewrite Hr.
    apply occurs_here.
Qed.

End replace_facts.

(** ** Templates whose placeholders are not nested *)

Section flat_facts.
Implicit Types (a b s x y k n v r : string) (c : ascii).

Lemma is_lt_true c : Str.is_lt c = true → c = "<"%char.
Proof. apply Ascii.eqb_eq. Qed.

Lemma is_gt_true c : Str.is_gt c = true → c = ">"%char.
Proof. apply Ascii.eqb_eq. Qed.

Lemma unnested_until_lt s :
  unnested false s = true →
  Str.free_of Str.is_lt s = true ∨
  ∃ x s1, s = x +:+ String "<" s1 ∧ Str.free_of Str.is_lt x = true ∧ unnested true s1 = true.
Proof.
  induction s as [|c s IH]; [by left|]. cbn [unnested Str.free_of].
  destruct (Str.is_lt c) eqn:Hlt.
  - apply is_lt_true in Hlt as ->. intros H. right. by exists "", s.
  - intros H.
    assert (unnested false s = true) as Hs by (by destruct (Str.is_gt c)).
    destruct (IH Hs) as [Hfree|(x & s1 & -> & Hx & Hs1)]; [by left|].
    right. exists (String c x), s1. cbn [Str.free_of]. by rewrite Hlt, Hx.
Qed.

Lemma unnested_until_gt s :
  unnested true s = true →
  Str.bracket_free s = true ∨
  ∃ n r, s = n +:+ String ">" r ∧ Str.bracket_free n = true ∧ unnested false r = true.
Proof.
  unfold Str.bracket_free, Str.is_bracket.
  induction s as [|c s IH]; [by left|]. cbn [unnested Str.free_of].
  destruct (Str.is_lt c) eqn:Hlt; [done|].
  destruct (Str.is_gt c) eqn:Hgt.
  - apply is_gt_true in Hgt as ->. intros H. right. by exists "", s.
  - intros H. destruct (IH H) as [Hfree|(n & r & -> & Hn & Hr)]; [by left|].
    right. exists (String c n), r. cbn [Str.free_of]. by rewrite Hlt, Hgt, Hn.
Qed.

Lemma flat_Flat s : flat s = true → Flat s.
Proof.
  unfold flat. remember (String.length s) as len eqn:Hlen.
  revert s Hlen. induction len as [len IH] using lt_wf_ind. intros s -> Hs.
  destruct (unnested_until_lt s Hs) as [Hfree|(x & s1 & -> & Hx & Hs1)].
  { by apply Flat_text. }
  destruct (unnested_until_gt s1 Hs1) as [Hfree|(n & r & -> & Hn & Hr)].
  { by apply Flat_open. }
  replace (x +:+ String "<" (n +:+ String ">" r)) with (x +:+ token n +:+ r).
  - apply Flat_token; [done..|]. eapply IH; [|reflexivity|done].
    rewrite !str_app_length. simpl. rewrite str_app_length. simpl. lia.
  - f_equal. change (token n) with (String "<" (n +:+ ">")).
    by rewrite str_app_cons, str_app_assoc.
Qed.

Lemma Flat_prepend y s : Str.free_of Str.is_lt y = true → Flat s → Flat (y +:+ s).
Proof.
  intros Hy [x Hx|x n Hx Hn|x n r Hx Hn Hr].
  - apply Flat_text. by rewrite free_of_app, Hy, Hx.
  - rewrite <- str_app_assoc. apply Flat_open; [|done].
    by rewrite free_of_app, Hy, Hx.
  - rewrite <- (str_app_assoc y x).
    apply Flat_token; [|done..]. by rewrite free_of_app, Hy, Hx.
Qed.

(** No placeholder occurs behind a ['<'] that is never closed. *)
Lemma occurs_in_open k n :
  Str.bracket_free n = true → ¬ Str.occurs (token k) (String "<" n).
Proof.
  intros Hn (a & b & H). destruct a as [|d a].
  - change (token k) with (String "<" (k +:+ ">")) in H.
    change ("" +:+ ?x) with x in H. rewrite str_app_cons in H. injection H as H.
    apply bracket_free_no_gt in Hn. rewrite H, str_app_assoc in Hn.
    change (">" +:+ b) with (String ">" b) in Hn.
    by rewrite no_gt_inside in Hn.
  - rewrite str_app_cons in H. injection H as _ H.
    change (token k) with (String "<" (k +:+ ">")) in H. rewrite str_app_cons in H.
    apply bracket_free_no_lt in Hn. by rewrite H, no_lt_inside in Hn.
Qed.

(** One substitution step on a flat string: the result is flat, holds no
    placeholder of the key, and holds no placeholder the string did not
    hold before. *)
Lemma replace_flat k v s :
  Str.bracket_free k = true → Str.bracket_free v = true → Flat s →
  Flat (Str.replace (token k) v s) ∧
  ∀ k', Str.bracket_free k' = true →
        Str.occurs (token k') (Str.replace (token k) v s) →
        k' ≠ k ∧ Str.occurs (token k') s.
Proof.
  intros Hk Hv Hs.
  induction Hs as [x Hx|x n Hx Hn|x n r Hx Hn Hr [IHflat IHocc]].
  - rewrite replace_text_only by done. split; [by apply Flat_text|].
    intros k' _ Hocc. by apply occurs_in_text in Hocc.
  - rewrite replace_text by done.
    rewrite (replace_no_occurrence k v (String "<" n)) by by apply occurs_in_open.
    split; [by apply Flat_open|].
    intros k' _ Hocc%occurs_after_text; [|done]. by apply occurs_in_open in Hocc.
  - rewrite replace_text by done.
    pose proof (replace_around_token k n v "" r Hk Hn) as Hhead.
    rewrite replace_nil in Hhead. change ("" +:+ ?y) with y in Hhead.
    rewrite Hhead. clear Hhead.
    case_decide as Hkn.
    + subst n. split.
      * rewrite <- str_app_assoc. apply Flat_prepend; [|done].
        by rewrite free_of_app, Hx, bracket_free_no_lt.
      * intros k' Hk' Hocc. rewrite <- str_app_assoc in Hocc.
        apply occurs_after_text in Hocc;
          [|by rewrite free_of_app, Hx, bracket_free_no_lt].
        destruct (IHocc k' Hk' Hocc) as [Hne Hin]. split; [done|].
        by do 2 apply occurs_app_r.
    + split; [by apply Flat_token|].
      intros k' Hk' Hocc%occurs_after_text; [|done].
      apply occurs_token_head in Hocc as [->|Hocc]; [| |done..].
      * split; [done|]. apply occurs_app_r, occurs_here.
      * destruct (IHocc k' Hk' Hocc) as [Hne Hin]. split; [done|].
        by do 2 apply occurs_app_r.
Qed.

(** Rendering a flat template leaves a flat string in which the
    placeholder of no key occurs. *)
Lemma render_flat t p :
  plain_params p = true → Flat t →
  Flat (render t p) ∧
  ∀ k', Str.bracket_free k' = true → Str.occurs (token k') (render t p) →
        (k' ∉ p.*1) ∧ Str.occurs (token k') t.
Proof.
  revert t. induction p as [|[k v] p IH]; intros t Hp Ht.
  - split; [done|]. intros k' _ Hocc. split; [|done]. apply not_elem_of_nil.
  - cbn [plain_params forallb] in Hp. simpl in Hp.
    apply andb_true_iff in Hp as [[Hk Hv]%andb_true_iff Hp].
    destruct (replace_flat k v t Hk Hv Ht) as [Hflat Hocc1].
    destruct (IH (Str.replace (token k) v t) Hp Hflat) as [Hflat' Hocc2].
    split; [done|]. intros k' Hk' Hocc.
    destruct (Hocc2 k' Hk' Hocc) as [Hnotin Hocc'].
    destruct (Hocc1 k' Hk' Hocc') as [Hne Hin].
    split; [|done]. simpl. by apply not_elem_of_cons.
Qed.

(** Rendering a string in which no key's placeholder occurs changes
    nothing. *)
Lemma render_no_occurrence s p :
  (∀ k, k ∈ (p.*1) → ¬ Str.occurs (token k) s) → render s p = s.
Proof.
  induction p as [|[k v] p IH]; intros Hno; [done|].
  change (render s ((k, v) :: p)) with (render (Str.replace (token k) v s) p).
  rewrite replace_no_occurrence.
  - apply IH. intros k' Hk'. apply Hno. simpl. apply elem_of_cons. by right.
  - apply Hno. simpl. apply elem_of_cons. by left.
Qed.

Lemma plain_params_keys p k :
  plain_params p = true → k ∈ (p.*1) → Str.bracket_free k = true.
Proof.
  induction p as [|[k0 v0] p IH]; simpl.
  - by intros _ ?%elem_of_nil.
  - intros [[Hk _]%andb_true_iff Hp]%andb_true_iff [->|Hin]%elem_of_cons; auto.
Qed.

End flat_facts.

(** ** Text in front of a placeholder *)

Section closed_facts.
Implicit Types (a b s x y k n v r : string) (c : ascii) (o : bool).

Lemma unnested_app o a b :
  unnested o (a +:+ b) = unnested o a && unnested (opened_after o a) b.
Proof.
  revert o. induction a as [|c a IH]; intros o; [done|].
  rewrite str_app_cons. cbn [unnested opened_after].
  destruct (Str.is_lt c); [by rewrite IH, andb_assoc|].
  destruct (Str.is_gt c); by rewrite IH.
Qed.

Lemma opened_after_app o a b :
  opened_after o (a +:+ b) = opened_after (opened_after o a) b.
Proof.
  revert o. induction a as [|c a IH]; intros o; [done|].
  rewrite str_app_cons. cbn [opened_after].
  destruct (Str.is_lt c); [done|]. by destruct (Str.is_gt c).
Qed.

Lemma opened_after_bracket_free o n :
  Str.bracket_free n = true → opened_after o n = o.
Proof.
  unfold Str.bracket_free, Str.is_bracket.
  induction n as [|c n IH]; [done|]. cbn [Str.free_of opened_after].
  intros [Hc Hn]%andb_true_iff.
  destruct (Str.is_lt c); [done|]. destruct (Str.is_gt c); [done|]. auto.
Qed.

Lemma opened_after_text x :
  Str.free_of Str.is_lt x = true → opened_after false x = false.
Proof.
  induction x as [|c x IH]; [done|]. cbn [Str.free_of opened_after].
  intros [Hc Hx]%andb_true_iff.
  destruct (Str.is_lt c); [done|]. destruct (Str.is_gt c); auto.
Qed.

Lemma opened_after_token o k s :
  Str.bracket_free k = true → opened_after o (token k +:+ s) = opened_after false s.
Proof.
  intros Hk. change (token k) with (String "<" (k +:+ ">")).
  rewrite str_app_cons. cbn [opened_after]. simpl Str.is_lt. cbv iota.
  rewrite str_app_assoc, opened_after_app, (opened_after_bracket_free true k) by done.
  reflexivity.
Qed.

Lemma Closed_opened_after s : Closed s → opened_after false s = false.
Proof.
  induction 1 as [x Hx|x n r Hx Hn Hr IH]; [by apply opened_after_text|].
  by rewrite opened_after_app, opened_after_text, opened_after_token.
Qed.

Lemma Closed_prepend y s : Str.free_of Str.is_lt y = true → Closed s → Closed (y +:+ s).
Proof.
  intros Hy [x Hx|x n r Hx Hn Hr].
  - apply Closed_text. by rewrite free_of_app, Hy, Hx.
  - rewrite <- (str_app_assoc y x).
    apply Closed_token; [|done..]. by rewrite free_of_app, Hy, Hx.
Qed.

Lemma flat_closed_Closed s :
  flat s = true → opened_after false s = false → Closed s.
Proof.
  unfold flat. remember (String.length s) as len eqn:Hlen.
  revert s Hlen. induction len as [len IH] using lt_wf_ind. intros s -> Hs Hend.
  destruct (unnested_until_lt s Hs) as [Hfree|(x & s1 & -> & Hx & Hs1)].
  { by apply Closed_text. }
  rewrite opened_after_app, opened_after_text in Hend by done.
  cbn [opened_after] in Hend. simpl Str.is_lt in Hend. cbv iota in Hend.
  destruct (unnested_until_gt s1 Hs1) as [Hfree|(n & r & -> & Hn & Hr)].
  { by rewrite (opened_after_bracket_free true s1) in Hend. }
  rewrite opened_after_app, (opened_after_bracket_free true n) in Hend by done.
  cbn [opened_after] in Hend. simpl in Hend.
  replace (x +:+ String "<" (n +:+ String ">" r)) with (x +:+ token n +:+ r).
  - apply Closed_token; [done..|]. eapply IH; [|reflexivity|done..].
    rewrite !str_app_length. simpl. rewrite str_app_length. simpl. lia.
  - f_equal. change (token n) with (String "<" (n +:+ ">")).
    by rewrite str_app_cons, str_app_assoc.
Qed.

(** What stands in front of a placeholder of a flat string is closed. *)
Lemma flat_before_token a k b : flat (a +:+ token k +:+ b) = true → Closed a.
Proof.
  unfold flat. rewrite unnested_app. intros [Ha Hrest]%andb_true_iff.
  apply flat_closed_Closed; [done|].
  change (token k) with (String "<" (k +:+ ">")) in Hrest.
  rewrite str_app_cons in Hrest. cbn [unnested] in Hrest. simpl Str.is_lt in Hrest.
  cbv iota in Hrest. apply andb_true_iff in Hrest as [Ho _].
  by destruct (opened_after false a).
Qed.

Lemma replace_Closed k v s :
  Str.bracket_free k = true → Str.bracket_free v = true → Closed s →
  Closed (Str.replace (token k) v s).
Proof.
  intros Hk Hv Hs. induction Hs as [x Hx|x n r Hx Hn Hr IH].
  - rewrite replace_text_only by done. by apply Closed_text.
  - rewrite replace_text by done.
    pose proof (replace_around_token k n v "" r Hk Hn) as Hhead.
    rewrite replace_nil in Hhead. change ("" +:+ ?y) with y in Hhead.
    rewrite Hhead. clear Hhead.
    case_decide as Hkn.
    + rewrite <- str_app_assoc. apply Closed_prepend; [|done].
      by rewrite free_of_app, Hx, bracket_free_no_lt.
    + by apply Closed_token.
Qed.

(** An occurrence that starts in a part that ends closed lies within it. *)
Lemma token_prefix_within_closed k c a y o :
  Str.bracket_free k = true →
  opened_after o (String c a) = false →
  String.prefix (token k) (String c a +:+ y) = true →
  String.prefix (token k) (String c a) = true.
Proof.
  intros Hk Hend [r Hr]%str_prefix_spec.
  apply str_app_eq_split in Hr as [(m & -> & _)|(e & m & Hm & _)].
  { apply str_prefix_app. }
  change (token k) with (String "<" (k +:+ ">")) in Hm.
  rewrite str_app_cons in Hm. injection Hm as <- Hm.
  cbn [opened_after] in Hend. simpl Str.is_lt in Hend. cbv iota in Hend.
  apply str_app_eq_split in Hm as [(m' & -> & Hm')|(c' & m' & -> & Hm')].
  - unfold Str.bracket_free in Hk. rewrite free_of_app in Hk.
    apply andb_true_iff in Hk as [Ha _].
    by rewrite (opened_after_bracket_free true a) in Hend.
  - rewrite str_app_cons in Hm'. injection Hm' as _ Hm'.
    by destruct m'.
Qed.

(** Text without ['<'] that follows a closed part splits the scan. *)
Lemma replace_around_text k w a v b o :
  Str.bracket_free k = true → Str.free_of Str.is_lt v = true →
  opened_after o a = false →
  Str.replace (token k) w (a +:+ v +:+ b)
  = Str.replace (token k) w a +:+ v +:+ Str.replace (token k) w b.
Proof.
  intros Hk Hv. remember (String.length a) as len eqn:Hlen.
  revert a o Hlen. induction len as [len IH] using lt_wf_ind. intros a o -> Hend.
  destruct a as [|c a].
  - rewrite replace_nil. change ("" +:+ ?x) with x. by apply replace_text.
  - destruct (String.prefix (token k) (String c a +:+ v +:+ b)) eqn:Hp.
    + pose proof (token_prefix_within_closed _ _ _ _ _ Hk Hend Hp) as [m Hm]%str_prefix_spec.
      rewrite Hm in Hend. rewrite opened_after_token in Hend by done.
      rewrite Hm, str_app_assoc, !replace_token_head, str_app_assoc.
      f_equal. eapply IH; [|reflexivity|done].
      rewrite Hm, str_app_length, token_length. lia.
    + assert (String.prefix (token k) (String c a) = false) as Hq.
      { destruct (String.prefix (token k) (String c a)) eqn:Hq; [|done].
        by rewrite (prefix_app_mono _ _ _ Hq) in Hp. }
      rewrite str_app_cons in *. rewrite !replace_token_miss by done.
      rewrite str_app_cons. f_equal.
      cbn [opened_after] in Hend.
      destruct (Str.is_lt c); [|destruct (Str.is_gt c)];
        (eapply IH; [|reflexivity|exact Hend]; simpl; lia).
Qed.

Lemma plain_params_item p k v :
  plain_params p = true → (k, v) ∈ p →
  Str.bracket_free k = true ∧ Str.bracket_free v = true.
Proof.
  induction p as [|[k0 v0] p IH]; simpl.
  - by intros _ ?%elem_of_nil.
  - intros [[Hk Hv]%andb_true_iff Hp]%andb_true_iff [[= -> ->]|Hin]%elem_of_cons; auto.
Qed.

(** Rendering goes around text without angle brackets that follows a
    closed part. *)
Lemma render_around_text p a v b :
  plain_params p = true → Str.bracket_free v = true → Closed a →
  render (a +:+ v +:+ b) p = render a p +:+ v +:+ render b p.
Proof.
  intros Hp Hv. revert a b. induction p as [|[k w] p IH]; intros a b Ha; [done|].
  simpl in Hp. apply andb_true_iff in Hp as [[Hk Hw]%andb_true_iff Hp].
  change (render ?t ((k, w) :: p)) with (render (Str.replace (token k) w t) p).
  rewrite (replace_around_text k w a v b false Hk (bracket_free_no_lt _ Hv)
             (Closed_opened_after _ Ha)).
  apply IH; [done|]. by apply replace_Closed.
Qed.

(** On a template whose part in front of the placeholder is closed, the
    placeholder of a key ends up as the key's value. *)
Lemma render_replaces_token p k v a b :
  plain_params p = true → NoDup (p.*1) → (k, v) ∈ p → Closed a →
  render (a +:+ token k +:+ b) p = render a p +:+ v +:+ render b p.
Proof.
  intros Hp Hnodup Hin.
  destruct (plain_params_item p k v Hp Hin) as [Hk Hv].
  revert a b. induction p as [|[k1 v1] p IH]; intros a b Ha.
  { by apply elem_of_nil in Hin. }
  simpl in Hp. apply andb_true_iff in Hp as [[Hk1 Hv1]%andb_true_iff Hp].
  simpl in Hnodup. apply NoDup_cons in Hnodup as [Hfresh Hnodup].
  change (render ?t ((k1, v1) :: p)) with (render (Str.replace (token k1) v1 t) p).
  rewrite replace_around_token by done.
  apply elem_of_cons in Hin as [[= -> ->]|Hin].
  - rewrite decide_True by done.
    apply render_around_text; [done..|]. by apply replace_Closed.
  - rewrite decide_False.
    + apply IH; [done..|]. by apply replace_Closed.
    + intros ->. apply Hfresh. apply list_elem_of_fmap. by exists (k, v).
Qed.

End closed_facts.

(** ** What rendering does (C5) *)

(** The placeholder of a name that is not a key goes through rendering
    untouched, and the text on either side of it is rendered on its own. *)
Lemma render_keeps_absent_token (p : list (string * string)) (K a b : string) :
  Str.bracket_free K = true → plain_keys p = true → K ∉ p.*1 →
  render (a +:+ token K +:+ b) p = render a p +:+ token K +:+ render b p.
Proof.
  intros HK. revert a b. induction p as [|[k v] p IH]; intros a b Hp Hnotin; [done|].
  cbn [plain_keys forallb] in Hp. simpl in Hp. apply andb_true_iff in Hp as [Hk Hp].
  simpl in Hnotin. apply not_elem_of_cons in Hnotin as [Hne Hnotin].
  change (render ?t ((k, v) :: p)) with (render (Str.replace (token k) v t) p).
  rewrite replace_around_token by done.
  rewrite decide_False by done. by apply IH.
Qed.

(** C5, as the code has it.  Rendering is the loop over the items of the
    mapping, each step being [str.replace] of the placeholder
    ["<" + key + ">"] by the value.
    - The two sample renderings evaluate as stated, and an empty mapping
      leaves any template as it is.
    - On a mapping whose values are all strings the loop does not fail,
      whatever the template; on any other mapping it raises the
      [TypeError] of [str.replace] at the first value that is not a
      string.
    - One step replaces the placeholder of its key wherever it stands:
      around an occurrence, the text on the left and on the right is
      treated in the same way, and the occurrence itself becomes the value.
      This is stated for a key without angle brackets.
    - In the output of the whole loop, a placeholder of a key has become
      the key's value, with the text on either side rendered on its own;
      this is stated for mappings with distinct keys whose keys and values
      hold no angle bracket, and templates whose placeholders are not
      nested.
    - The placeholder of a name that is not among the keys stays verbatim
      in the output, with the text on either side rendered on its own;
      this is stated for a name and keys without angle brackets. *)
Theorem render_substitutes_placeholders :
  render "<A><B>" [("A", "x"); ("B", "y")] = "xy" ∧
  render "<A>" [] = "<A>" ∧
  (∀ t, render t [] = t) ∧
  (∀ t k v p, render t ((k, v) :: p) = render (Str.replace (token k) v t) p) ∧
  (∀ t p, render_items t (text_params p) = inr (render t p)) ∧
  (∀ t p,
     render_items t p
     = match first_non_string p with
       | Some value => inl (replace_type_error value)
       | None => inr (render t (texts_of p))
       end) ∧
  (∀ k v a b,
     Str.bracket_free k = true →
     Str.replace (token k) v (a +:+ token k +:+ b)
     = Str.replace (token k) v a +:+ v +:+ Str.replace (token k) v b) ∧
  (∀ p k v a b,
     plain_params p = true → NoDup (p.*1) → (k, v) ∈ p →
     flat (a +:+ token k +:+ b) = true →
     render (a +:+ token k +:+ b) p = render a p +:+ v +:+ render b p) ∧
  (∀ p K a b,
     Str.bracket_free K = true → plain_keys p = true → K ∉ p.*1 →
     render (a +:+ token K +:+ b) p = render a p +:+ token K +:+ render b p).
Proof.
  split; [reflexivity|]. split; [reflexivity|]. split; [reflexivity|].
  split; [reflexivity|]. split; [apply render_items_text|].
  split; [apply render_items_spec|]. split; [|split].
  - intros k v a b Hk. rewrite replace_around_token by done.
    by rewrite decide_True.
  - intros p k v a b Hp Hnodup Hin Hflat.
    apply render_replaces_token; [done..|]. by eapply flat_before_token.
  - apply render_keeps_absent_token.
Qed.

Lemma render_substitutes_placeholders_witness :
  render ("contract " +:+ token "NAME" +:+ " { uint x = <VAL>; <OWNER> }")
    [("NAME", "Foo"); ("VAL", "5")]
  = render "contract " [("NAME", "Foo"); ("VAL", "5")] +:+ "Foo"
    +:+ render " { uint x = <VAL>; <OWNER> }" [("NAME", "Foo"); ("VAL", "5")] ∧
  render ("uint x = <VAL>; " +:+ token "OWNER" +:+ " }") [("NAME", "Foo"); ("VAL", "5")]
  = render "uint x = <VAL>; " [("NAME", "Foo"); ("VAL", "5")] +:+ token "OWNER"
    +:+ render " }" [("NAME", "Foo"); ("VAL", "5")] ∧
  Str.replace (token "VAL") "5" ("x = " +:+ token "VAL" +:+ "; y = <VAL>;")
  = Str.replace (token "VAL") "5" "x = " +:+ "5" +:+ Str.replace (token "VAL") "5" "; y = <VAL>;".
Proof.
  destruct render_substitutes_placeholders
    as (_ & _ & _ & _ & _ & _ & Hstep & Hkey & Habsent).
  split; [|split].
  - apply Hkey.
    + reflexivity.
    + apply (bool_decide_unpack _). by vm_compute.
    + apply (bool_decide_unpack _). by vm_compute.
    + reflexivity.
  - apply Habsent.
    + reflexivity.
    + reflexivity.
    + apply (bool_decide_unpack _). by vm_compute.
  - apply Hstep. reflexivity.
Defined.

(** C5, as stated, fails.
    - Rendering can fail: the mapping [{"A": 5}] makes the loop raise
      [TypeError].
    - A placeholder whose name is not a key can be lost: [B] and [C] are
      not keys of [{"B><C": "x"}], yet the placeholder of that one key is
      the text ["<B><C>"], and the output holds neither [<B>] nor [<C>].
    - A placeholder of a key need not end up as the key's value: the
      value of [A] is itself the placeholder of the later key [B], and the
      output is the value of [B].
    - Nor need it with keys and values free of angle brackets, when
      placeholders are nested: replacing [<A>] inside ["<B<A>>"] builds
      the placeholder of the later key [Bx], and the value ["x"] of [A] is
      not in the output. *)
Lemma render_fails_and_loses_placeholders :
  render_items "<A>" [("A", JInt 5)]
  = inl (TypeError "replace() argument 2 must be str, not int") ∧
  (("B" ∉ [("B><C", "x")].*1) ∧ ("C" ∉ [("B><C", "x")].*1)) ∧
  (contains (token "B") "<B><C>" = true ∧ contains (token "C") "<B><C>" = true) ∧
  render "<B><C>" [("B><C", "x")] = "x" ∧
  contains (token "B") (render "<B><C>" [("B><C", "x")]) = false ∧
  contains (token "C") (render "<B><C>" [("B><C", "x")]) = false ∧
  render (token "A") [("A", token "B"); ("B", "y")] = "y" ∧
  plain_params [("A", "x"); ("Bx", "z")] = true ∧
  render ("<B" +:+ token "A" +:+ ">") [("A", "x"); ("Bx", "z")] = "z" ∧
  contains "x" (render ("<B" +:+ token "A" +:+ ">") [("A", "x"); ("Bx", "z")]) = false.
Proof.
  split; [reflexivity|]. split.
  { split; apply (bool_decide_unpack _); by vm_compute. }
  repeat split; reflexivity.
Qed.

(** ** Rendering twice (C6) *)

(** C6, as the code has it.  On a template in which no ['<'] is followed
    by another ['<'] before the next ['>'], and with keys and values that
    contain no angle bracket, rendering a second time changes nothing. *)
Theorem render_idempotent_on_flat_templates (t : string) (p : list (string * string)) :
  flat t = true → plain_params p = true →
  render (render t p) p = render t p.
Proof.
  intros Ht%flat_Flat Hp.
  destruct (render_flat t p Hp Ht) as [_ Hocc].
  apply render_no_occurrence. intros k Hk Hin.
  by destruct (Hocc k (plain_params_keys p k Hp Hk) Hin).
Qed.

Lemma render_idempotent_on_flat_templates_witness :
  render (render Demo.template [("NAME", "Foo"); ("VAL", "5")]) [("NAME", "Foo"); ("VAL", "5")]
  = render Demo.template [("NAME", "Foo"); ("VAL", "5")].
Proof.
  apply render_idempotent_on_flat_templates; reflexivity.
Defined.

(** C6, as stated, fails.  The values ["x"] and ["A"] contain no angle
    bracket at all, yet the first rendering of ["<<B>>"] produces the
    placeholder ["<A>"], which the second rendering replaces. *)
Lemma render_twice_differs :
  let p := [("A", "x"); ("B", "A")] in
  plain_params p = true ∧
  render "<<B>>" p = "<A>" ∧
  render (render "<<B>>" p) p = "x" ∧
  render (render "<<B>>" p) p ≠ render "<<B>>" p.
Proof. repeat split; try reflexivity. by vm_compute. Qed.

(** ** The scenarios of the specification, run *)

Example endswith_sol :
  Str.endswith "Simple.sol" ".sol" = true ∧ Str.endswith "Simple" ".sol" = false.
Proof. by vm_compute. Qed.

Example path_join_relative :
  path_join "../templates/" "Simple.sol" = "../templates/Simple.sol" ∧
  path_join "../templates/" "/etc/passwd" = "/etc/passwd".
Proof. by vm_compute. Qed.

Example replace_empty_old : Str.replace "" "-" "abc" = "-a-b-c-".
Proof. reflexivity. Qed.

Example replace_non_overlapping : Str.replace "aa" "b" "aaaaa" = "bba".
Proof. reflexivity. Qed.

Example str_of_KeyError : str (KeyError "Bar") = "'Bar'".
Proof. reflexivity. Qed.

(** A key with a single quote comes in double quotes, a backslash is
    doubled, a line feed is written as an escape. *)
Example str_of_KeyError_quoted :
  str (KeyError "it's") = dquote +:+ "it's" +:+ dquote ∧
  str (KeyError ("a" +:+ String "092" "b")) = "'a" +:+ String "092" (String "092" "b'") ∧
  str (KeyError ("a" +:+ String "010" "b")) = "'a" +:+ String "092" "nb'".
Proof. by vm_compute. Qed.

(** Text mode: line endings are read as line feeds, and a byte that is
    not UTF-8 stops the read. *)
Example decode_text_line_endings :
  decode_text ("a" +:+ String "013" (String "010" "b") +:+ String "013" "c")
  = inr ("a" +:+ String "010" "b" +:+ String "010" "c").
Proof. by vm_compute. Qed.

Example decode_text_invalid_byte :
  decode_text ("ab" +:+ String "255" "")
  = inl (Exception "'utf-8' codec can't decode byte 0xff in position 2: invalid start byte").
Proof. by vm_compute. Qed.

(** The request of the first scenario, as it arrives, on a host with the
    two folders of the repository: the typed handler and the handler on
    any JSON object agree. *)
Example full_deploy_matching_name :
  Full.deploy_template_contract Demo.toolkit Posix.host "Simple"
    [("NAME", JString "Foo"); ("VAL", JString "5")] "Foo" true Demo.signed_in
  = deploy_template_contract Demo.toolkit "Simple" [("NAME", "Foo"); ("VAL", "5")] "Foo" true
      Demo.signed_in.
Proof.
  apply (full_deploy_on_text Demo.toolkit Posix.host "Simple" "Foo"
           [("NAME", "Foo"); ("VAL", "5")] true Demo.signed_in); [|reflexivity..].
  intros content [= <-]. reflexivity.
Qed.

(** Template rendered with matching names, an account signed in: the
    deployment is attempted with the active account as sender and the body
    reports success for [Foo]. *)
Example deploy_matching_name :
  let run := deploy_template_contract Demo.toolkit "Simple" [("NAME", "Foo"); ("VAL", "5")]
               "Foo" true Demo.signed_in in
  returned_status run.1 = Some "success" ∧
  trace run.2 =
    [EPathExists "../templates/Simple.sol";
     EReadFile "../templates/Simple.sol";
     EWriteFile "../contracts/Foo.sol" "contract Foo { uint x = 5; }";
     EProjectLoad;
     EDeploy "Foo" (Some Demo.deployer) true;
     EProjectClose] ∧
  open_projects run.2 = 0.
Proof. by vm_compute. Qed.

(** The same template under the contract name [Bar] on a clean folder. *)
Example deploy_mismatched_name :
  let run := deploy_template_contract Demo.toolkit "Simple" [("NAME", "Foo"); ("VAL", "5")]
               "Bar" true Demo.signed_in in
  run.1 = inr (Error "Please make sure that the contract name and token name are same! KeyError: 'Bar'") ∧
  count_events is_submission (trace run.2) = 0.
Proof. by vm_compute. Qed.

Example interact_signed_in :
  let run := interact_contract Demo.toolkit "Foo" "0xC0DE" "mint" ["1"] Demo.deployed in
  run.1 = inr (InteractSuccess "0xFEED" 1) ∧
  trace run.2 =
    [EProjectLoad; ETransact "0xC0DE" "0x1249c58b" ["1"] (Some Demo.deployer); EProjectClose].
Proof. by vm_compute. Qed.

Example sign_in :
  let run := set_account_active Demo.toolkit "deployer" "secret" Demo.fresh in
  run.1 = inr (AccountActive (Some "deployer") "0xA11CE") ∧
  account (ACTIVEACCOUNT run.2) = Some Demo.deployer.
Proof. by vm_compute. Qed.

(** * Properties of the rest of the server *)

(** ** The template store *)

Ltac unfold_store :=
  unfold get_template_code, add_template, delete_template, except_ValidationError,
    remove_file, listdir, lift_call in *.

(** The store and the deployment name a template's file alike, although
    one joins onto ["../templates"] and the other onto ["../templates/"]. *)
Lemma template_folder_path (template_name : string) :
  path_join CONTRACT_TEMPLATE_FOLDER (with_sol template_name) = template_path_of template_name.
Proof.
  unfold template_path_of, path_join, CONTRACT_TEMPLATE_FOLDER.
  by destruct (Str.startswith (with_sol template_name) "/").
Qed.

(** The runs of the three store handlers on a refused name. *)
Lemma store_run_invalid_name (tk : Toolkit) (template_name template_bytes msg : string)
    (w : World) :
  validate_filename tk (with_sol template_name) = Some msg →
  get_template_code tk template_name w = (inr (StoreError msg), w) ∧
  add_template tk template_name template_bytes w = (inr (StoreError msg), w) ∧
  delete_template tk template_name w = (inr (StoreError msg), w).
Proof.
  intros H. unfold_store; run. by rewrite H.
Qed.

(** The run of [add_template] on an accepted name. *)
Lemma add_template_run (tk : Toolkit) (template_name template_bytes : string) (w : World) :
  validate_filename tk (with_sol template_name) = None →
  add_template tk template_name template_bytes w
  = let path := template_path_of template_name in
    match files w !! path with
    | Some _ =>
        (inr (StoreError (already_exists_message (with_sol template_name))),
         advance w (files w) (open_projects w) [EPathExists path])
    | None =>
        (inr (TemplateNamed (with_sol template_name)),
         advance w (<[path := template_bytes]> (files w)) (open_projects w)
           [EPathExists path; EWriteFile path template_bytes])
    end.
Proof.
  intros H. cbv zeta. rewrite <- template_folder_path.
  unfold_store; unfold advance; run. rewrite H. simpl.
  destruct (files w !! _) eqn:Hf; simpl; finish.
Qed.

(** The run of [get_template_code] on an accepted name. *)
Lemma get_template_code_run (tk : Toolkit) (template_name : string) (w : World) :
  validate_filename tk (with_sol template_name) = None →
  get_template_code tk template_name w
  = let path := template_path_of template_name in
    match files w !! path with
    | Some template_code =>
        (inr (TemplateCode (with_sol template_name) template_code),
         advance w (files w) (open_projects w) [EPathExists path; EReadFile path])
    | None =>
        (inr (StoreError (not_found_message (with_sol template_name))),
         advance w (files w) (open_projects w) [EPathExists path])
    end.
Proof.
  intros H. cbv zeta. rewrite <- template_folder_path.
  unfold_store; unfold advance; run. rewrite H. simpl.
  destruct (files w !! _) eqn:Hf; simpl; rewrite ?Hf; finish.
Qed.

(** The run of [delete_template] on an accepted name. *)
Lemma delete_template_run (tk : Toolkit) (template_name : string) (w : World) :
  validate_filename tk (with_sol template_name) = None →
  delete_template tk template_name w
  = let path := template_path_of template_name in
    match files w !! path with
    | Some _ =>
        (inr (TemplateNamed (with_sol template_name)),
         advance w (delete path (files w)) (open_projects w) [EPathExists path])
    | None =>
        (inr (StoreError (not_found_message (with_sol template_name))),
         advance w (files w) (open_projects w) [EPathExists path])
    end.
Proof.
  intros H. cbv zeta. rewrite <- template_folder_path.
  unfold_store; unfold advance; run. rewrite H. simpl.
  destruct (files w !! _) eqn:Hf; simpl; rewrite ?Hf; finish.
Qed.

(** X1. A template name the validator refuses stops [get_template_code],
    [add_template] and [delete_template] before they touch anything: each
    answers with the validator's message and leaves the world as it was. *)
Theorem store_invalid_name_touches_nothing
    (tk : Toolkit) (template_name template_bytes msg : string) (w : World) :
  validate_filename tk (with_sol template_name) = Some msg →
  get_template_code tk template_name w = (inr (StoreError msg), w) ∧
  add_template tk template_name template_bytes w = (inr (StoreError msg), w) ∧
  delete_template tk template_name w = (inr (StoreError msg), w).
Proof. apply store_run_invalid_name. Qed.

Lemma store_invalid_name_touches_nothing_witness :
  get_template_code Demo.toolkit "../secret" Fixture.store
  = (inr (StoreError "invalid char found: invalids=('/')"), Fixture.store) ∧
  add_template Demo.toolkit "../secret" "x" Fixture.store
  = (inr (StoreError "invalid char found: invalids=('/')"), Fixture.store) ∧
  delete_template Demo.toolkit "../secret" Fixture.store
  = (inr (StoreError "invalid char found: invalids=('/')"), Fixture.store).
Proof. apply store_invalid_name_touches_nothing. reflexivity. Defined.

(** X2. [add_template] never overwrites: when a file already stands at the
    template's path, the body is the already-exists error, no write is
    made and every file is what it was. *)
Theorem add_template_never_overwrites
    (tk : Toolkit) (template_name template_bytes old : string) (w : World) :
  validate_filename tk (with_sol template_name) = None →
  files w !! template_path_of template_name = Some old →
  ∃ w',
    add_template tk template_name template_bytes w
    = (inr (StoreError (already_exists_message (with_sol template_name))), w') ∧
    files w' = files w ∧
    trace w' = trace w ++ [EPathExists (template_path_of template_name)].
Proof.
  intros Hv Hf. rewrite add_template_run by done. cbv zeta. rewrite Hf. by eexists.
Qed.

Lemma add_template_never_overwrites_witness :
  ∃ w',
    add_template Demo.toolkit "Simple" "contract Evil {}" Fixture.store
    = (inr (StoreError (already_exists_message "Simple.sol")), w') ∧
    files w' = files Fixture.store ∧
    trace w' = trace Fixture.store ++ [EPathExists "../templates/Simple.sol"].
Proof.
  apply (add_template_never_overwrites Demo.toolkit "Simple" "contract Evil {}" Demo.template);
    reflexivity.
Defined.

(** X3. On an accepted name with no file at its path, [add_template]
    stores exactly the uploaded bytes there, changes no other file, leaves
    the session as it was and answers with the stored file name. *)
Theorem add_template_stores_bytes
    (tk : Toolkit) (template_name template_bytes : string) (w : World) :
  validate_filename tk (with_sol template_name) = None →
  files w !! template_path_of template_name = None →
  ∃ w',
    add_template tk template_name template_bytes w
    = (inr (TemplateNamed (with_sol template_name)), w') ∧
    files w' !! template_path_of template_name = Some template_bytes ∧
    (∀ path, path ≠ template_path_of template_name → files w' !! path = files w !! path) ∧
    ACTIVEACCOUNT w' = ACTIVEACCOUNT w ∧ connections w' = connections w.
Proof.
  intros Hv Hf. rewrite add_template_run by done. cbv zeta. rewrite Hf.
  eexists. split; [reflexivity|]. simpl. split; [apply lookup_insert_eq|].
  split; [|done]. intros path Hne. by apply lookup_insert_ne.
Qed.

Lemma add_template_stores_bytes_witness :
  ∃ w',
    add_template Demo.toolkit "Token" "contract <NAME> {}" Fixture.store
    = (inr (TemplateNamed "Token.sol"), w') ∧
    files w' !! "../templates/Token.sol" = Some "contract <NAME> {}" ∧
    (∀ path, path ≠ "../templates/Token.sol" → files w' !! path = files Fixture.store !! path) ∧
    ACTIVEACCOUNT w' = ACTIVEACCOUNT Fixture.store ∧ connections w' = connections Fixture.store.
Proof.
  apply (add_template_stores_bytes Demo.toolkit "Token" "contract <NAME> {}" Fixture.store);
    reflexivity.
Defined.

(** X4. Adding the same name twice: the second call is refused and the
    bytes of the first stay in place. *)
Theorem add_template_twice_keeps_first
    (tk : Toolkit) (template_name first second : string) (w : World) :
  validate_filename tk (with_sol template_name) = None →
  files w !! template_path_of template_name = None →
  let w1 := world_after (add_template tk template_name first) w in
  ∃ w2,
    add_template tk template_name second w1
    = (inr (StoreError (already_exists_message (with_sol template_name))), w2) ∧
    files w2 !! template_path_of template_name = Some first.
Proof.
  intros Hv Hf w1. subst w1. unfold world_after.
  rewrite (add_template_run tk template_name first) by done. cbv zeta. rewrite Hf.
  rewrite add_template_run by done. cbv zeta. simpl.
  rewrite lookup_insert_eq. eexists. split; [reflexivity|]. simpl. apply lookup_insert_eq.
Qed.

Lemma add_template_twice_keeps_first_witness :
  let w1 := world_after (add_template Demo.toolkit "Token" "one") Fixture.store in
  ∃ w2,
    add_template Demo.toolkit "Token" "two" w1
    = (inr (StoreError (already_exists_message "Token.sol")), w2) ∧
    files w2 !! "../templates/Token.sol" = Some "one".
Proof.
  apply (add_template_twice_keeps_first Demo.toolkit "Token" "one" "two" Fixture.store);
    reflexivity.
Defined.

(** X5. Adding a template that was not there and deleting it again gives
    back the file system one started from. *)
Theorem add_then_delete_restores_files
    (tk : Toolkit) (template_name template_bytes : string) (w : World) :
  validate_filename tk (with_sol template_name) = None →
  files w !! template_path_of template_name = None →
  let w1 := world_after (add_template tk template_name template_bytes) w in
  ∃ w2,
    delete_template tk template_name w1 = (inr (TemplateNamed (with_sol template_name)), w2) ∧
    files w2 = files w.
Proof.
  intros Hv Hf w1. subst w1. unfold world_after.
  rewrite add_template_run by done. cbv zeta. rewrite Hf.
  rewrite delete_template_run by done. cbv zeta. simpl.
  rewrite lookup_insert_eq. eexists. split; [reflexivity|]. simpl.
  rewrite delete_insert_eq. by apply delete_id.
Qed.

Lemma add_then_delete_restores_files_witness :
  let w1 := world_after (add_template Demo.toolkit "Token" "one") Fixture.store in
  ∃ w2,
    delete_template Demo.toolkit "Token" w1 = (inr (TemplateNamed "Token.sol"), w2) ∧
    files w2 = files Fixture.store.
Proof.
  apply (add_then_delete_restores_files Demo.toolkit "Token" "one" Fixture.store);
    reflexivity.
Defined.

(** X6. [delete_template] removes the template's file and no other; a
    later [get_template_code] for the name answers not found.  When the
    file is not there, nothing is removed and the body is the not-found
    error. *)
Theorem delete_template_removes_one_file
    (tk : Toolkit) (template_name : string) (w : World) :
  validate_filename tk (with_sol template_name) = None →
  ∃ body w',
    delete_template tk template_name w = (inr body, w') ∧
    files w' !! template_path_of template_name = None ∧
    (∀ path, path ≠ template_path_of template_name → files w' !! path = files w !! path) ∧
    body = (if bool_decide (is_Some (files w !! template_path_of template_name))
            then TemplateNamed (with_sol template_name)
            else StoreError (not_found_message (with_sol template_name))) ∧
    (get_template_code tk template_name w').1
    = inr (StoreError (not_found_message (with_sol template_name))).
Proof.
  intros Hv. rewrite delete_template_run by done. cbv zeta.
  destruct (files w !! template_path_of template_name) as [old|] eqn:Hf.
  - eexists _, _. split; [reflexivity|]. simpl.
    split; [apply lookup_delete_eq|]. split; [intros; by apply lookup_delete_ne|].
    split; [done|].
    rewrite get_template_code_run by done. cbv zeta. simpl.
    by rewrite lookup_delete_eq.
  - eexists _, _. split; [reflexivity|]. simpl.
    split; [done|]. split; [done|]. split; [done|].
    rewrite get_template_code_run by done. cbv zeta. simpl. by rewrite Hf.
Qed.

Lemma delete_template_removes_one_file_witness :
  ∃ body w',
    delete_template Demo.toolkit "Simple" Fixture.store = (inr body, w') ∧
    files w' !! "../templates/Simple.sol" = None ∧
    (∀ path, path ≠ "../templates/Simple.sol" → files w' !! path = files Fixture.store !! path) ∧
    body = (if bool_decide (is_Some (files Fixture.store !! "../templates/Simple.sol"))
            then TemplateNamed "Simple.sol"
            else StoreError (not_found_message "Simple.sol")) ∧
    (get_template_code Demo.toolkit "Simple" w').1
    = inr (StoreError (not_found_message "Simple.sol")).
Proof.
  apply (delete_template_removes_one_file Demo.toolkit "Simple" Fixture.store). reflexivity.
Defined.

(** X7. A template that was just added can be fetched: for text that
    reads back as written, [get_template_code] returns the stored file
    name and the uploaded text. *)
Theorem add_then_get_template_code
    (tk : Toolkit) (template_name template_bytes : string) (w : World) :
  validate_filename tk (with_sol template_name) = None →
  files w !! template_path_of template_name = None →
  plain_text template_bytes = true →
  let w1 := world_after (add_template tk template_name template_bytes) w in
  ∃ w2,
    get_template_code tk template_name w1
    = (inr (TemplateCode (with_sol template_name) template_bytes), w2) ∧
    files w2 = files w1.
Proof.
  intros Hv Hf _ w1. subst w1. unfold world_after.
  rewrite add_template_run by done. cbv zeta. rewrite Hf.
  rewrite get_template_code_run by done. cbv zeta. simpl.
  rewrite lookup_insert_eq. by eexists.
Qed.

Lemma add_then_get_template_code_witness :
  let w1 := world_after (add_template Demo.toolkit "Token" "contract <NAME> {}")
              Fixture.store in
  ∃ w2,
    get_template_code Demo.toolkit "Token" w1
    = (inr (TemplateCode "Token.sol" "contract <NAME> {}"), w2) ∧
    files w2 = files w1.
Proof.
  apply (add_then_get_template_code Demo.toolkit "Token" "contract <NAME> {}" Fixture.store);
    reflexivity.
Defined.



(** ** The listing of the store *)

Section listing_facts.
Implicit Types (a b s old n : string) (c d : ascii).

Lemma contains_occurs old s : contains old s = true ↔ Str.occurs old s.
Proof.
  split.
  - induction s as [|c s IH]; cbn [contains].
    + intros [r Hr]%str_prefix_spec. exists "", r. done.
    + intros [[r Hr]%str_prefix_spec|H]%orb_true_iff.
      * exists "", r. done.
      * destruct (IH H) as (a & b & ->). exists (String c a), b. by rewrite str_app_cons.
  - intros (a & b & ->). induction a as [|c a IH].
    + change ("" +:+ ?x) with x. destruct (old +:+ b) eqn:Hs; cbn [contains].
      * rewrite <- Hs. apply str_prefix_app.
      * rewrite <- Hs. by rewrite str_prefix_app.
    + rewrite str_app_cons. cbn [contains]. by rewrite IH, orb_true_r.
Qed.

Lemma split_head_prefix old s : ∃ rest, s = split_head old s +:+ rest.
Proof.
  induction s as [|c s [rest IH]]; [by exists ""|]. cbn [split_head].
  destruct (String.prefix old (String c s)).
  - by exists (String c s).
  - exists rest. by rewrite str_app_cons, <- IH.
Qed.

(** What [split] puts first holds no separator. *)
Lemma split_head_free d o s : contains (String d o) (split_head (String d o) s) = false.
Proof.
  induction s as [|c s IH]; [done|]. cbn [split_head].
  destruct (String.prefix (String d o) (String c s)) eqn:Hp; [done|].
  cbn [contains]. rewrite IH, orb_false_r.
  destruct (String.prefix _ (String c (split_head _ s))) eqn:Hq; [|done].
  destruct (split_head_prefix (String d o) s) as [rest Hrest].
  apply (prefix_app_mono _ _ rest) in Hq.
  rewrite str_app_cons, <- Hrest in Hq. congruence.
Qed.

(** A separator whose first character does not come back in it is found
    first where it was appended, when the stem holds none. *)
Lemma split_head_stem d o n :
  Str.free_of (Ascii.eqb d) o = true →
  contains (String d o) n = false →
  split_head (String d o) (n +:+ String d o) = n.
Proof.
  intros Ho. induction n as [|c n IH]; intros Hn.
  - change ("" +:+ ?x) with x. cbn [split_head].
    by rewrite <- (str_app_nil_r (String d o)) at 2; rewrite str_prefix_app.
  - cbn [contains] in Hn. apply orb_false_iff in Hn as [Hp Hn].
    rewrite str_app_cons. cbn [split_head]. rewrite <- str_app_cons.
    destruct (String.prefix (String d o) (String c n +:+ String d o)) eqn:Hq.
    + apply str_prefix_spec in Hq as [r Hr].
      apply str_app_eq_split in Hr as [(m & Hm & _)|(e & m & Hm & He)].
      * rewrite Hm, str_prefix_app in Hp. done.
      * rewrite str_app_cons in He. injection He as <- _.
        rewrite str_app_cons in Hm. injection Hm as _ Hm.
        rewrite Hm, free_of_app in Ho. cbn [Str.free_of] in Ho.
        rewrite Ascii.eqb_refl in Ho. simpl in Ho. by rewrite andb_false_r in Ho.
    + by rewrite IH.
Qed.

Lemma rev_app_acc a acc : String.rev_app a acc = String.rev_app a "" +:+ acc.
Proof.
  revert acc. induction a as [|c a IH]; intros acc; [done|]. cbn [String.rev_app].
  rewrite (IH (String c acc)), (IH (String c "")). by rewrite str_app_assoc.
Qed.

Lemma rev_app_app a b acc :
  String.rev_app (a +:+ b) acc = String.rev_app b (String.rev_app a acc).
Proof.
  revert acc. induction a as [|c a IH]; intros acc; [done|].
  rewrite str_app_cons. cbn [String.rev_app]. apply IH.
Qed.

Lemma endswith_app n suffix : Str.endswith (n +:+ suffix) suffix = true.
Proof.
  unfold Str.endswith, String.rev.
  rewrite rev_app_app, (rev_app_acc suffix (String.rev_app n "")).
  apply str_prefix_app.
Qed.

Lemma until_sep_free s : Str.free_of is_sep s = true → until_sep s = s.
Proof.
  induction s as [|c s IH]; [done|]. cbn [Str.free_of until_sep].
  intros [Hc Hs]%andb_true_iff. destruct (is_sep c); [done|]. by rewrite IH.
Qed.

Lemma drop_chars_app a b : drop_chars (String.length a) (a +:+ b) = b.
Proof. induction a as [|c a IH]; [done|]. rewrite str_app_cons. apply IH. Qed.

(** A file directly in a folder is the entry of its own name. *)
Lemma entry_of_file folder name :
  Str.free_of is_sep name = true → name ≠ "" →
  entry_of folder (folder +:+ "/" +:+ name) = Some name.
Proof.
  intros Hfree Hne. unfold entry_of, Str.startswith.
  rewrite <- (str_app_assoc folder "/" name), str_prefix_app.
  replace (String.length folder + 1) with (String.length (folder +:+ "/"))
    by by rewrite str_app_length.
  rewrite drop_chars_app, until_sep_free by done. by rewrite bool_decide_false.
Qed.

End listing_facts.


Section listing_round_trip.
Implicit Types (a b s n : string) (c : ascii).

Lemma rev_cons c a : String.rev (String c a) = String.rev a +:+ String c "".
Proof. unfold String.rev. cbn [String.rev_app]. apply rev_app_acc. Qed.

Lemma rev_app_distr a b : String.rev (a +:+ b) = String.rev b +:+ String.rev a.
Proof. unfold String.rev. by rewrite rev_app_app, (rev_app_acc b (String.rev_app a "")). Qed.

Lemma rev_involutive a : String.rev (String.rev a) = a.
Proof.
  induction a as [|c a IH]; [done|].
  by rewrite rev_cons, rev_app_distr, IH.
Qed.

Lemma endswith_spec s suffix : Str.endswith s suffix = true → ∃ a, s = a +:+ suffix.
Proof.
  unfold Str.endswith. intros [r Hr]%str_prefix_spec.
  exists (String.rev r).
  by rewrite <- (rev_involutive s), Hr, rev_app_distr, rev_involutive.
Qed.

(** A name that holds no [".sol"] gets the extension appended. *)
Lemma with_sol_plain n : contains ".sol" n = false → with_sol n = n +:+ ".sol".
Proof.
  intros Hn. unfold with_sol.
  destruct (Str.endswith n ".sol") eqn:He; [|done].
  apply endswith_spec in He as [a ->].
  assert (contains ".sol" (a +:+ ".sol") = true) as Hc; [|congruence].
  apply contains_occurs. exists a, "". by rewrite str_app_nil_r.
Qed.

Lemma template_path_of_plain n :
  Str.free_of is_sep n = true → contains ".sol" n = false →
  template_path_of n = CONTRACT_TEMPLATE_FOLDER +:+ "/" +:+ (n +:+ ".sol").
Proof.
  intros Hsep Hn. unfold template_path_of, path_join. rewrite with_sol_plain by done.
  destruct n as [|c n]; [done|].
  cbn [Str.free_of] in Hsep. apply andb_true_iff in Hsep as [Hc _].
  unfold Str.startswith. rewrite str_app_cons. cbn [String.prefix].
  destruct (Ascii.ascii_dec "/" c) as [<-|_]; [done|]. done.
Qed.

(** The listing holds the stem of every file of the folder that carries
    the extension and whose stem holds neither a separator nor the
    extension. *)
Lemma listed_plain_file n content (w : World) :
  Str.free_of is_sep n = true → contains ".sol" n = false →
  files w !! (CONTRACT_TEMPLATE_FOLDER +:+ "/" +:+ (n +:+ ".sol")) = Some content →
  n ∈ listed_templates w.
Proof.
  intros Hsep Hn Hf. unfold listed_templates, get_templates_list, listdir; run.
  apply list_elem_of_fmap. exists (n +:+ ".sol"). split.
  { symmetry. by apply (split_head_stem "." "sol"). }
  apply list_elem_of_In, filter_In. split; [|apply endswith_app].
  apply list_elem_of_In, elem_of_remove_dups, list_elem_of_omap.
  exists (CONTRACT_TEMPLATE_FOLDER +:+ "/" +:+ (n +:+ ".sol"), content). split.
  - by apply elem_of_map_to_list.
  - simpl. apply entry_of_file.
    + by rewrite free_of_app, Hsep.
    + by destruct n.
Qed.

End listing_round_trip.

(** X9. [get_templates_list] reads only: it returns a body and leaves the
    world as it was.  Every name it lists is what stands before the first
    [".sol"] of an entry of the templates folder that ends in [".sol"];
    so no listed name holds [".sol"] itself. *)
Theorem listed_templates_are_stems (w : World) :
  (∃ templates, get_templates_list w = (inr (TemplateList templates), w)) ∧
  ∀ n, n ∈ listed_templates w →
    contains ".sol" n = false ∧
    ∃ path content entry,
      files w !! path = Some content ∧
      entry_of CONTRACT_TEMPLATE_FOLDER path = Some entry ∧
      Str.endswith entry ".sol" = true ∧
      n = split_head ".sol" entry.
Proof.
  split; [by eexists|].
  unfold listed_templates, get_templates_list, listdir; run.
  intros n (entry & -> & Hin)%list_elem_of_fmap.
  split; [apply (split_head_free "." "sol")|].
  apply list_elem_of_In, filter_In in Hin as [Hin Hends].
  apply list_elem_of_In, elem_of_remove_dups, list_elem_of_omap in Hin
    as ([path content] & Hfile%elem_of_map_to_list & Hentry).
  by exists path, content, entry.
Qed.

(** X10. A template added under a plain name (no path separator, no
    [".sol"] in it) shows up in the listing under that very name. *)
Theorem add_then_listed
    (tk : Toolkit) (n template_bytes : string) (w : World) :
  validate_filename tk (with_sol n) = None →
  Str.free_of is_sep n = true → contains ".sol" n = false →
  files w !! template_path_of n = None →
  n ∈ listed_templates (world_after (add_template tk n template_bytes) w).
Proof.
  intros Hv Hsep Hn Hf. unfold world_after.
  rewrite add_template_run by done. cbv zeta. rewrite Hf. simpl.
  apply (listed_plain_file n template_bytes); [done..|]. simpl.
  rewrite <- template_path_of_plain by done. apply lookup_insert_eq.
Qed.

Lemma add_then_listed_witness :
  "Token" ∈ listed_templates (world_after (add_template Demo.toolkit "Token" "one")
                                Fixture.store).
Proof.
  apply (add_then_listed Demo.toolkit "Token" "one" Fixture.store); reflexivity.
Defined.

Lemma listed_templates_are_stems_witness :
  contains ".sol" "Simple" = false ∧
  ∃ path content entry,
    files Fixture.store !! path = Some content ∧
    entry_of CONTRACT_TEMPLATE_FOLDER path = Some entry ∧
    Str.endswith entry ".sol" = true ∧
    "Simple" = split_head ".sol" entry.
Proof.
  apply (proj2 (listed_templates_are_stems Fixture.store) "Simple").
  apply (bool_decide_unpack _). by vm_compute.
Defined.

(** ** The session *)

(** X11. Signing in and asking: after a [set_account_active] whose
    keystore load succeeds, [get_account_active] reports the account of
    that call, name and address, whoever was active before. *)
Theorem set_then_get_account_active
    (tk : Toolkit) (name password : string) (acc : Account) (w : World) :
  accounts_load tk name password = inr acc →
  let w1 := world_after (set_account_active tk name password) w in
  get_account_active w1 = (inr (AccountActive (Some name) (address acc)), w1) ∧
  account (ACTIVEACCOUNT w1) = Some acc ∧
  files w1 = files w ∧ connections w1 = connections w.
Proof.
  intros H w1. subst w1. unfold world_after.
  rewrite set_account_active_run, H. by unfold get_account_active; run.
Qed.

Lemma set_then_get_account_active_witness :
  let w1 := world_after (set_account_active Demo.toolkit "deployer" "secret") Demo.fresh in
  get_account_active w1 = (inr (AccountActive (Some "deployer") "0xA11CE"), w1) ∧
  account (ACTIVEACCOUNT w1) = Some Demo.deployer ∧
  files w1 = files Demo.fresh ∧ connections w1 = connections Demo.fresh.
Proof.
  apply (set_then_get_account_active Demo.toolkit "deployer" "secret" Demo.deployer Demo.fresh).
  reflexivity.
Defined.

(** X12. Switching networks and asking.  After a [set_network_active]
    that connected, [get_network_active] reports the new network.  After
    one whose connect was refused, the connection that was active before
    is gone all the same: [get_network_active] answers that no network is
    connected. *)
Theorem set_then_get_network_active (tk : Toolkit) (name : string) (w : World) :
  (length (connections w) ≤ 1)%nat →
  let run := set_network_active tk name w in
  (get_network_active run.2).1
  = inr (match network_connect tk name with
         | None => NetworkActive (Some name)
         | Some _ => Error "Not connected to any network"
         end) ∧
  (returned_status run.1 = None ↔ is_Some (network_connect tk name)).
Proof.
  intros Hlen run. subst run. rewrite set_network_active_run. cbv zeta.
  assert (tail (connections w) = []) as Htail.
  { destruct (connections w) as [|? [|? ?]]; simpl in *; [done..|lia]. }
  destruct (network_connect tk name) as [exc|]; simpl.
  - unfold get_network_active; run. rewrite Htail. simpl.
    split; [done|]. split; [by eexists|done].
  - unfold get_network_active; run. split; [done|]. split; [done|by intros [? ?]].
Qed.

Lemma set_then_get_network_active_witness :
  let run := set_network_active Demo.toolkit "nowhere" Demo.signed_in in
  (get_network_active run.2).1
  = inr (match network_connect Demo.toolkit "nowhere" with
         | None => NetworkActive (Some "nowhere")
         | Some _ => Error "Not connected to any network"
         end) ∧
  (returned_status run.1 = None ↔ is_Some (network_connect Demo.toolkit "nowhere")).
Proof.
  apply (set_then_get_network_active Demo.toolkit "nowhere" Demo.signed_in).
  simpl. lia.
Defined.

(** ** The keystore passthroughs *)

(** The run of [delete_account]. *)
Lemma delete_account_run (tk : Toolkit) (sv : Services) (name password : string) (w : World) :
  delete_account tk sv name password w
  = let w1 := advance w (files w) (open_projects w) [EAccountsLoad name] in
    match accounts_load tk name password with
    | inl exc =>
        (inr (HTTPException 404
                ("No account found locally with name " +:+ dquote +:+ name +:+ dquote
                 +:+ ". " +:+ str exc)), w1)
    | inr acc =>
        match accounts_remove sv acc with
        | Some exc => (inl exc, w1)
        | None => (inr NoBody, w1)
        end
    end.
Proof.
  unfold delete_account, advance, lift_call; run.
  destruct (accounts_load tk name password) as [exc|acc]; simpl; [done|].
  by destruct (accounts_remove sv acc).
Qed.

(** X13. [delete_account] never touches the session.  Whatever the
    keystore does, the active account, the files and the connections are
    what they were; so an account that is active when it is deleted stays
    the active account, and [get_account_active] still reports it.  When
    the load fails, the handler returns the 404 exception object as its
    body and does not call [accounts.remove]: the outcome is the same for
    every behaviour of the removal. *)
Theorem delete_account_keeps_session
    (tk : Toolkit) (sv : Services) (name password : string) (w : World) :
  let run := delete_account tk sv name password w in
  ACTIVEACCOUNT run.2 = ACTIVEACCOUNT w ∧
  files run.2 = files w ∧ connections run.2 = connections w ∧
  (get_account_active run.2).1 = (get_account_active w).1 ∧
  (∀ exc, accounts_load tk name password = inl exc →
     ∀ sv', delete_account tk sv' name password w = run ∧
            run.1 = inr (HTTPException 404
                           ("No account found locally with name " +:+ dquote +:+ name
                            +:+ dquote +:+ ". " +:+ str exc))).
Proof.
  intros run. subst run. rewrite delete_account_run. cbv zeta.
  assert (∀ evs, (get_account_active (advance w (files w) (open_projects w) evs)).1
                 = (get_account_active w).1) as Hget.
  { intros evs. unfold get_account_active, advance; run.
    by destruct (account (ACTIVEACCOUNT w)). }
  destruct (accounts_load tk name password) as [exc|acc] eqn:Hload.
  - split; [done|]. split; [done|]. split; [done|]. split; [apply Hget|].
    intros exc' [= <-] sv'. split; [|done].
    rewrite delete_account_run. cbv zeta. by rewrite Hload.
  - destruct (accounts_remove sv acc);
      (split; [done|]; split; [done|]; split; [done|]; split; [apply Hget|done]).
Qed.

Lemma delete_account_keeps_session_witness :
  delete_account Demo.toolkit Fixture.offline "deployer" "guess" Demo.signed_in
  = delete_account Demo.toolkit Fixture.services "deployer" "guess" Demo.signed_in ∧
  (delete_account Demo.toolkit Fixture.services "deployer" "guess" Demo.signed_in).1
  = inr (HTTPException 404
           ("No account found locally with name " +:+ dquote +:+ "deployer" +:+ dquote
            +:+ ". " +:+ str (Exception "password or name is incorrect"))).
Proof.
  apply (proj2 (proj2 (proj2 (proj2
           (delete_account_keeps_session Demo.toolkit Fixture.services "deployer" "guess"
              Demo.signed_in)))) (Exception "password or name is incorrect") eq_refl
           Fixture.offline).
Defined.

(** X14. Deleting the active account does not sign it out: after a
    [delete_account] that loaded and removed the active account, a
    deployment is still submitted with that account as the sender. *)
Theorem deleted_account_still_signs
    (tk : Toolkit) (sv : Services) (name password : string) (acc : Account) (w : World)
    (template_name contract_name code : string) (template_params : list (string * string))
    (publish_source : bool) (proj : gmap string ContractContainer) (c : ContractContainer) :
  account (ACTIVEACCOUNT w) = Some acc →
  accounts_load tk name password = inr acc →
  accounts_remove sv acc = None →
  validate_filename tk (with_sol template_name) = None →
  validate_filename tk (contract_name +:+ ".sol") = None →
  files w !! template_path_of template_name = Some code →
  project_load tk (<[contract_path_of contract_name := render code template_params]> (files w))
  = inr proj →
  proj !! contract_name = Some c →
  let w1 := world_after (delete_account tk sv name password) w in
  let w2 := world_after (deploy_template_contract tk template_name template_params
                           contract_name publish_source) w1 in
  (delete_account tk sv name password w).1 = inr NoBody ∧
  EDeploy (container_name c) (Some acc) publish_source ∈ trace w2.
Proof.
  intros Hacc Hload Hremove Ht Hc Hf Hp Hk w1 w2. subst w1 w2. unfold world_after.
  rewrite delete_account_run. cbv zeta. rewrite Hload, Hremove. split; [done|].
  rewrite (deploy_run _ _ _ _ _ _ code Ht Hc); [|done]. cbv zeta. simpl.
  rewrite Hp, Hk. simpl. rewrite Hacc.
  apply elem_of_app. right. rewrite !elem_of_cons. auto 10.
Qed.

Lemma deleted_account_still_signs_witness :
  let w1 := world_after (delete_account Demo.toolkit Fixture.services "deployer" "secret")
              Demo.signed_in in
  let w2 := world_after (deploy_template_contract Demo.toolkit "Simple"
                           [("NAME", "Foo"); ("VAL", "5")] "Foo" true) w1 in
  (delete_account Demo.toolkit Fixture.services "deployer" "secret" Demo.signed_in).1
  = inr NoBody ∧
  EDeploy (container_name (Demo.container "Foo")) (Some Demo.deployer) true ∈ trace w2.
Proof.
  apply (deleted_account_still_signs Demo.toolkit Fixture.services "deployer" "secret"
           Demo.deployer Demo.signed_in "Simple" "Foo" Demo.template
           [("NAME", "Foo"); ("VAL", "5")] true
           (Demo.compile (<["../contracts/Foo.sol" := "contract Foo { uint x = 5; }"]>
                            (files Demo.signed_in)))
           (Demo.container "Foo")); reflexivity.
Defined.

(** X15. [generate_new_account] saves the new account only under a
    non-empty passphrase.  With an empty one the keystore's [save] is not
    called: the body carries the new address and private key whatever
    [save] would do.  With a non-empty one a failing [save] leaves the
    handler as an uncaught exception.  In no case is the new account made
    the active one: the world is what it was. *)
Theorem generate_new_account_saves_on_passphrase
    (sv : Services) (name password : string) (key : option string) (new : LocalAccount)
    (w : World) :
  accounts_add sv key = inr new →
  generate_new_account sv name password key w
  = (match (if truthy password then account_save sv new name password else None) with
     | Some exc => inl exc
     | None => inr (Generated (address (local_account new)) (local_private_key new))
     end, w) ∧
  generate_new_account sv name "" key w
  = (inr (Generated (address (local_account new)) (local_private_key new)), w).
Proof.
  intros H. unfold generate_new_account, lift_call; run. rewrite H. simpl.
  split; [|done].
  destruct (truthy password); [|done]. by destruct (account_save sv new name password).
Qed.

Lemma generate_new_account_saves_on_passphrase_witness :
  generate_new_account Fixture.services "deployer" "pw" None Demo.fresh
  = (match (if truthy "pw"
            then account_save Fixture.services Fixture.newcomer "deployer" "pw" else None) with
     | Some exc => inl exc
     | None => inr (Generated (address (local_account Fixture.newcomer))
                      (local_private_key Fixture.newcomer))
     end, Demo.fresh) ∧
  generate_new_account Fixture.services "deployer" "" None Demo.fresh
  = (inr (Generated (address (local_account Fixture.newcomer))
            (local_private_key Fixture.newcomer)), Demo.fresh).
Proof.
  apply (generate_new_account_saves_on_passphrase Fixture.services "deployer" "pw" None
           Fixture.newcomer Demo.fresh).
  reflexivity.
Defined.

(** ** Contracts: listing, deployment, interaction *)

Lemma count_events_app (p : Event → bool) (evs evs' : list Event) :
  count_events p (evs ++ evs') = (count_events p evs + count_events p evs')%nat.
Proof. induction evs as [|ev evs IH]; simpl; [done|]. rewrite IH. lia. Qed.

(** The run of [get_contracts]. *)
Lemma get_contracts_run (tk : Toolkit) (w : World) :
  get_contracts tk w
  = match project_load tk (files w) with
    | inl exc => (inl exc, advance w (files w) (open_projects w) [EProjectLoad])
    | inr proj =>
        (inr ((map_to_list proj).*1),
         advance w (files w) (S (open_projects w)) [EProjectLoad])
    end.
Proof.
  unfold get_contracts, advance; run. by destruct (project_load tk (files w)).
Qed.

(** X16. [get_contracts] never closes the project it loads: a call whose
    load returns makes the load its only call, leaves one more handle
    open than it found and closes none; the names it returns are exactly
    the keys of the loaded project. *)
Theorem get_contracts_leaves_handle_open
    (tk : Toolkit) (w : World) (proj : gmap string ContractContainer) :
  project_load tk (files w) = inr proj →
  ∃ names w',
    get_contracts tk w = (inr names, w') ∧
    (∀ name, name ∈ names ↔ is_Some (proj !! name)) ∧
    trace w' = trace w ++ [EProjectLoad] ∧
    open_projects w' = S (open_projects w) ∧
    count_events is_project_close (trace w') = count_events is_project_close (trace w).
Proof.
  intros Hp. rewrite get_contracts_run, Hp. eexists _, _. split; [reflexivity|]. split.
  - intros name. rewrite list_elem_of_fmap. split.
    + intros ([k c] & -> & Hin%elem_of_map_to_list). by exists c.
    + intros [c Hc]. exists (name, c). split; [done|]. by apply elem_of_map_to_list.
  - split; [done|]. split; [done|]. simpl. rewrite count_events_app. simpl. lia.
Qed.

Lemma get_contracts_leaves_handle_open_witness :
  ∃ names w',
    get_contracts Demo.toolkit Demo.deployed = (inr names, w') ∧
    (∀ name, name ∈ names ↔ is_Some (Demo.compile (files Demo.deployed) !! name)) ∧
    trace w' = trace Demo.deployed ++ [EProjectLoad] ∧
    open_projects w' = S (open_projects Demo.deployed) ∧
    count_events is_project_close (trace w')
    = count_events is_project_close (trace Demo.deployed).
Proof.
  apply (get_contracts_leaves_handle_open Demo.toolkit Demo.deployed
           (Demo.compile (files Demo.deployed))).
  reflexivity.
Defined.

(** What a success body of [deploy_template_contract] implies about the
    run behind it. *)
Lemma deploy_success_inv
    (tk : Toolkit) (template_name contract_name : string)
    (template_params : list (string * string)) (publish_source : bool)
    (w w' : World) (data : ContractJson) :
  deploy_template_contract tk template_name template_params contract_name publish_source w
  = (inr (DeploySuccess data), w') →
  ∃ code proj c acc d info,
    validate_filename tk (with_sol template_name) = None ∧
    validate_filename tk (contract_name +:+ ".sol") = None ∧
    files w !! template_path_of template_name = Some code ∧
    project_load tk (<[contract_path_of contract_name := render code template_params]> (files w))
    = inr proj ∧
    proj !! contract_name = Some c ∧
    account (ACTIVEACCOUNT w) = Some acc ∧
    container_deploy tk c (Some acc) publish_source = inr d ∧
    get_verification_info tk c = inr info ∧
    w' = advance w (<[contract_path_of contract_name := render code template_params]> (files w))
           (open_projects w)
           (prepared_events template_name contract_name (render code template_params)
            ++ [EDeploy (container_name c) (Some acc) publish_source; EProjectClose]) ∧
    data = {| data_abi := abi c;
              data_contract := render code template_params;
              data_network := head (connections w);
              data_verification_info := info;
              data_deployed_bytecode := bytecode d;
              data_contract_name := contract_name;
              data_contract_params := template_params;
              data_contract_code := render code template_params;
              data_contract_address := contract_address d;
              data_deployer_address := address acc |}.
Proof.
  destruct (validate_filename tk (with_sol template_name)) as [msg|] eqn:Ht.
  { rewrite (deploy_run_invalid_name _ _ _ _ _ _ msg); [done|by left]. }
  destruct (validate_filename tk (contract_name +:+ ".sol")) as [msg|] eqn:Hc.
  { rewrite (deploy_run_invalid_name _ _ _ _ _ _ msg); [done|by right]. }
  destruct (files w !! template_path_of template_name) as [code|] eqn:Hf.
  2: { by rewrite deploy_run_missing_template. }
  rewrite (deploy_run _ _ _ _ _ _ code Ht Hc Hf). cbv zeta.
  destruct (project_load tk _) as [exc|proj] eqn:Hp; [done|].
  destruct (proj !! contract_name) as [c|] eqn:Hk; [|done].
  unfold deploy_response.
  destruct (account (ACTIVEACCOUNT w)) as [acc|] eqn:Hacc.
  - destruct (container_deploy tk c (Some acc) publish_source) as [exc|d] eqn:Hd; [done|].
    destruct (get_verification_info tk c) as [exc|info] eqn:Hi; [done|].
    intros [= <- <-]. by exists code, proj, c, acc, d, info.
  - destruct (container_deploy tk c None publish_source); [done|].
    by destruct (get_verification_info tk c).
Qed.

(** X17. A success body is only ever returned for a signed deployment:
    behind every [status: success] of [deploy_template_contract] there is
    an active account, whose address is the reported deployer; exactly one
    deploy call was made, with that account as sender; the project handle
    was closed; and the source reported in the body is the rendering that
    now stands in the contracts folder under the contract name. *)
Theorem deploy_success_means_signed_once
    (tk : Toolkit) (template_name contract_name : string)
    (template_params : list (string * string)) (publish_source : bool)
    (w w' : World) (data : ContractJson) :
  deploy_template_contract tk template_name template_params contract_name publish_source w
  = (inr (DeploySuccess data), w') →
  ∃ acc c evs,
    account (ACTIVEACCOUNT w) = Some acc ∧
    data_deployer_address data = address acc ∧
    data_contract_name data = contract_name ∧
    data_contract_params data = template_params ∧
    data_contract data = data_contract_code data ∧
    files w' !! contract_path_of contract_name = Some (data_contract_code data) ∧
    trace w' = trace w ++ evs ++
      [EDeploy (container_name c) (Some acc) publish_source; EProjectClose] ∧
    count_events is_submission evs = 0 ∧
    open_projects w' = open_projects w.
Proof.
  intros (code & proj & c & acc & d & info & _ & _ & _ & _ & _ & Hacc & _ & _ & -> & ->)
    %deploy_success_inv.
  exists acc, c, (prepared_events template_name contract_name (render code template_params)).
  simpl. repeat split; try done; try apply lookup_insert_eq; by rewrite <- !app_assoc.
Qed.

Lemma deploy_success_means_signed_once_witness :
  ∃ acc c evs,
    account (ACTIVEACCOUNT Demo.signed_in) = Some acc ∧
    data_deployer_address (Fixture.success_data) = address acc ∧
    data_contract_name (Fixture.success_data) = "Foo" ∧
    data_contract_params (Fixture.success_data) = [("NAME", "Foo"); ("VAL", "5")] ∧
    data_contract (Fixture.success_data) = data_contract_code (Fixture.success_data) ∧
    files (deploy_template_contract Demo.toolkit "Simple" [("NAME", "Foo"); ("VAL", "5")]
             "Foo" true Demo.signed_in).2 !! contract_path_of "Foo"
    = Some (data_contract_code (Fixture.success_data)) ∧
    trace (deploy_template_contract Demo.toolkit "Simple" [("NAME", "Foo"); ("VAL", "5")]
             "Foo" true Demo.signed_in).2
    = trace Demo.signed_in ++ evs ++
      [EDeploy (container_name c) (Some acc) true; EProjectClose] ∧
    count_events is_submission evs = 0 ∧
    open_projects (deploy_template_contract Demo.toolkit "Simple"
                     [("NAME", "Foo"); ("VAL", "5")] "Foo" true Demo.signed_in).2
    = open_projects Demo.signed_in.
Proof.
  apply (deploy_success_means_signed_once Demo.toolkit "Simple" "Foo"
           [("NAME", "Foo"); ("VAL", "5")] true Demo.signed_in
           (deploy_template_contract Demo.toolkit "Simple" [("NAME", "Foo"); ("VAL", "5")]
              "Foo" true Demo.signed_in).2 Fixture.success_data).
  vm_compute. reflexivity.
Defined.

(** X18. What was deployed is listed: after a deployment that returned a
    success body, [get_contracts] names the deployed contract. *)
Theorem deployed_contract_is_listed
    (tk : Toolkit) (template_name contract_name : string)
    (template_params : list (string * string)) (publish_source : bool)
    (w w' : World) (data : ContractJson) :
  deploy_template_contract tk template_name template_params contract_name publish_source w
  = (inr (DeploySuccess data), w') →
  ∃ names w'', get_contracts tk w' = (inr names, w'') ∧ contract_name ∈ names.
Proof.
  intros (code & proj & c & acc & d & info & _ & _ & _ & Hp & Hk & _ & _ & _ & -> & _)
    %deploy_success_inv.
  rewrite get_contracts_run. simpl. rewrite Hp. eexists _, _. split; [reflexivity|].
  apply list_elem_of_fmap. exists (contract_name, c). split; [done|].
  by apply elem_of_map_to_list.
Qed.

Lemma deployed_contract_is_listed_witness :
  ∃ names w'',
    get_contracts Demo.toolkit
      (deploy_template_contract Demo.toolkit "Simple" [("NAME", "Foo"); ("VAL", "5")]
         "Foo" true Demo.signed_in).2 = (inr names, w'') ∧
    "Foo" ∈ names.
Proof.
  apply (deployed_contract_is_listed Demo.toolkit "Simple" "Foo"
           [("NAME", "Foo"); ("VAL", "5")] true Demo.signed_in _ Fixture.success_data).
  vm_compute. reflexivity.
Defined.

(** X19. An interaction that names a contract the project does not hold,
    or a method the contract's signature table does not hold, submits no
    transaction; the message of the error body is the text of the
    [KeyError]: for an ASCII name the [repr] of the missing name, which
    for a name of printable characters without quote or backslash is the
    name in single quotes. *)
Theorem interact_unknown_name_submits_nothing
    (tk : Toolkit) (contract_name at_address contract_method : string)
    (method_args : list string) (w : World) (proj : gmap string ContractContainer) :
  project_load tk (files w) = inr proj →
  (proj !! contract_name = None →
   ∃ detail w',
     interact_contract tk contract_name at_address contract_method method_args w
     = (inr (Error detail), w') ∧
     (Str.ascii_text contract_name = true → detail = Str.repr contract_name) ∧
     (Str.plain_name contract_name = true → detail = "'" +:+ contract_name +:+ "'") ∧
     count_events is_submission (trace w') = count_events is_submission (trace w)) ∧
  (∀ c d,
     proj !! contract_name = Some c →
     container_at tk c at_address = inr d →
     signatures d !! contract_method = None →
     ∃ detail w',
       interact_contract tk contract_name at_address contract_method method_args w
       = (inr (Error detail), w') ∧
       (Str.ascii_text contract_method = true → detail = Str.repr contract_method) ∧
       (Str.plain_name contract_method = true → detail = "'" +:+ contract_method +:+ "'") ∧
       count_events is_submission (trace w') = count_events is_submission (trace w)).
Proof.
  intros Hp. split.
  - intros Hk. rewrite interact_run, Hp, Hk. cbv zeta.
    exists (Str.repr contract_name). eexists. split; [reflexivity|].
    split; [done|]. split; [by intros ->%repr_plain_name|].
    simpl. rewrite count_events_app. simpl. lia.
  - intros c d Hk Hat Hsig. rewrite interact_run, Hp, Hk, Hat, Hsig. cbv zeta.
    exists (Str.repr contract_method). eexists. split; [reflexivity|].
    split; [done|]. split; [by intros ->%repr_plain_name|].
    simpl. rewrite count_events_app. simpl. lia.
Qed.

Lemma interact_unknown_name_submits_nothing_witness :
  ∃ w',
    interact_contract Demo.toolkit "Foo" "0xC0DE" "burn" [] Demo.deployed
    = (inr (Error "'burn'"), w') ∧
    count_events is_submission (trace w') = count_events is_submission (trace Demo.deployed).
Proof.
  destruct (proj2 (interact_unknown_name_submits_nothing Demo.toolkit "Foo" "0xC0DE" "burn" []
                     Demo.deployed (Demo.compile (files Demo.deployed)) eq_refl)
              (Demo.container "Foo") (Demo.instance "Foo" "0xC0DE") eq_refl eq_refl eq_refl)
    as (detail & w' & Hrun & _ & Hplain & Hcount).
  rewrite (Hplain eq_refl) in Hrun.
  exists w'. split; [exact Hrun|exact Hcount].
Defined.

(** X20. A deployment that names a template which is not on disk stops
    after one existence check: the body says that the template file is not
    available, no file is read or written, the project is not loaded and
    nothing is submitted. *)
Theorem deploy_missing_template_stops_early
    (tk : Toolkit) (template_name contract_name : string)
    (template_params : list (string * string)) (publish_source : bool) (w : World) :
  validate_filename tk (with_sol template_name) = None →
  validate_filename tk (contract_name +:+ ".sol") = None →
  files w !! template_path_of template_name = None →
  ∃ w',
    deploy_template_contract tk template_name template_params contract_name publish_source w
    = (inr (Error (with_sol template_name +:+ " template is not available!")), w') ∧
    trace w' = trace w ++ [EPathExists (template_path_of template_name)] ∧
    files w' = files w ∧ open_projects w' = open_projects w.
Proof.
  intros Ht Hc Hf. rewrite deploy_run_missing_template by done. by eexists.
Qed.

Lemma deploy_missing_template_stops_early_witness :
  ∃ w',
    deploy_template_contract Demo.toolkit "Ghost" [] "Foo" true Demo.signed_in
    = (inr (Error ("Ghost.sol" +:+ " template is not available!")), w') ∧
    trace w' = trace Demo.signed_in ++ [EPathExists (template_path_of "Ghost")] ∧
    files w' = files Demo.signed_in ∧ open_projects w' = open_projects Demo.signed_in.
Proof.
  apply (deploy_missing_template_stops_early Demo.toolkit "Ghost" "Foo" [] true Demo.signed_in);
    reflexivity.
Defined.

(** X21. Which [KeyError]s get the name-mismatch hint.  A [KeyError]
    raised by the project load is reported with the hint, like the one of
    the failed lookup; a [KeyError] raised by the deployment call itself
    is caught by the inner handler and reported bare, after the project
    has been closed.  In both messages the key comes as the text of the
    [KeyError]: for an ASCII key its [repr], which for a key of printable
    characters without quote or backslash is the key in single quotes. *)
Theorem deploy_key_error_hint
    (tk : Toolkit) (template_name contract_name key : string)
    (template_params : list (string * string)) (publish_source : bool)
    (w : World) (code : string) :
  validate_filename tk (with_sol template_name) = None →
  validate_filename tk (contract_name +:+ ".sol") = None →
  files w !! template_path_of template_name = Some code →
  let written := <[contract_path_of contract_name := render code template_params]> (files w) in
  let run := deploy_template_contract tk template_name template_params contract_name
               publish_source w in
  ∃ detail,
    (Str.ascii_text key = true → detail = Str.repr key) ∧
    (Str.plain_name key = true → detail = "'" +:+ key +:+ "'") ∧
    (project_load tk written = inl (KeyError key) →
     run.1 = inr (Error ("Please make sure that the contract name and token name are same! KeyError: "
                         +:+ detail))) ∧
    (∀ proj c,
       project_load tk written = inr proj →
       proj !! contract_name = Some c →
       container_deploy tk c (account (ACTIVEACCOUNT w)) publish_source = inl (KeyError key) →
       run.1 = inr (Error detail) ∧
       open_projects run.2 = open_projects w).
Proof.
  intros Ht Hc Hf written run. subst written run.
  rewrite (deploy_run _ _ _ _ _ _ code Ht Hc Hf). cbv zeta.
  exists (Str.repr key). split; [done|]. split; [by intros ->%repr_plain_name|]. split.
  - by intros ->.
  - intros proj c -> -> Hd. unfold deploy_response. by rewrite Hd.
Qed.

Lemma deploy_key_error_hint_witness :
  (deploy_template_contract Fixture.broken_loader "Simple" [("NAME", "Foo"); ("VAL", "5")] "Foo" true
     Demo.signed_in).1
  = inr (Error "Please make sure that the contract name and token name are same! KeyError: 'compiler'").
Proof.
  destruct (deploy_key_error_hint Fixture.broken_loader "Simple" "Foo" "compiler"
              [("NAME", "Foo"); ("VAL", "5")] true Demo.signed_in Demo.template
              eq_refl eq_refl eq_refl)
    as (detail & _ & Hplain & Hload & _).
  rewrite (Hplain eq_refl) in Hload. exact (Hload eq_refl).
Defined.

(** X22. Behind every success body of [interact_contract] there is
    exactly one [transact] call, made after one project load and followed
    by the close of the project; the body carries the id and the status of
    that transaction, and no file has changed. *)
Theorem interact_success_means_one_transaction
    (tk : Toolkit) (contract_name at_address contract_method : string)
    (method_args : list string) (w w' : World) (tx_hash : string) (tx_state : Z) :
  interact_contract tk contract_name at_address contract_method method_args w
  = (inr (InteractSuccess tx_hash tx_state), w') →
  ∃ d selector func_tx,
    method_transact tk d selector method_args (account (ACTIVEACCOUNT w)) = inr func_tx ∧
    signatures d !! contract_method = Some selector ∧
    tx_hash = txid func_tx ∧ tx_state = tx_status func_tx ∧
    trace w' = trace w ++
      [EProjectLoad;
       ETransact (contract_address d) selector method_args (account (ACTIVEACCOUNT w));
       EProjectClose] ∧
    open_projects w' = open_projects w ∧ files w' = files w.
Proof.
  rewrite interact_run. cbv zeta.
  destruct (project_load tk (files w)) as [exc|proj]; [done|].
  destruct (proj !! contract_name) as [c|]; [|done].
  destruct (container_at tk c at_address) as [exc|d]; [done|].
  destruct (signatures d !! contract_method) as [selector|] eqn:Hsig; [|done].
  destruct (method_transact tk d selector method_args _) as [exc|func_tx] eqn:Htx; [done|].
  intros [= <- <- <-]. by exists d, selector, func_tx.
Qed.

Lemma interact_success_means_one_transaction_witness :
  ∃ d selector func_tx,
    method_transact Demo.toolkit d selector ["1"] (account (ACTIVEACCOUNT Demo.deployed))
    = inr func_tx ∧
    signatures d !! "mint" = Some selector ∧
    "0xFEED" = txid func_tx ∧ 1%Z = tx_status func_tx ∧
    trace (interact_contract Demo.toolkit "Foo" "0xC0DE" "mint" ["1"] Demo.deployed).2
    = trace Demo.deployed ++
      [EProjectLoad;
       ETransact (contract_address d) selector ["1"] (account (ACTIVEACCOUNT Demo.deployed));
       EProjectClose] ∧
    open_projects (interact_contract Demo.toolkit "Foo" "0xC0DE" "mint" ["1"] Demo.deployed).2
    = open_projects Demo.deployed ∧
    files (interact_contract Demo.toolkit "Foo" "0xC0DE" "mint" ["1"] Demo.deployed).2
    = files Demo.deployed.
Proof.
  apply (interact_success_means_one_transaction Demo.toolkit "Foo" "0xC0DE" "mint" ["1"]
           Demo.deployed).
  vm_compute. reflexivity.
Defined.

(** ** [src/api/app.py]: [read_item] *)

(** The run of [read_item]. *)
Lemma read_item_run (sv : Services)
    (nft_name nft_symbol mint_cost max_supply max_mint_amount_per_tx base_uri : string)
    (w : World) :
  read_item sv nft_name nft_symbol mint_cost max_supply max_mint_amount_per_tx base_uri w
  = let template := "../templates/SimpleNFT.sol" in
    match files w !! template with
    | None =>
        (inr (CompileError (str (FileNotFoundError template))),
         advance w (files w) (open_projects w) [EReadFile template])
    | Some code =>
        let rendered :=
          render code (simple_nft_params nft_name nft_symbol mint_cost max_supply
                         max_mint_amount_per_tx base_uri) in
        let target := "../contracts/" +:+ nft_name +:+ ".sol" in
        (inr match compile_source sv rendered with
             | inl exc => CompileError (str exc)
             | inr a =>
                 match a !! nft_name with
                 | None => CompileError (str (KeyError nft_name))
                 | Some compiled =>
                     Compiled (compiled_abi compiled) (compiled_bytecode compiled) rendered
                 end
             end,
         advance w (<[target := rendered]> (files w)) (open_projects w)
           [EReadFile template; EWriteFile target rendered])
    end.
Proof.
  cbv zeta. unfold read_item, advance; run.
  destruct (files w !! "../templates/SimpleNFT.sol") as [code|]; simpl; [|done].
  change (Str.replace "<BASE_URI>" base_uri _)
    with (render code (simple_nft_params nft_name nft_symbol mint_cost max_supply
                         max_mint_amount_per_tx base_uri)).
  destruct (compile_source sv _) as [exc|a]; simpl; [finish|].
  destruct (a !! nft_name); simpl; finish.
Qed.

(** X23. [read_item] without its template: the body is an error whose
    message is the text of the file-not-found exception, nothing is
    written and the compiler is not reached: the outcome is the same for
    every compiler. *)
Theorem read_item_missing_template
    (sv sv' : Services)
    (nft_name nft_symbol mint_cost max_supply max_mint_amount_per_tx base_uri : string)
    (w : World) :
  files w !! "../templates/SimpleNFT.sol" = None →
  ∃ w',
    read_item sv nft_name nft_symbol mint_cost max_supply max_mint_amount_per_tx base_uri w
    = (inr (CompileError
              "[Errno 2] No such file or directory: '../templates/SimpleNFT.sol'"), w') ∧
    files w' = files w ∧
    read_item sv' nft_name nft_symbol mint_cost max_supply max_mint_amount_per_tx base_uri w
    = read_item sv nft_name nft_symbol mint_cost max_supply max_mint_amount_per_tx base_uri w.
Proof.
  intros Hf. rewrite !read_item_run. cbv zeta. rewrite Hf. by eexists.
Qed.

Lemma read_item_missing_template_witness :
  ∃ w',
    read_item Fixture.services "Ape" "APE" "1" "10" "2" "ipfs" Demo.fresh
    = (inr (CompileError
              "[Errno 2] No such file or directory: '../templates/SimpleNFT.sol'"), w') ∧
    files w' = files Demo.fresh ∧
    read_item Fixture.offline "Ape" "APE" "1" "10" "2" "ipfs" Demo.fresh
    = read_item Fixture.services "Ape" "APE" "1" "10" "2" "ipfs" Demo.fresh.
Proof.
  apply (read_item_missing_template Fixture.services Fixture.offline). reflexivity.
Defined.

(** The run of [Full.read_item] with its template on disk. *)
Lemma full_read_item_run (sv : Services) (os : Host)
    (nft_name nft_symbol mint_cost max_supply max_mint_amount_per_tx base_uri : string)
    (w : World) (content code : string) :
  files w !! "../templates/SimpleNFT.sol" = Some content →
  decode_text content = inr code →
  Full.read_item sv os nft_name nft_symbol mint_cost max_supply max_mint_amount_per_tx base_uri w
  = let template := "../templates/SimpleNFT.sol" in
    let rendered :=
      render code (simple_nft_params nft_name nft_symbol mint_cost max_supply
                     max_mint_amount_per_tx base_uri) in
    let target := "../contracts/" +:+ nft_name +:+ ".sol" in
    match open_for_writing os target with
    | Some exc =>
        (inr (CompileError (str exc)),
         advance w (files w) (open_projects w) [EReadFile template])
    | None =>
        (inr match compile_source sv rendered with
             | inl exc => CompileError (str exc)
             | inr a =>
                 match a !! nft_name with
                 | None => CompileError (str (KeyError nft_name))
                 | Some compiled =>
                     Compiled (compiled_abi compiled) (compiled_bytecode compiled) rendered
                 end
             end,
         advance w (<[target := rendered]> (files w)) (open_projects w)
           [EReadFile template; EWriteFile target rendered])
    end.
Proof.
  intros Hf Hd. cbv zeta. unfold Full.read_item, read_text, write_text, advance; run.
  rewrite Hf. simpl. rewrite Hd. simpl.
  change (Str.replace "<BASE_URI>" base_uri _)
    with (render code (simple_nft_params nft_name nft_symbol mint_cost max_supply
                         max_mint_amount_per_tx base_uri)).
  destruct (open_for_writing os _) as [exc|]; simpl; [done|].
  destruct (compile_source sv _) as [exc|a]; simpl; [finish|].
  destruct (a !! nft_name); simpl; finish.
Qed.

(** X24. [read_item] writes before it compiles.  With its template on
    disk and readable as UTF-8 text, and on a host that opens
    ["../contracts/" + nft_name + ".sol"] for writing — the name is used
    as it comes, without validation — [read_item] returns a body, and
    whatever the compiler says the rendered source then stands at that
    path.  A success body carries that same source; a compilation that
    yields no contract called [nft_name] gives the error body whose
    message is the text of the [KeyError], for an ASCII name the [repr]
    of the name.  When the host does not open the path, the body is the
    error body of that exception and no file has changed. *)
Theorem read_item_writes_before_compiling
    (sv : Services) (os : Host)
    (nft_name nft_symbol mint_cost max_supply max_mint_amount_per_tx base_uri : string)
    (w : World) (content code : string) :
  files w !! "../templates/SimpleNFT.sol" = Some content →
  decode_text content = inr code →
  let target := "../contracts/" +:+ nft_name +:+ ".sol" in
  let rendered :=
    render code (simple_nft_params nft_name nft_symbol mint_cost max_supply
                   max_mint_amount_per_tx base_uri) in
  ∃ body w',
    Full.read_item sv os nft_name nft_symbol mint_cost max_supply max_mint_amount_per_tx
      base_uri w = (inr body, w') ∧
    match open_for_writing os target with
    | Some exc => body = CompileError (str exc) ∧ files w' = files w
    | None =>
        files w' = <[target := rendered]> (files w) ∧
        trace w' = trace w ++ [EReadFile "../templates/SimpleNFT.sol";
                               EWriteFile target rendered] ∧
        (∀ contract_abi contract_bytecode contract,
           body = Compiled contract_abi contract_bytecode contract → contract = rendered) ∧
        (∀ a, compile_source sv rendered = inr a → a !! nft_name = None →
           ∃ detail,
             body = CompileError detail ∧
             (Str.ascii_text nft_name = true → detail = Str.repr nft_name))
    end.
Proof.
  intros Hf Hd target rendered. subst target rendered.
  rewrite (full_read_item_run _ _ _ _ _ _ _ _ _ content code Hf Hd). cbv zeta.
  destruct (open_for_writing os _) as [exc|].
  { by eexists _, _. }
  eexists _, _. split; [reflexivity|]. split; [done|]. split; [done|]. split.
  - intros ? ? ?. destruct (compile_source sv _) as [exc|a]; [done|].
    destruct (a !! nft_name); [|done]. by intros [= _ _ <-].
  - intros a -> ->. by exists (Str.repr nft_name).
Qed.

Lemma read_item_writes_before_compiling_witness :
  ∃ body w',
    Full.read_item Fixture.services Posix.host "Ape" "APE" "1" "10" "2" "ipfs" Fixture.store
    = (inr body, w') ∧
    files w' = <["../contracts/Ape.sol" := "contract Ape { string s = APE; }"]>
                 (files Fixture.store) ∧
    trace w' = trace Fixture.store ++
                 [EReadFile "../templates/SimpleNFT.sol";
                  EWriteFile "../contracts/Ape.sol" "contract Ape { string s = APE; }"].
Proof.
  destruct (read_item_writes_before_compiling Fixture.services Posix.host "Ape" "APE" "1" "10"
              "2" "ipfs" Fixture.store
              "contract <TOKEN_NAME> { string s = <TOKEN_SYMBOL>; }"
              "contract <TOKEN_NAME> { string s = <TOKEN_SYMBOL>; }" eq_refl eq_refl)
    as (body & w' & Hrun & Hrest).
  change (open_for_writing Posix.host _) with (@None exn) in Hrest.
  cbv beta iota in Hrest. destruct Hrest as (Hfiles & Htrace & _).
  exists body, w'. split; [exact Hrun|]. split; [exact Hfiles|exact Htrace].
Defined.

(** X25. The two servers render alike: for a name that is not an absolute
    path, [read_item] leaves the file system exactly as
    [deploy_template_contract] does when it is asked for the template
    [SimpleNFT], the six parameters of [read_item] and the NFT name as
    contract name. *)
Theorem read_item_writes_what_deploy_writes
    (tk : Toolkit) (sv : Services)
    (nft_name nft_symbol mint_cost max_supply max_mint_amount_per_tx base_uri code : string)
    (publish_source : bool) (w : World) :
  validate_filename tk "SimpleNFT.sol" = None →
  validate_filename tk (nft_name +:+ ".sol") = None →
  Str.startswith (nft_name +:+ ".sol") "/" = false →
  files w !! "../templates/SimpleNFT.sol" = Some code →
  files (read_item sv nft_name nft_symbol mint_cost max_supply max_mint_amount_per_tx
           base_uri w).2
  = files (deploy_template_contract tk "SimpleNFT"
             (simple_nft_params nft_name nft_symbol mint_cost max_supply
                max_mint_amount_per_tx base_uri) nft_name publish_source w).2.
Proof.
  intros Ht Hc Hrel Hf. rewrite read_item_run. cbv zeta. rewrite Hf.
  rewrite (deploy_run tk "SimpleNFT" nft_name _ publish_source w code Ht Hc Hf). cbv zeta.
  rewrite (contract_path_of_relative nft_name Hrel).
  destruct (project_load tk _) as [exc|proj]; [done|].
  by destruct (proj !! nft_name).
Qed.

Lemma read_item_writes_what_deploy_writes_witness :
  files (read_item Fixture.services "Ape" "APE" "1" "10" "2" "ipfs" Fixture.store).2
  = files (deploy_template_contract Demo.toolkit "SimpleNFT"
             (simple_nft_params "Ape" "APE" "1" "10" "2" "ipfs") "Ape" true Fixture.store).2.
Proof.
  apply (read_item_writes_what_deploy_writes Demo.toolkit Fixture.services "Ape" "APE" "1"
           "10" "2" "ipfs" "contract <TOKEN_NAME> { string s = <TOKEN_SYMBOL>; }" true
           Fixture.store); reflexivity.
Defined.

(** ** Any sequence of requests *)

Lemma frames_refl (w : World) : frames w w.
Proof. repeat split; [lia|]. exists []. by rewrite app_nil_r. Qed.

Lemma frames_advance (w : World) fs n evs :
  (open_projects w ≤ n)%nat → frames w (advance w fs n evs).
Proof. intros Hn. repeat split; [done|]. by exists evs. Qed.

Lemma frames_trans (w1 w2 w3 : World) : frames w1 w2 → frames w2 w3 → frames w1 w3.
Proof.
  intros (Hc1 & Ha1 & Ho1 & evs1 & Ht1) (Hc2 & Ha2 & Ho2 & evs2 & Ht2).
  repeat split; [congruence|congruence|lia|].
  exists (evs1 ++ evs2). by rewrite Ht2, Ht1, app_assoc.
Qed.

Ltac frames_done := first [apply frames_refl | apply frames_advance; simpl; lia].

Lemma deploy_frames (tk : Toolkit) (template_name contract_name : string)
    (template_params : list (string * string)) (publish_source : bool) (w : World) :
  frames w (deploy_template_contract tk template_name template_params contract_name
              publish_source w).2.
Proof.
  destruct (validate_filename tk (with_sol template_name)) as [msg|] eqn:Ht.
  { rewrite (deploy_run_invalid_name _ _ _ _ _ _ msg); [frames_done|by left]. }
  destruct (validate_filename tk (contract_name +:+ ".sol")) as [msg|] eqn:Hc.
  { rewrite (deploy_run_invalid_name _ _ _ _ _ _ msg); [frames_done|by right]. }
  destruct (files w !! template_path_of template_name) as [code|] eqn:Hf.
  - rewrite (deploy_run _ _ _ _ _ _ code Ht Hc Hf). cbv zeta.
    destruct (project_load tk _) as [exc|proj]; [frames_done|].
    destruct (proj !! contract_name); frames_done.
  - rewrite deploy_run_missing_template by done. frames_done.
Qed.

Lemma interact_frames (tk : Toolkit) (contract_name at_address contract_method : string)
    (method_args : list string) (w : World) :
  frames w (interact_contract tk contract_name at_address contract_method method_args w).2.
Proof.
  rewrite interact_run. cbv zeta. repeat case_match; frames_done.
Qed.

Lemma store_frames (tk : Toolkit) (template_name template_bytes : string) (w : World) :
  frames w (get_template_code tk template_name w).2 ∧
  frames w (add_template tk template_name template_bytes w).2 ∧
  frames w (delete_template tk template_name w).2.
Proof.
  destruct (validate_filename tk (with_sol template_name)) as [msg|] eqn:Hv.
  - destruct (store_run_invalid_name tk template_name template_bytes msg w Hv)
      as (-> & -> & ->).
    repeat split; frames_done.
  - rewrite get_template_code_run, add_template_run, delete_template_run by done.
    cbv zeta. destruct (files w !! template_path_of template_name); repeat split; frames_done.
Qed.

(** A request that is neither [set_account_active] nor
    [set_network_active] leaves the session alone. *)
Lemma serve_frames (tk : Toolkit) (sv : Services) (req : Request) (w : World) :
  is_set_account req = false → is_set_network req = false →
  frames w (serve tk sv req w).
Proof.
  destruct req; simpl; try done; intros _ _; unfold world_after.
  - frames_done.
  - unfold get_account_active; run. destruct (account (ACTIVEACCOUNT w)); frames_done.
  - unfold generate_new_account, lift_call; run.
    destruct (accounts_add sv _) as [exc|new]; simpl; [frames_done|].
    destruct (truthy _); simpl; [|frames_done].
    destruct (account_save sv _ _ _); frames_done.
  - rewrite delete_account_run. cbv zeta. repeat case_match; frames_done.
  - unfold get_network_active; run. destruct (connections w); frames_done.
  - frames_done.
  - apply (store_frames tk _ "" w).
  - apply (store_frames tk _ _ w).
  - apply (store_frames tk _ "" w).
  - apply deploy_frames.
  - rewrite get_contracts_run. case_match; frames_done.
  - apply interact_frames.
  - unfold pm_delete, lift_call; run. destruct (pm_delete_package sv _); frames_done.
  - unfold pm_install, lift_call; run. destruct (pm_install_package sv _); frames_done.
Qed.

(** What the two setters leave alone. *)
Lemma serve_setters (tk : Toolkit) (sv : Services) (req : Request) (w : World) :
  let w' := serve tk sv req w in
  (is_set_network req = false → connections w' = connections w) ∧
  (is_set_account req = false → ACTIVEACCOUNT w' = ACTIVEACCOUNT w) ∧
  ((length (connections w) ≤ 1)%nat → (length (connections w') ≤ 1)%nat) ∧
  (open_projects w ≤ open_projects w')%nat ∧
  ∃ evs, trace w' = trace w ++ evs.
Proof.
  intros w'. subst w'.
  destruct (is_set_account req) eqn:Ha; [|destruct (is_set_network req) eqn:Hn].
  - destruct req; try done. simpl. unfold world_after.
    rewrite set_account_active_run.
    destruct (accounts_load tk _ _); simpl; (repeat split; [done..|lia|by eexists]).
  - destruct req; try done. simpl. unfold world_after.
    rewrite set_network_active_run. cbv zeta.
    destruct (network_connect tk _); simpl.
    + repeat split; [done..| |lia|by eexists].
      destruct (connections w) as [|? [|? ?]]; simpl; lia.
    + repeat split; [done..| |lia|by eexists].
      destruct (connections w) as [|? [|? ?]]; simpl; lia.
  - destruct (serve_frames tk sv req w Ha Hn) as (Hc & Hacc & Ho & Ht).
    repeat split; [done..| |done|done]. by rewrite Hc.
Qed.

(** X26. Whatever requests arrive, in whatever order, the network never
    holds two connections: a server that starts with at most one open
    connection has at most one after any sequence of requests. *)
Theorem serve_all_keeps_one_connection
    (tk : Toolkit) (sv : Services) (reqs : list Request) (w : World) :
  (length (connections w) ≤ 1)%nat →
  (length (connections (serve_all tk sv reqs w)) ≤ 1)%nat.
Proof.
  revert w. induction reqs as [|req reqs IH]; intros w Hw; [done|].
  change (serve_all tk sv (req :: reqs) w) with (serve_all tk sv reqs (serve tk sv req w)).
  apply IH. by apply (serve_setters tk sv req w).
Qed.

Lemma serve_all_keeps_one_connection_witness :
  (length (connections
     (serve_all Demo.toolkit Fixture.services
        [SetNetworkActive "goerli"; SetNetworkActive "nowhere"; SetNetworkActive "development"]
        Demo.signed_in)) ≤ 1)%nat.
Proof.
  apply (serve_all_keeps_one_connection Demo.toolkit Fixture.services
           [SetNetworkActive "goerli"; SetNetworkActive "nowhere"; SetNetworkActive "development"]
           Demo.signed_in).
  simpl. lia.
Defined.

(** X27. Only [set_account_active] changes who signs: after any sequence
    of requests that holds no [set_account_active], the active account
    and its name are what they were at the start; deleting, generating,
    deploying and interacting never sign anyone in or out. *)
Theorem serve_all_keeps_identity
    (tk : Toolkit) (sv : Services) (reqs : list Request) (w : World) :
  forallb (λ req, negb (is_set_account req)) reqs = true →
  ACTIVEACCOUNT (serve_all tk sv reqs w) = ACTIVEACCOUNT w.
Proof.
  revert w. induction reqs as [|req reqs IH]; intros w Hreqs; [done|].
  simpl in Hreqs. apply andb_true_iff in Hreqs as [Hreq Hreqs].
  change (serve_all tk sv (req :: reqs) w) with (serve_all tk sv reqs (serve tk sv req w)).
  rewrite IH by done.
  apply (serve_setters tk sv req w). by destruct (is_set_account req).
Qed.

Lemma serve_all_keeps_identity_witness :
  ACTIVEACCOUNT
    (serve_all Demo.toolkit Fixture.services
       [DeleteAccount "deployer" "secret"; GenerateNewAccount "new" "pw" None;
        SetNetworkActive "goerli";
        DeployTemplateContract "Simple" [("NAME", "Foo"); ("VAL", "5")] "Foo" true]
       Demo.signed_in)
  = ACTIVEACCOUNT Demo.signed_in.
Proof.
  apply serve_all_keeps_identity. reflexivity.
Defined.

(** X28. Nothing a request leaves open is ever closed by a later one, and
    nothing is ever taken out of the record of calls: along any sequence
    of requests the number of open project handles never goes down and the
    trace only grows at its end. *)
Theorem serve_all_never_releases
    (tk : Toolkit) (sv : Services) (reqs : list Request) (w : World) :
  (open_projects w ≤ open_projects (serve_all tk sv reqs w))%nat ∧
  trace w `prefix_of` trace (serve_all tk sv reqs w).
Proof.
  revert w. induction reqs as [|req reqs IH]; intros w; [done|].
  change (serve_all tk sv (req :: reqs) w) with (serve_all tk sv reqs (serve tk sv req w)).
  destruct (IH (serve tk sv req w)) as [Ho Ht].
  destruct (serve_setters tk sv req w) as (_ & _ & _ & Ho' & evs & Ht').
  split; [lia|]. etrans; [|exact Ht]. by exists evs.
Qed.

(** ** The order of the parameters and the extension of the name *)

Section order_facts.
Implicit Types (x n t : string) (p : list (string * string)).

Lemma render_text p x : Str.free_of Str.is_lt x = true → render x p = x.
Proof.
  intros Hx. induction p as [|[k v] p IH]; [done|].
  change (render x ((k, v) :: p)) with (render (Str.replace (token k) v x) p).
  by rewrite replace_text_only.
Qed.

Lemma render_open p x n :
  Str.free_of Str.is_lt x = true → Str.bracket_free n = true →
  render (x +:+ String "<" n) p = x +:+ String "<" n.
Proof.
  intros Hx Hn. apply render_no_occurrence. intros k _ Hocc.
  apply occurs_after_text in Hocc; [|done]. by apply occurs_in_open in Hocc.
Qed.

Lemma plain_params_forall p :
  plain_params p = true ↔
  ∀ k v, (k, v) ∈ p → Str.bracket_free k = true ∧ Str.bracket_free v = true.
Proof.
  split.
  - intros Hp k v. by apply plain_params_item.
  - induction p as [|[k v] p IH]; intros H; [done|]. simpl.
    destruct (H k v) as [-> ->]; [apply elem_of_cons; by left|]. simpl.
    apply IH. intros k' v' Hin. apply H. apply elem_of_cons. by right.
Qed.

Lemma plain_params_keys_plain p : plain_params p = true → plain_keys p = true.
Proof.
  induction p as [|[k v] p IH]; [done|]. simpl.
  intros [[-> _]%andb_true_iff Hp]%andb_true_iff. by apply IH.
Qed.

Lemma render_order_Flat t p p' :
  Flat t → plain_params p = true → NoDup (p.*1) → p ≡ₚ p' → render t p = render t p'.
Proof.
  intros Ht Hp Hnodup Hperm.
  assert (plain_params p' = true) as Hp'.
  { apply plain_params_forall. intros k v Hin.
    apply (proj1 (plain_params_forall p) Hp). by rewrite Hperm. }
  assert (NoDup (p'.*1)) as Hnodup' by by rewrite <- Hperm.
  induction Ht as [x Hx|x n Hx Hn|x n r Hx Hn Hr IH].
  - by rewrite (render_text p x Hx), (render_text p' x Hx).
  - by rewrite (render_open p x n Hx Hn), (render_open p' x n Hx Hn).
  - destruct (decide (n ∈ p.*1)) as [Hin|Hnotin].
    + apply list_elem_of_fmap in Hin as ([k v] & -> & Hin). simpl.
      rewrite (render_replaces_token p k v x r Hp Hnodup Hin) by by apply Closed_text.
      assert ((k, v) ∈ p') as Hin' by by rewrite <- Hperm.
      rewrite (render_replaces_token p' k v x r Hp' Hnodup' Hin') by by apply Closed_text.
      by rewrite (render_text p x Hx), (render_text p' x Hx), IH.
    + assert (n ∉ p'.*1) as Hnotin' by by rewrite <- Hperm.
      rewrite !render_keeps_absent_token by auto using plain_params_keys_plain.
      by rewrite (render_text p x Hx), (render_text p' x Hx), IH.
Qed.

Lemma with_sol_idem n : with_sol (with_sol n) = with_sol n.
Proof.
  unfold with_sol. destruct (Str.endswith n ".sol") eqn:He.
  - by rewrite He.
  - by rewrite endswith_app.
Qed.

End order_facts.

(** X29. The order of the parameters does not matter.  On a template
    whose placeholders are not nested, two mappings with the same items
    in different orders — distinct keys, no angle bracket in keys or
    values — render to the same source. *)
Theorem render_ignores_order (t : string) (p p' : list (string * string)) :
  flat t = true → plain_params p = true → NoDup (p.*1) → p ≡ₚ p' →
  render t p = render t p'.
Proof. intros Ht%flat_Flat. by apply render_order_Flat. Qed.

Lemma render_ignores_order_witness :
  render Demo.template [("NAME", "Foo"); ("VAL", "5")]
  = render Demo.template [("VAL", "5"); ("NAME", "Foo")].
Proof.
  apply render_ignores_order.
  - reflexivity.
  - reflexivity.
  - apply (bool_decide_unpack _). by vm_compute.
  - apply perm_swap.
Defined.

(** X30. The [".sol"] extension of a template name is optional: for a
    name that does not already end in [".sol"], every handler that takes
    a template name treats the name with [".sol"] appended exactly as the
    name itself. *)
Theorem template_extension_is_optional
    (tk : Toolkit) (template_name : string) (w : World) :
  Str.endswith template_name ".sol" = false →
  (∀ template_params contract_name publish_source,
     deploy_template_contract tk (template_name +:+ ".sol") template_params contract_name
       publish_source w
     = deploy_template_contract tk template_name template_params contract_name
         publish_source w) ∧
  get_template_code tk (template_name +:+ ".sol") w = get_template_code tk template_name w ∧
  (∀ template_bytes,
     add_template tk (template_name +:+ ".sol") template_bytes w
     = add_template tk template_name template_bytes w) ∧
  delete_template tk (template_name +:+ ".sol") w = delete_template tk template_name w.
Proof.
  intros Hplain.
  assert (with_sol (template_name +:+ ".sol") = with_sol template_name) as Hsame.
  { unfold with_sol. by rewrite Hplain, endswith_app. }
  unfold deploy_template_contract, get_template_code, add_template, delete_template.
  by rewrite Hsame.
Qed.

Lemma template_extension_is_optional_witness :
  get_template_code Demo.toolkit ("Simple" +:+ ".sol") Demo.fresh
  = get_template_code Demo.toolkit "Simple" Demo.fresh ∧
  (get_template_code Demo.toolkit "Simple" Demo.fresh).1
  = inr (TemplateCode "Simple.sol" Demo.template).
Proof.
  split; [|reflexivity].
  apply (proj1 (proj2 (template_extension_is_optional Demo.toolkit "Simple" Demo.fresh
                         eq_refl))).
Defined.
